(** * Feature-engineering utilities for time-series forecasting

    A shallow embedding of
    [contrib/tsperf/energy_utils/feature_engineering/feature_utils.py]
    and the properties of its calendar features, its "same period in
    previous years/weeks" lag features, its normalizations, its lags and
    moving averages of a frame and its sequence builders.

    Conventions of the embedding:
    - a Python [int] is a [Z]; [range(a, b)] is the list [range a b];
    - a pandas [Timestamp] is the number of seconds since the epoch, a
      [timedelta] a number of seconds ([DATETIME_FORMAT] has a resolution
      of one second); a [date] is its proleptic Gregorian ordinal;
    - the offsets of the lag features are built with [timedelta], which
      raises beyond the days that Python holds, and are subtracted from a
      [Timestamp], which raises beyond the 64-bit nanoseconds of a pandas
      [Timedelta] (lemma [timedelta_spec]); the timestamps themselves are
      taken to lie in the range of [Timestamp], and the ends of that range
      (the years 1677 and 2262) are not modelled: the statements that the
      lag features are computed for offsets of any size are about series
      whose shifted timestamps stay within it ([shifts_in_range]), as do
      those of a series from 1970 on (lemma [shifted_timestamp_in_range]);
    - a float is an exact rational ([Q]) and [NaN] is [None]; the
      logarithm, which has no rational value, is a parameter of the
      function that takes it;
    - a column passed to a function is a list: two columns passed
      together are lists or arrays, or columns of one frame, not [Series]
      with labels of their own that pandas would align;
    - a raised exception is the [Raise] case of [result]. *)

From Stdlib Require Import String Ascii.
From Stdlib Require Import ZArith QArith Qround List Bool Lia.
From Stdlib Require Import DecimalString DecimalZ DecimalPos.
From Stdlib Require Import Sorting.Sorted Sorting.Permutation FinFun.
Import ListNotations.

Local Open Scope Z_scope.

(** ** Python integers, ranges and [str] *)

(** [range(a, b)]: the integers [a <= x < b] in increasing order. *)
Definition range (a b : Z) : list Z :=
  map (fun k => a + Z.of_nat k) (seq 0 (Z.to_nat (b - a))).

(** [str(z)] for an integer. *)
Definition str (z : Z) : string := NilZero.string_of_int (Z.to_int z).

(** ** Exceptions *)

Inductive exn : Type :=
| KeyError          (* a label or a column name that is not there *)
| ValueError        (* lengths that do not match, [min] of nothing *)
| UnboundLocalError (* a local variable read before it was assigned *)
| OverflowError     (* a [timedelta] of more days than Python holds *)
| OutOfBoundsTimedelta (* a [timedelta] beyond the 64-bit nanoseconds of pandas *).

Inductive result (A : Type) : Type :=
| Ok (a : A)
| Raise (e : exn).

Arguments Ok {A} a.
Arguments Raise {A} e.

Definition bind {A B : Type} (r : result A) (k : A -> result B) : result B :=
  match r with
  | Ok a => k a
  | Raise e => Raise e
  end.

Notation "x <- r ;; k" := (bind r (fun x => k))
  (at level 61, r at next level, right associativity).

(** ** Candidate lag offsets (lines 449-453 and 511-515) *)

Definition week_lag_base : Z := 52.

Definition week_lag_last_year (week_window : Z) : list Z :=
  range (week_lag_base - week_window) (week_lag_base + week_window + 1).

(** [for y in range(n_years): week_lag_all += [x + y * 52 for x in ...]] *)
Definition week_lag_all (n_years week_window : Z) : list Z :=
  fold_left
    (fun acc y => acc ++ map (fun x => x + y * 52) (week_lag_last_year week_window))
    (range 0 n_years) [].

Definition day_lag_base : Z := 365.

Definition day_lag_last_year (day_window : Z) : list Z :=
  range (day_lag_base - day_window) (day_lag_base + day_window + 1).

Definition day_lag_all (n_years day_window : Z) : list Z :=
  fold_left
    (fun acc y => acc ++ map (fun x => x + y * 365) (day_lag_last_year day_window))
    (range 0 n_years) [].

(** The offset sets as the specification words them:
    [{base * y + k : y in [0, Y), k in [-w, w]}]. *)
Definition spec_offset (base Y w x : Z) : Prop :=
  exists y k, 0 <= y < Y /\ - w <= k <= w /\ x = base * y + k.


(** ** Calendar fields of a datetime ([Series.dt]) *)

Record datetime : Type := mkdatetime {
  year : Z; month : Z; day : Z; hour : Z; minute : Z; second : Z
}.

(** [calendar.isleap] *)
Definition isleap (y : Z) : bool :=
  (y mod 4 =? 0) && (negb (y mod 100 =? 0) || (y mod 400 =? 0)).

Definition days_in_month (y m : Z) : Z :=
  if m =? 2 then (if isleap y then 29 else 28)
  else if (m =? 4) || (m =? 6) || (m =? 9) || (m =? 11) then 30
  else 31.

Definition days_before_month (y m : Z) : Z :=
  fold_right Z.add 0 (map (days_in_month y) (range 1 m)).

Definition days_before_year (y : Z) : Z :=
  let y' := y - 1 in y' * 365 + y' / 4 - y' / 100 + y' / 400.

(** Proleptic Gregorian ordinal of the date; day 1 is 0001-01-01. *)
Definition toordinal (dt : datetime) : Z :=
  days_before_year (year dt) + days_before_month (year dt) (month dt) + day dt.

(** [dt.dayofyear], 1-based. *)
Definition dayofyear (dt : datetime) : Z :=
  days_before_month (year dt) (month dt) + day dt.

(** [dt.dayofweek], Monday is 0. *)
Definition dayofweek (dt : datetime) : Z := (toordinal dt + 6) mod 7.

Definition valid_datetime (dt : datetime) : Prop :=
  1 <= month dt <= 12 /\
  1 <= day dt <= days_in_month (year dt) (month dt) /\
  0 <= hour dt <= 23 /\ 0 <= minute dt <= 59 /\ 0 <= second dt <= 59.

(** ** [day_type] (lines 28-72) *)

Definition WEEK_DAY_TYPE_MAP : list (Z * Z) := [(1, 2); (3, 2)].
Definition HOLIDAY_CODE : Z := 7.
Definition SEMI_HOLIDAY_CODE : Z := 8.

(** [Series.replace] with a dictionary: keys are looked up in the original
    value, the replacements are not chained. *)
Definition replace (m : list (Z * Z)) (x : Z) : Z :=
  match find (fun p => fst p =? x) m with
  | Some p => snd p
  | None => x
  end.

(** [col.loc[mask] = v] *)
Fixpoint mask_assign {A : Type} (mask : list bool) (v : A) (col : list A) : list A :=
  match col, mask with
  | x :: col', b :: mask' => (if b then v else x) :: mask_assign mask' v col'
  | _, _ => col
  end.

(** [col[mask]] *)
Fixpoint mask_select {A : Type} (mask : list bool) (col : list A) : list A :=
  match col, mask with
  | x :: col', b :: mask' =>
      if b then x :: mask_select mask' col' else mask_select mask' col'
  | _, _ => []
  end.

Definition memZ (x : Z) (l : list Z) : bool := existsb (Z.eqb x) l.

(** Midnight of the date of [dt], in seconds. *)
Definition date_of (dt : datetime) : Z := toordinal dt * 86400.

(** [pd.date_range(start, end, freq="D")] *)
Definition date_range_D (start stop : Z) : list Z :=
  map (fun k => start + k * 86400) (range 0 ((stop - start) / 86400 + 1)).

Definition day_type (datetime_col : list datetime) (holiday_col : option (list Z))
    (semi_holiday_offset : Z) : list Z :=
  let datetype := map (fun dt => replace WEEK_DAY_TYPE_MAP (dayofweek dt)) datetime_col in
  match holiday_col with
  | None => datetype
  | Some holiday_col =>
      let holiday_mask := map (fun h => 0 <? h) holiday_col in
      let datetype := mask_assign holiday_mask HOLIDAY_CODE datetype in
      let Date := map date_of datetime_col in
      let holiday_dates := mask_select holiday_mask Date in
      let semi_holiday_dates :=
        flat_map (fun d => date_range_D (d - semi_holiday_offset) (d + semi_holiday_offset))
                 holiday_dates in
      let semi_holiday_dates :=
        filter (fun d => negb (memZ d holiday_dates)) semi_holiday_dates in
      mask_assign (map (fun d => memZ d semi_holiday_dates) Date) SEMI_HOLIDAY_CODE datetype
  end.

(** ** [time_of_year] (lines 80-103) *)

Definition time_of_year_at (dt : datetime) : Q :=
  let TimeOfYear := (dayofyear dt - 1) * 24 + hour dt in
  let YearLength := if isleap (year dt) then 366 else 365 in
  inject_Z TimeOfYear / inject_Z (YearLength * 24 - 1).

Definition time_of_year (datetime_col : list datetime) : list Q :=
  map time_of_year_at datetime_col.

(** ** Data frames

    A frame is its index (the timestamps of the rows) and its columns in
    their order; a cell is a float or [NaN]. *)

Definition cell : Type := option Q.

Record DataFrame : Type := mkDF {
  index : list Z;
  columns : list (string * list cell)
}.

(** [df[name]] *)
Definition get_col (df : DataFrame) (name : string) : result (list cell) :=
  match find (fun c => String.eqb (fst c) name) (columns df) with
  | Some c => Ok (snd c)
  | None => Raise KeyError
  end.

Fixpoint set_col_in (cols : list (string * list cell)) (name : string) (col : list cell)
    : list (string * list cell) :=
  match cols with
  | [] => [(name, col)]
  | c :: cols' =>
      if String.eqb (fst c) name then (name, col) :: cols'
      else c :: set_col_in cols' name col
  end.

(** [df[name] = col]: an existing column is replaced where it stands, a
    new one is appended. *)
Definition set_col (df : DataFrame) (name : string) (col : list cell) : DataFrame :=
  mkDF (index df) (set_col_in (columns df) name col).

(** [df[names]], a frame of the listed columns. *)
Fixpoint select_cols (df : DataFrame) (names : list string)
    : result (list (string * list cell)) :=
  match names with
  | [] => Ok []
  | n :: names' =>
      c <- get_col df n ;;
      rest <- select_cols df names' ;;
      Ok ((n, c) :: rest)
  end.

Definition select (df : DataFrame) (names : list string) : result DataFrame :=
  cols <- select_cols df names ;; Ok (mkDF (index df) cols).

Definition has_col (df : DataFrame) (name : string) : bool :=
  existsb (fun c => String.eqb (fst c) name) (columns df).

(** [df.drop(names, axis=1)] *)
Definition drop (df : DataFrame) (names : list string) : result DataFrame :=
  if forallb (has_col df) names then
    Ok (mkDF (index df)
             (filter (fun c => negb (existsb (String.eqb (fst c)) names)) (columns df)))
  else Raise KeyError.

(** [min(col)] and [max(col)] of a column of timestamps. *)
Definition py_min (l : list Z) : result Z :=
  match l with
  | [] => Raise ValueError
  | x :: l' => Ok (fold_left Z.min l' x)
  end.

Definition py_max (l : list Z) : result Z :=
  match l with
  | [] => Raise ValueError
  | x :: l' => Ok (fold_left Z.max l' x)
  end.

(** The cells of [col] in the rows labelled [t]. *)
Definition rows_at (idx : list Z) (col : list cell) (t : Z) : list cell :=
  map snd (filter (fun p => fst p =? t) (combine idx col)).

(** [df.loc[labels, name].values]: every row of every label, in the order
    of the labels; a label that is not in the index is a [KeyError]. *)
Fixpoint loc_values (idx : list Z) (col : list cell) (labels : list Z)
    : result (list cell) :=
  match labels with
  | [] => Ok []
  | t :: labels' =>
      match rows_at idx col t with
      | [] => Raise KeyError
      | vs => rest <- loc_values idx col labels' ;; Ok (vs ++ rest)
      end
  end.

Fixpoint mask_set {A : Type} (mask : list bool) (vals : list A) (col : list A) : list A :=
  match col, mask with
  | x :: col', true :: mask' =>
      match vals with
      | v :: vals' => v :: mask_set mask' vals' col'
      | [] => x :: mask_set mask' [] col'
      end
  | x :: col', false :: mask' => x :: mask_set mask' vals col'
  | _, _ => col
  end.

(** [df.loc[mask, name] = vals]: as many values as selected rows, or a
    [ValueError]. *)
Definition loc_set_mask (df : DataFrame) (mask : list bool) (name : string)
    (vals : list cell) : result DataFrame :=
  col <- get_col df name ;;
  if Nat.eqb (List.length vals) (List.length (filter (fun b => b) mask))
  then Ok (set_col df name (mask_set mask vals col))
  else Raise ValueError.

(** ** Row-wise aggregation (axis=1) *)

(** The cells of row [i] across the columns of a frame. *)
Definition row_of (cols : list (string * list cell)) (i : nat) : list cell :=
  map (fun c => nth i (snd c) None) cols.

Definition rows_of (df : DataFrame) : list (list cell) :=
  map (row_of (columns df)) (seq 0 (List.length (index df))).

(** The values of a row that are not [NaN] ([skipna=True]). *)
Definition present (row : list cell) : list Q :=
  flat_map (fun c => match c with Some v => [v] | None => [] end) row.

Definition Qsum (l : list Q) : Q := fold_right Qplus 0%Q l.

Definition Qlen (l : list Q) : Q := inject_Z (Z.of_nat (List.length l)).

Definition nanmean (row : list cell) : cell :=
  match present row with
  | [] => None
  | vs => Some (Qsum vs / Qlen vs)%Q
  end.

(** Insertion into an ascending list of rationals. *)
Fixpoint Qinsert (x : Q) (l : list Q) : list Q :=
  match l with
  | [] => [x]
  | y :: l' => if Qle_bool x y then x :: l else y :: Qinsert x l'
  end.

Definition Qsort (l : list Q) : list Q := fold_right Qinsert [] l.

(** Quantile with linear interpolation: position [q * (n - 1)] in the
    sorted values. *)
Definition nanquantile (q : Q) (row : list cell) : cell :=
  match present row with
  | [] => None
  | vs =>
      let s := Qsort vs in
      let pos := (q * (Qlen vs - 1))%Q in
      let lo := Qfloor pos in
      let x_lo := nth (Z.to_nat lo) s 0%Q in
      let x_hi := nth (Z.to_nat (Qceiling pos)) s 0%Q in
      Some (x_lo + (x_hi - x_lo) * (pos - inject_Z lo))%Q
  end.

(** Sample variance ([ddof=1]); no value for fewer than two values. *)
Definition nanvar (row : list cell) : cell :=
  match present row with
  | [] | [_] => None
  | vs =>
      let m := (Qsum vs / Qlen vs)%Q in
      Some (Qsum (map (fun x => (x - m) * (x - m))%Q vs) / (Qlen vs - 1))%Q
  end.

(** [round] of numpy: to the nearest integer, a half to the even one. *)
Definition round_half_even (x : Q) : Z :=
  let f := Qfloor x in
  match (x - inject_Z f ?= 1 # 2)%Q with
  | Lt => f
  | Gt => f + 1
  | Eq => if Z.even f then f else f + 1
  end.

Definition round_cell (c : cell) : cell :=
  option_map (fun x => inject_Z (round_half_even x)) c.

(** [round(sqrt(v))] for [0 <= v], computed exactly: with
    [m = floor (2 sqrt v)] the nearest integer is [(m + 1) / 2], and
    [sqrt v] is a half exactly when [4 v = m * m] with [m] odd. *)
Definition round_sqrt (v : Q) : Z :=
  let m := Z.sqrt (Qfloor (4 * v)) in
  let up := (m + 1) / 2 in
  if Qeq_bool (4 * v) (inject_Z (m * m)) && Z.odd m && Z.odd up then up - 1 else up.

Definition round_std (row : list cell) : cell :=
  option_map (fun v => inject_Z (round_sqrt v)) (nanvar row).

(** [round(frame.mean(axis=1))] and its siblings, one cell per row. *)
Definition round_mean (df : DataFrame) : result (list cell) :=
  Ok (map (fun r => round_cell (nanmean r)) (rows_of df)).

(** [quantile] refuses a [q] outside [[0, 1]]. *)
Definition round_quantile (q : Q) (df : DataFrame) : result (list cell) :=
  if Qle_bool 0 q && Qle_bool q 1
  then Ok (map (fun r => round_cell (nanquantile q r)) (rows_of df))
  else Raise ValueError.

Definition round_stddev (df : DataFrame) : result (list cell) :=
  Ok (map round_std (rows_of df)).

Definition is_None {A : Type} (o : option A) : bool :=
  match o with None => true | Some _ => false end.

Definition is_Some {A : Type} (o : option A) : bool := negb (is_None o).

(** ** [same_week_day_hour_lag] and [same_day_hour_lag] (lines 417-538) *)

Definition weeks (w : Z) : Z := w * 604800.
Definition days (d : Z) : Z := d * 86400.

(** A [timedelta] of [secs] seconds that a [Timestamp] can be shifted by:
    Python holds at most 999999999 days, and pandas, which turns the
    operand into a [Timedelta], what fits into 64-bit nanoseconds, a
    little more than 106751 days. *)
Definition timedelta_ok (secs : Z) : bool :=
  (Z.abs (secs / 86400) <=? 999999999) &&
  (Z.abs (secs * 1000000000) <=? 9223372036854775807).

(** [timestamp - timedelta(...)]: the operand, or the exception that
    Python or pandas raises for it. *)
Definition timedelta (secs : Z) : result Z :=
  if 999999999 <? Z.abs (secs / 86400) then Raise OverflowError
  else if 9223372036854775807 <? Z.abs (secs * 1000000000) then Raise OutOfBoundsTimedelta
  else Ok secs.

(** One turn of the loop over the candidate offsets (lines 456-466 and
    518-528; the two loops differ in the [timedelta] and in the prefix of
    the column name only). The state is the frame and the list of the names
    of the lag columns. The test of the [if] shifts [max_time_stamp] for
    every offset, also for those whose column is left out. *)
Definition lag_step (delta : Z -> Z) (prefix : string) (min_time_stamp max_time_stamp : Z)
    (st : DataFrame * list string) (w : Z) : result (DataFrame * list string) :=
  let '(df, lag_cols) := st in
  lag <- timedelta (delta w) ;;
  if min_time_stamp <=? max_time_stamp - lag then
    let col_name := (prefix ++ str w)%string in
    let lag_cols := lag_cols ++ [col_name] in
    let lag_datetime := map (fun t => t - lag) (index df) in
    let valid_lag_mask := map (fun t => min_time_stamp <=? t) lag_datetime in
    let df := set_col df col_name (map (fun _ => None) (index df)) in
    value <- get_col df "value" ;;
    vals <- loc_values (index df) value (mask_select valid_lag_mask lag_datetime) ;;
    df <- loc_set_mask df valid_lag_mask col_name vals ;;
    Ok (df, lag_cols)
  else Ok (df, lag_cols).

Fixpoint lag_loop (delta : Z -> Z) (prefix : string) (min_time_stamp max_time_stamp : Z)
    (st : DataFrame * list string) (lags : list Z) : result (DataFrame * list string) :=
  match lags with
  | [] => Ok st
  | w :: lags' =>
      st' <- lag_step delta prefix min_time_stamp max_time_stamp st w ;;
      lag_loop delta prefix min_time_stamp max_time_stamp st' lags'
  end.

(** [pd.DataFrame({"Datetime": datetime_col, "value": value_col})] with
    [Datetime] as its index. The two columns are taken as lists or arrays,
    or as two columns of one frame: lists and arrays of different lengths
    are refused with a [ValueError]. Two [Series] with different labels are
    outside this embedding: pandas aligns them on their labels and fills
    them up, which gives rows without a timestamp or without a value. *)
Definition new_frame (datetime_col : list Z) (value_col : list cell) : result DataFrame :=
  if Nat.eqb (List.length datetime_col) (List.length value_col)
  then Ok (mkDF datetime_col [("value"%string, value_col)])
  else Raise ValueError.

(** Lines 441-466: the frame with its lag columns, before aggregation. *)
Definition same_week_day_hour_lag_cols (datetime_col : list Z) (value_col : list cell)
    (n_years week_window : Z) : result (DataFrame * list string) :=
  min_time_stamp <- py_min datetime_col ;;
  max_time_stamp <- py_max datetime_col ;;
  df <- new_frame datetime_col value_col ;;
  lag_loop weeks "week_lag_" min_time_stamp max_time_stamp (df, [])
           (week_lag_all n_years week_window).

Definition same_week_day_hour_lag (datetime_col : list Z) (value_col : list cell)
    (n_years week_window : Z) (agg_func : string) (q : option Q)
    (output_colname : string) : result DataFrame :=
  st <- same_week_day_hour_lag_cols datetime_col value_col n_years week_window ;;
  let '(df, week_lag_cols) := st in
  df <- (if String.eqb agg_func "mean" && is_None q then
           sel <- select df week_lag_cols ;;
           col <- round_mean sel ;; Ok (set_col df output_colname col)
         else if String.eqb agg_func "quantile" && is_Some q then
           sel <- select df week_lag_cols ;;
           col <- round_quantile (match q with Some q => q | None => 0%Q end) sel ;;
           Ok (set_col df output_colname col)
         else if String.eqb agg_func "std" && is_None q then
           sel <- select df week_lag_cols ;;
           col <- round_stddev sel ;; Ok (set_col df output_colname col)
         else Ok df) ;;
  select df [output_colname].

(** Lines 503-528. *)
Definition same_day_hour_lag_cols (datetime_col : list Z) (value_col : list cell)
    (n_years day_window : Z) : result (DataFrame * list string) :=
  min_time_stamp <- py_min datetime_col ;;
  max_time_stamp <- py_max datetime_col ;;
  df <- new_frame datetime_col value_col ;;
  lag_loop days "day_lag_" min_time_stamp max_time_stamp (df, [])
           (day_lag_all n_years day_window).

Definition same_day_hour_lag (datetime_col : list Z) (value_col : list cell)
    (n_years day_window : Z) (agg_func : string) (q : option Q)
    (output_colname : string) : result DataFrame :=
  st <- same_day_hour_lag_cols datetime_col value_col n_years day_window ;;
  let '(df, day_lag_cols) := st in
  df <- (if String.eqb agg_func "mean" && is_None q then
           sel <- select df day_lag_cols ;;
           col <- round_mean sel ;; Ok (set_col df output_colname col)
         else if String.eqb agg_func "quantile" && is_Some q then
           sel <- select df day_lag_cols ;;
           col <- round_quantile (match q with Some q => q | None => 0%Q end) sel ;;
           Ok (set_col df output_colname col)
         else if String.eqb agg_func "std" && is_None q then
           sel <- select df day_lag_cols ;;
           col <- round_stddev sel ;; Ok (set_col df output_colname col)
         else Ok df) ;;
  select df [output_colname].

(** ** Moving aggregates of previous weeks (lines 541-833) *)

Fixpoint has_duplicates (l : list Z) : bool :=
  match l with
  | [] => false
  | x :: l' => memZ x l' || has_duplicates l'
  end.

(** The cell of [col] in the first row labelled [t], [NaN] without one. *)
Definition value_at (idx : list Z) (col : list cell) (t : Z) : cell :=
  match rows_at idx col t with
  | [] => None
  | v :: _ => v
  end.

(** [pd.date_range(start, end, freq="H")] *)
Definition date_range_H (start stop : Z) : list Z :=
  map (fun k => start + k * 3600) (range 0 ((stop - start) / 3600 + 1)).

(** [df.asfreq("H")]: the frame on the hourly grid from its first to its
    last timestamp, [NaN] where the frame has no row; an index with a
    repeated timestamp cannot be reindexed, an empty frame is returned as
    it is. *)
Definition asfreq_H (df : DataFrame) : result DataFrame :=
  if has_duplicates (index df) then Raise ValueError
  else
    match index df with
    | [] => Ok df
    | t :: idx' =>
        let grid := date_range_H (fold_left Z.min idx' t) (fold_left Z.max idx' t) in
        Ok (mkDF grid
                 (map (fun c => (fst c, map (value_at (index df) (snd c)) grid))
                      (columns df)))
    end.

(** [df.index.is_monotonic] (increasing, not strictly). *)
Fixpoint is_monotonic (l : list Z) : bool :=
  match l with
  | x :: (y :: _) as l' => (x <=? y) && is_monotonic l'
  | _ => true
  end.

(** Insertion of a row position by its timestamp, before the positions of
    the same timestamp: the rows are inserted from the last to the first,
    so that rows of one timestamp keep their order. *)
Fixpoint insert_pos (p : Z * nat) (l : list (Z * nat)) : list (Z * nat) :=
  match l with
  | [] => [p]
  | p' :: l' => if fst p <=? fst p' then p :: l else p' :: insert_pos p l'
  end.

Definition sorted_positions (idx : list Z) : list nat :=
  map snd (fold_right insert_pos [] (combine idx (seq 0 (List.length idx)))).

(** [df.sort_index()]; rows of one timestamp stay in their order. *)
Definition sort_index (df : DataFrame) : DataFrame :=
  let ps := sorted_positions (index df) in
  mkDF (map (fun p => nth p (index df) 0) ps)
       (map (fun c => (fst c, map (fun p => nth p (snd c) None) ps)) (columns df)).

(** [x.days * 24 + x.seconds / 3600] of a [timedelta] of [x] seconds. *)
Definition timedelta_hours (x : Z) : Q :=
  (inject_Z ((x / 86400) * 24) + inject_Z (x mod 86400) / 3600)%Q.

Fixpoint Qmax_list (x : Q) (l : list Q) : Q :=
  match l with
  | [] => x
  | y :: l' => Qmax_list (if Qle_bool x y then y else x) l'
  end.

(** [max(col)] of a column of floats. *)
Definition py_maxQ (l : list Q) : result Q :=
  match l with
  | [] => Raise ValueError
  | x :: l' => Ok (Qmax_list x l')
  end.

(** [col.shift(h)]: row [k] takes the cell of row [k - h]. *)
Definition shift (h : Z) (col : list cell) : list cell :=
  map (fun k => let j := k - h in
                if (0 <=? j) && (j <? Z.of_nat (List.length col))
                then nth (Z.to_nat j) col None else None)
      (range 0 (Z.of_nat (List.length col))).

(** Lines 580-590, the same in the four functions: the hourly frame with
    its column [fct_diff], and [max_diff]. *)
Definition moving_frame (datetime_col : list Z) (value_col : list cell)
    (forecast_creation_time : Z) : result (DataFrame * Q) :=
  df <- new_frame datetime_col value_col ;;
  df <- asfreq_H df ;;
  let df := if negb (is_monotonic (index df)) then sort_index df else df in
  let fct_diff := map (fun t => timedelta_hours (t - forecast_creation_time)) (index df) in
  let df := set_col df "fct_diff" (map Some fct_diff) in
  max_diff <- py_maxQ fct_diff ;;
  Ok (df, max_diff).

(** [[(week_lag_start + w) * 24 * 7 for w in range(window_size)]] and its
    filter [h > max_diff]. *)
Definition hour_lags (week_lag_start window_size : Z) (max_diff : Q) : list Z :=
  filter (fun h => negb (Qle_bool (inject_Z h) max_diff))
         (map (fun w => (week_lag_start + w) * 24 * 7) (range 0 window_size)).

(** The local variables [tmp_df] and [tmp_col_all]: unbound until the
    first turn of the loop that has lags. *)
Definition tmp_locals : Type := option (DataFrame * list string).

(** The body of [if len(hour_lags) > 0:] that builds [tmp_df]. *)
Definition build_tmp (df : DataFrame) (lags : list Z) : result (DataFrame * list string) :=
  tmp_df <- select df ["value"%string] ;;
  fold_left
    (fun acc h =>
       st <- acc ;;
       let '(tmp_df, tmp_col_all) := st in
       let tmp_col := ("tmp_lag_" ++ str h)%string in
       value <- get_col tmp_df "value" ;;
       Ok (set_col tmp_df tmp_col (shift h value), tmp_col_all ++ [tmp_col]))
    lags (Ok (tmp_df, [])).

(** [df[output_col] = round(tmp_df[tmp_col_all].<agg>(axis=1))]; reading
    [tmp_df] before any turn has assigned it is an [UnboundLocalError]. *)
Definition assign_agg (agg : DataFrame -> result (list cell)) (df : DataFrame)
    (output_col : string) (tmp : tmp_locals) : result DataFrame :=
  match tmp with
  | None => Raise UnboundLocalError
  | Some (tmp_df, tmp_col_all) =>
      sel <- select tmp_df tmp_col_all ;;
      col <- agg sel ;;
      Ok (set_col df output_col col)
  end.

Fixpoint for_range {S : Type} (body : S -> Z -> result S) (st : S) (l : list Z) : result S :=
  match l with
  | [] => Ok st
  | i :: l' => st' <- body st i ;; for_range body st' l'
  end.

(** The body of the loop of [same_day_hour_moving_average] (lines
    592-605); the state is the frame and the two local variables. *)
Definition moving_average_body (output_col_prefix : string) (start_week window_size : Z)
    (max_diff : Q) (st : DataFrame * tmp_locals) (i : Z) : result (DataFrame * tmp_locals) :=
  let '(df, tmp) := st in
  let output_col := (output_col_prefix ++ str (start_week + i))%string in
  let week_lag_start := start_week + i in
  let lags := hour_lags week_lag_start window_size max_diff in
  if (0 <? List.length lags)%nat then
    t <- build_tmp df lags ;;
    df <- assign_agg round_mean df output_col (Some t) ;;
    Ok (df, Some t)
  else Ok (df, tmp).

Definition same_day_hour_moving_average (datetime_col : list Z) (value_col : list cell)
    (window_size start_week average_count forecast_creation_time : Z)
    (output_col_prefix : string) : result DataFrame :=
  fm <- moving_frame datetime_col value_col forecast_creation_time ;;
  st <- for_range (moving_average_body output_col_prefix start_week window_size (snd fm))
                  (fst fm, None) (range 0 average_count) ;;
  drop (fst st) ["fct_diff"; "value"]%string.

(** Lines 664-677: the assignment of the feature is outside the [if]. *)
Definition moving_quantile_body (q : Q) (output_col_prefix : string)
    (start_week window_size : Z) (max_diff : Q) (st : DataFrame * tmp_locals) (i : Z)
    : result (DataFrame * tmp_locals) :=
  let '(df, tmp) := st in
  let output_col := (output_col_prefix ++ str (start_week + i))%string in
  let week_lag_start := start_week + i in
  let lags := hour_lags week_lag_start window_size max_diff in
  tmp <- (if (0 <? List.length lags)%nat
          then t <- build_tmp df lags ;; Ok (Some t)
          else Ok tmp) ;;
  df <- assign_agg (round_quantile q) df output_col tmp ;;
  Ok (df, tmp).

Definition same_day_hour_moving_quantile (datetime_col : list Z) (value_col : list cell)
    (window_size start_week quantile_count : Z) (q : Q) (forecast_creation_time : Z)
    (output_col_prefix : string) : result DataFrame :=
  fm <- moving_frame datetime_col value_col forecast_creation_time ;;
  st <- for_range (moving_quantile_body q output_col_prefix start_week window_size (snd fm))
                  (fst fm, None) (range 0 quantile_count) ;;
  drop (fst st) ["fct_diff"; "value"]%string.

(** Lines 735-748. *)
Definition moving_std_body (output_col_prefix : string) (start_week window_size : Z)
    (max_diff : Q) (st : DataFrame * tmp_locals) (i : Z) : result (DataFrame * tmp_locals) :=
  let '(df, tmp) := st in
  let output_col := (output_col_prefix ++ str (start_week + i))%string in
  let week_lag_start := start_week + i in
  let lags := hour_lags week_lag_start window_size max_diff in
  if (0 <? List.length lags)%nat then
    t <- build_tmp df lags ;;
    df <- assign_agg round_stddev df output_col (Some t) ;;
    Ok (df, Some t)
  else Ok (df, tmp).

Definition same_day_hour_moving_std (datetime_col : list Z) (value_col : list cell)
    (window_size start_week std_count forecast_creation_time : Z)
    (output_col_prefix : string) : result DataFrame :=
  fm <- moving_frame datetime_col value_col forecast_creation_time ;;
  st <- for_range (moving_std_body output_col_prefix start_week window_size (snd fm))
                  (fst fm, None) (range 0 std_count) ;;
  drop (fst st) ["value"; "fct_diff"]%string.

(** Lines 811-829: the assignments of the feature are outside the [if]. *)
Definition moving_agg_body (agg_func : string) (q : option Q) (output_col_prefix : string)
    (start_week window_size : Z) (max_diff : Q) (st : DataFrame * tmp_locals) (i : Z)
    : result (DataFrame * tmp_locals) :=
  let '(df, tmp) := st in
  let output_col := (output_col_prefix ++ str (start_week + i))%string in
  let week_lag_start := start_week + i in
  let lags := hour_lags week_lag_start window_size max_diff in
  tmp <- (if (0 <? List.length lags)%nat
          then t <- build_tmp df lags ;; Ok (Some t)
          else Ok tmp) ;;
  df <- (if String.eqb agg_func "mean" && is_None q then
           assign_agg round_mean df output_col tmp
         else if String.eqb agg_func "quantile" && is_Some q then
           assign_agg (round_quantile (match q with Some q => q | None => 0%Q end))
                      df output_col tmp
         else if String.eqb agg_func "std" && is_None q then
           assign_agg round_stddev df output_col tmp
         else Ok df) ;;
  Ok (df, tmp).

Definition same_day_hour_moving_agg (datetime_col : list Z) (value_col : list cell)
    (window_size start_week count forecast_creation_time : Z)
    (agg_func : string) (q : option Q) (output_col_prefix : string) : result DataFrame :=
  fm <- moving_frame datetime_col value_col forecast_creation_time ;;
  st <- for_range (moving_agg_body agg_func q output_col_prefix start_week window_size (snd fm))
                  (fst fm, None) (range 0 count) ;;
  drop (fst st) ["fct_diff"; "value"]%string.

(** ** Sequence builders (lines 910-986)

    The frame of a multi-granular series is kept row by row: the two grain
    keys of the row (integer identifiers, the columns [grain1_name] and
    [grain2_name]) and its other columns by name. *)

Record Row : Type := mkRow {
  grain1 : Z;
  grain2 : Z;
  fields : list (string * Q)
}.

Definition Table : Type := list Row.

(** A two-dimensional array, row by row. *)
Definition matrix : Type := list (list Q).

Definition field (r : Row) (name : string) : result Q :=
  match find (fun c => String.eqb (fst c) name) (fields r) with
  | Some c => Ok (snd c)
  | None => Raise KeyError
  end.

Fixpoint mapM {A B : Type} (f : A -> result B) (l : list A) : result (list B) :=
  match l with
  | [] => Ok []
  | a :: l' => b <- f a ;; bs <- mapM f l' ;; Ok (b :: bs)
  end.

(** [df[seq_cols].values] *)
Definition values (df : Table) (seq_cols : list string) : result matrix :=
  mapM (fun r => mapM (field r) seq_cols) df.

(** [a[start:stop]] of Python: a negative bound counts from the end, a
    bound beyond the end is clipped. *)
Definition slice {A : Type} (start stop : Z) (a : list A) : list A :=
  let n := Z.of_nat (List.length a) in
  let clip i := if i <? 0 then Z.max 0 (i + n) else Z.min i n in
  firstn (Z.to_nat (clip stop - clip start)) (skipn (Z.to_nat (clip start)) a).

(** The generator, as the list of the windows it yields. *)
Definition gen_sequence (df : Table) (seq_len : Z) (seq_cols : list string)
    (start_timestep : Z) (end_timestep : option Z) : result (list matrix) :=
  data_array <- values df seq_cols ;;
  let end_timestep :=
    match end_timestep with
    | None => Z.of_nat (List.length df)
    | Some e => e
    end in
  Ok (map (fun p => slice (fst p) (snd p) data_array)
          (combine (range start_timestep (end_timestep - seq_len + 2))
                   (range (start_timestep + seq_len) (end_timestep + 2)))).

(** [Series.unique()]: the distinct values in the order of their first
    appearance. *)
Fixpoint unique (l : list Z) : list Z :=
  match l with
  | [] => []
  | x :: l' => x :: filter (fun y => negb (y =? x)) (unique l')
  end.

(** [df_all[(df_all[grain1_name] == g1) & (df_all[grain2_name] == g2)]] *)
Definition entity (df_all : Table) (g : Z * Z) : Table :=
  filter (fun r => (grain1 r =? fst g) && (grain2 r =? snd g)) df_all.

(** The order in which [gen_sequence_array] visits the entities:
    [itertools.product(df_all[grain1_name].unique(), df_all[grain2_name].unique())]. *)
Definition sequence_entities (df_all : Table) : list (Z * Z) :=
  list_prod (unique (map grain1 df_all)) (unique (map grain2 df_all)).

Definition is_nil {A : Type} (l : list A) : bool :=
  match l with [] => true | _ => false end.

(** [np.concatenate] of the lists of windows of the entities: each list
    becomes an array, so its windows must have one shape, and the arrays
    must have the same number of dimensions and the same shape of window;
    nothing to concatenate is an error. *)
Definition np_concatenate (ls : list (list matrix)) : result (list matrix) :=
  match ls with
  | [] => Raise ValueError
  | _ =>
      if forallb is_nil ls then Ok []
      else
        let all := concat ls in
        if forallb (fun l => negb (is_nil l)) ls &&
           forallb (fun w => Nat.eqb (List.length w) (List.length (hd [] all))) all
        then Ok all
        else Raise ValueError
  end.

Definition gen_sequence_array (df_all : Table) (seq_len : Z) (seq_cols : list string)
    (start_timestep : Z) (end_timestep : option Z) : result (list matrix) :=
  seq_gen <- mapM (fun g => gen_sequence (entity df_all g) seq_len seq_cols
                                         start_timestep end_timestep)
                  (sequence_entities df_all) ;;
  np_concatenate seq_gen.

(** Lexicographic comparison of two pairs of keys. *)
Definition key_compare (a b : Z * Z) : comparison :=
  match fst a ?= fst b with
  | Eq => snd a ?= snd b
  | c => c
  end.

(** [a] comes before [b] in the order of a comparison. *)
Definition below {A : Type} (cmp : A -> A -> comparison) (a b : A) : Prop := cmp a b = Lt.

(** Insertion into an ascending list without repetition. *)
Fixpoint insert_by {A : Type} (cmp : A -> A -> comparison) (k : A) (l : list A) : list A :=
  match l with
  | [] => [k]
  | k' :: l' =>
      match cmp k k' with
      | Lt => k :: l
      | Eq => l
      | Gt => k' :: insert_by cmp k l'
      end
  end.

Definition key (r : Row) : Z * Z := (grain1 r, grain2 r).

(** The groups of [df_all.groupby([grain1_name, grain2_name])]: the pairs
    of keys that occur, in ascending order. *)
Definition group_keys (df_all : Table) : list (Z * Z) :=
  fold_right (insert_by key_compare) [] (map key df_all).

(** [groupby(...).apply(lambda x: x.iloc[:total_timesteps, :])]: the heads
    of the groups one after the other in the order of the groups; when the
    function leaves every group as it is, [apply] takes it for a transform
    and gives the rows back in the order of the frame. *)
Definition groupby_head (df_all : Table) (total_timesteps : Z) : Table :=
  let groups := map (entity df_all) (group_keys df_all) in
  let heads := map (slice 0 total_timesteps) groups in
  if forallb (fun g => Nat.eqb (List.length (slice 0 total_timesteps g)) (List.length g)) groups
  then df_all
  else concat heads.

Definition static_feature_array (df_all : Table) (total_timesteps : Z)
    (seq_cols : list string) : result matrix :=
  let fea_df := groupby_head df_all total_timesteps in
  values fea_df seq_cols.

(** ** Notions of the statements: calendar *)

(** "hours_in_year is 366 * 24 for leap years and 365 * 24 otherwise" *)
Definition hours_in_year (y : Z) : Z := if isleap y then 366 * 24 else 365 * 24.

(** "((day_of_year - 1) * 24 + hour_of_day) divided by (hours_in_year - 1)" *)
Definition spec_time_of_year (dt : datetime) : Q :=
  inject_Z ((dayofyear dt - 1) * 24 + hour dt) / inject_Z (hours_in_year (year dt) - 1).

Definition year_length (y : Z) : Z := if isleap y then 366 else 365.

(** The day types that do not need a holiday column. *)
Definition plain_day_types : list Z := [0; 2; 4; 5; 6].

(** ** Notions of the statements: lag columns *)

(** The number of rows of the index labelled [t]. *)
Definition occurrences (idx : list Z) (t : Z) : nat :=
  List.length (filter (fun x => x =? t) idx).

(** The column of a lag of [delta] seconds: for the row of timestamp [t]
    the value of the row of timestamp [t - delta], missing when [t - delta]
    precedes the first timestamp of the series. *)
Definition lag_column (min_time_stamp delta : Z) (idx : list Z) (value : list cell)
    : list cell :=
  map (fun t => if min_time_stamp <=? t - delta
                then value_at idx value (t - delta) else None) idx.

(** Every shifted timestamp at or after the first timestamp labels exactly
    one row of the series. *)
Definition labels_ok (min_time_stamp delta : Z) (idx : list Z) : bool :=
  forallb (fun t => negb (min_time_stamp <=? t - delta)
                    || Nat.eqb (occurrences idx (t - delta)) 1) idx.

(** The column of the offset [w] is created. *)
Definition lag_created (delta : Z -> Z) (mn mx : Z) (w : Z) : bool := mn <=? mx - delta w.

Definition lag_name (prefix : string) (w : Z) : string := (prefix ++ str w)%string.

(** The frames of the loop: the index and the column [value] of the series. *)
Definition lag_state (idx : list Z) (value : list cell) (df : DataFrame) : Prop :=
  index df = idx /\ get_col df "value" = Ok value.

(** Every candidate offset is a [timedelta] that a [Timestamp] can be
    shifted by. *)
Definition offsets_in_range (delta : Z -> Z) (lags : list Z) : bool :=
  forallb (fun w => timedelta_ok (delta w)) lags.

(** A timestamp within the 64-bit nanoseconds of a [Timestamp], from
    September 1677 to April 2262. *)
Definition timestamp_ok (t : Z) : bool :=
  Z.abs (t * 1000000000) <=? 9223372036854775807.

(** Every timestamp of the series shifted by a candidate offset is within
    the range of [Timestamp]. *)
Definition shifts_in_range (delta : Z -> Z) (lags : list Z) (idx : list Z) : bool :=
  forallb (fun w => forallb (fun t => timestamp_ok (t - delta w)) idx) lags.

(** The lookups are total for the offsets whose column is created. *)
Definition lags_ok (delta : Z -> Z) (mn mx : Z) (idx : list Z) (lags : list Z) : bool :=
  forallb (fun w => negb (lag_created delta mn mx w) || labels_ok mn (delta w) idx) lags.

(** The same for every offset whose column is created. *)
Definition lookup_total (delta : Z -> Z) (lags : list Z) (idx : list Z) : bool :=
  match py_min idx, py_max idx with
  | Ok mn, Ok mx => lags_ok delta mn mx idx lags
  | _, _ => true
  end.

(** The frame after the loop over the offsets, without the lookups. *)
Definition lag_frame (delta : Z -> Z) (prefix : string) (mn mx : Z) (value : list cell)
    (df : DataFrame) (lags : list Z) : DataFrame :=
  fold_left
    (fun df w =>
       if mn <=? mx - delta w
       then set_col df (prefix ++ str w) (lag_column mn (delta w) (index df) value)
       else df)
    lags df.

(** The common shape of lines 441-466 and 503-528. *)
Definition lag_cols (delta : Z -> Z) (prefix : string) (lags : list Z)
    (datetime_col : list Z) (value_col : list cell) : result (DataFrame * list string) :=
  min_time_stamp <- py_min datetime_col ;;
  max_time_stamp <- py_max datetime_col ;;
  df <- new_frame datetime_col value_col ;;
  lag_loop delta prefix min_time_stamp max_time_stamp (df, []) lags.

(** The two lag functions, to state what holds of both. *)
Inductive lag_function : Type := SameWeekDayHour | SameDayHour.

Definition lag_delta (f : lag_function) : Z -> Z :=
  match f with SameWeekDayHour => weeks | SameDayHour => days end.

Definition lag_prefix (f : lag_function) : string :=
  match f with SameWeekDayHour => "week_lag_"%string | SameDayHour => "day_lag_"%string end.

Definition lag_offsets (f : lag_function) (n_years window : Z) : list Z :=
  match f with
  | SameWeekDayHour => week_lag_all n_years window
  | SameDayHour => day_lag_all n_years window
  end.


Definition lag_function_cols (f : lag_function) :
    list Z -> list cell -> Z -> Z -> result (DataFrame * list string) :=
  match f with
  | SameWeekDayHour => same_week_day_hour_lag_cols
  | SameDayHour => same_day_hour_lag_cols
  end.

Definition lag_function_run (f : lag_function) :
    list Z -> list cell -> Z -> Z -> string -> option Q -> string -> result DataFrame :=
  match f with
  | SameWeekDayHour => same_week_day_hour_lag
  | SameDayHour => same_day_hour_lag
  end.

(** The values at the offsets of [lags] that the row of timestamp [t] can
    reach: those whose shifted timestamp does not precede the first
    timestamp of the series. *)
Definition offset_values (delta : Z -> Z) (lags : list Z) (idx : list Z) (value : list cell)
    (min_time_stamp t : Z) : list cell :=
  map (fun w => value_at idx value (t - delta w))
      (filter (fun w => min_time_stamp <=? t - delta w) lags).

(** "the rounded arithmetic mean of the available offset values", missing
    when there is none. *)
Definition spec_rounded_mean (vals : list cell) (c : cell) : Prop :=
  (present vals = [] -> c = None) /\
  (present vals <> [] ->
   c = Some (inject_Z (round_half_even (Qsum (present vals) / Qlen (present vals))))).

(** [r] is the integer nearest to the square root of [v], the even one of
    the two when the root is halfway between them:
    [r - 1/2 <= sqrt v <= r + 1/2], squared and multiplied by four. *)
Definition nearest_to_sqrt (v : Q) (r : Z) : Prop :=
  0 <= r /\
  (0 < r -> (inject_Z ((2 * r - 1) * (2 * r - 1)) <= 4 * v)%Q) /\
  (4 * v <= inject_Z ((2 * r + 1) * (2 * r + 1)))%Q /\
  ((4 * v == inject_Z ((2 * r + 1) * (2 * r + 1)))%Q -> Z.even r = true) /\
  (0 < r -> (4 * v == inject_Z ((2 * r - 1) * (2 * r - 1)))%Q -> Z.even r = true).

(** The rounded sample standard deviation of the values that are not
    missing: with their mean [m], the square root of the sum of the
    squares of their distances to [m] divided by their number minus one,
    rounded; missing for fewer than two values. *)
Definition spec_rounded_std (vals : list cell) (c : cell) : Prop :=
  let xs := present vals in
  let m := (Qsum xs / Qlen xs)%Q in
  let var := (Qsum (map (fun x => (x - m) * (x - m)) xs) / (Qlen xs - 1))%Q in
  ((List.length xs < 2)%nat -> c = None) /\
  ((2 <= List.length xs)%nat ->
   exists r, c = Some (inject_Z r) /\ nearest_to_sqrt var r).

(** The aggregations that the functions know (lines 469-474, 531-536 and
    824-829). *)
Definition supported (agg_func : string) (q : option Q) : bool :=
  (String.eqb agg_func "mean" && is_None q)
  || (String.eqb agg_func "quantile" && is_Some q)
  || (String.eqb agg_func "std" && is_None q).

(** [n] timestamps one hour apart from [t0] on. *)
Definition hourly_grid (t0 n : Z) : list Z := map (fun k => t0 + k * 3600) (range 0 n).


(** ** Notions of the statements: moving aggregates *)

(** The frame of the four functions before their loop: the hourly grid
    from the first to the last timestamp, the values on the grid, and the
    hours from the forecast creation time to each row. *)
Definition hourly_frame (dt : list Z) (v : list cell) (fct mn mx : Z) : DataFrame :=
  let grid := date_range_H mn mx in
  mkDF grid [("value"%string, map (value_at dt v) grid);
             ("fct_diff"%string, map Some (map (fun t => timedelta_hours (t - fct)) grid))].

Definition tmp_name (h : Z) : string := ("tmp_lag_" ++ str h)%string.

(** [tmp_df] after the loop over the lags, without the lookups. *)
Definition tmp_frame (idx : list Z) (value : list cell) (lags : list Z) : DataFrame :=
  fold_left (fun t h => set_col t (tmp_name h) (shift h value)) lags
            (mkDF idx [("value"%string, value)]).

(** The body of the loops that assign the feature inside the [if]. *)
Definition guarded_body (agg : DataFrame -> result (list cell)) (output_col_prefix : string)
    (start_week window_size : Z) (max_diff : Q) (st : DataFrame * tmp_locals) (i : Z)
    : result (DataFrame * tmp_locals) :=
  let '(df, tmp) := st in
  let lags := hour_lags (start_week + i) window_size max_diff in
  if (0 <? List.length lags)%nat then
    t <- build_tmp df lags ;;
    df <- assign_agg agg df (output_col_prefix ++ str (start_week + i)) (Some t) ;;
    Ok (df, Some t)
  else Ok (df, tmp).

(** The two value columns have the same cells in the rows before the
    forecast creation time. *)
Definition agree_before (fct : Z) (dt : list Z) (v1 v2 : list cell) : Prop :=
  List.length v1 = List.length v2 /\
  forall i t, nth_error dt i = Some t -> t < fct -> nth_error v1 i = nth_error v2 i.

(** A lag of [h] hours reaches, from every row of the grid, a time before
    the forecast creation time. *)
Definition lag_before (fct : Z) (grid : list Z) (h : Z) : Prop :=
  forall t, In t grid -> t - h * 3600 < fct.

(** Two frames that differ at most in their column [value]. *)
Definition same_but_value (df1 df2 : DataFrame) : Prop :=
  index df1 = index df2 /\
  Forall2 (fun a b => fst a = fst b /\ (fst a = "value"%string \/ snd a = snd b))
          (columns df1) (columns df2).

(** Two results that are the same exception or two related values. *)
Definition result_rel {A : Type} (R : A -> A -> Prop) (r1 r2 : result A) : Prop :=
  match r1, r2 with
  | Ok a, Ok b => R a b
  | Raise e1, Raise e2 => e1 = e2
  | _, _ => False
  end.

(** The local variables of two runs: unbound in both, or the frames of the
    same lags, all of them reaching before the forecast creation time. *)
Definition tmp_rel (fct : Z) (grid : list Z) (c1 c2 : list cell) (tmp1 tmp2 : tmp_locals)
    : Prop :=
  (tmp1 = None /\ tmp2 = None) \/
  exists lags, Forall (lag_before fct grid) lags /\
               tmp1 = Some (tmp_frame grid c1 lags, map tmp_name lags) /\
               tmp2 = Some (tmp_frame grid c2 lags, map tmp_name lags).

(** The states of the loops of two runs. *)
Definition loop_rel (fct : Z) (grid : list Z) (c1 c2 : list cell)
    (st1 st2 : DataFrame * tmp_locals) : Prop :=
  same_but_value (fst st1) (fst st2) /\
  index (fst st1) = grid /\
  get_col (fst st1) "value" = Ok c1 /\ get_col (fst st2) "value" = Ok c2 /\
  tmp_rel fct grid c1 c2 (snd st1) (snd st2).

(** ** Notions of the statements: entities *)

(** "the sorted unique values" of a grain-key column *)
Definition sorted_unique (l : list Z) : list Z := fold_right (insert_by Z.compare) [] l.

(** The row [r] does not come after the row [r'] in the order of the keys. *)
Definition row_le (r r' : Row) : Prop := key_compare (key r) (key r') <> Gt.

(** The rows of the frame are ordered by their pair of keys. *)
Fixpoint ordered_by_key (df : Table) : bool :=
  match df with
  | r :: (r' :: _) as df' =>
      match key_compare (key r) (key r') with
      | Gt => false
      | _ => ordered_by_key df'
      end
  | _ => true
  end.

(** The frame has a row for every combination of a value of the first key
    and a value of the second. *)
Definition all_combinations (df : Table) : bool :=
  forallb (fun g => negb (is_nil (entity df g)))
          (list_prod (map grain1 df) (map grain2 df)).

(** Some group of the frame has more rows than its first [total_timesteps]
    (or, with a negative [total_timesteps], any row at all). *)
Definition cuts_a_group (df : Table) (total_timesteps : Z) : bool :=
  existsb (fun g => negb (Nat.eqb (List.length (slice 0 total_timesteps (entity df g)))
                                  (List.length (entity df g))))
          (group_keys df).

(** The rows of the frame are those of its entities one entity after the
    other, in the order in which [gen_sequence_array] visits them. *)
Definition grouped_by_entity (df : Table) : Prop :=
  concat (map (entity df) (sequence_entities df)) = df.

(** ** Notions of the statements: the columns of the moving aggregates *)

(** The frame [tmp_df[tmp_col_all]] of a feature: one column per lag. *)
Definition lag_table (idx : list Z) (value : list cell) (lags : list Z) : DataFrame :=
  mkDF idx (map (fun h => (tmp_name h, shift h value)) lags).

(** The value [h] hours before [t] on the hourly grid from [mn] to [mx]. *)
Definition value_hours_before (dt : list Z) (v : list cell) (mn mx t h : Z) : cell :=
  let t' := t - h * 3600 in
  if (mn <=? t') && (t' <=? mx) then value_at dt v t' else None.

(** The column of a feature: the aggregate of the lagged values of each row. *)
Definition feature_column (agg : list cell -> cell) (dt : list Z) (v : list cell)
    (mn mx : Z) (lags : list Z) : list cell :=
  map (fun t => agg (map (value_hours_before dt v mn mx t) lags)) (date_range_H mn mx).

(** ** Notions of the statements: holidays *)

(** The dates of the rows flagged as holidays. *)
Definition holiday_dates (datetime_col : list datetime) (holiday_col : list Z) : list Z :=
  mask_select (map (fun h => 0 <? h) holiday_col) (map date_of datetime_col).

(** A date that is no holiday date and lies on the daily grid around one. *)
Definition semi_holiday_date (datetime_col : list datetime) (holiday_col : list Z)
    (semi_holiday_offset d : Z) : Prop :=
  ~ In d (holiday_dates datetime_col holiday_col) /\
  exists d', In d' (holiday_dates datetime_col holiday_col) /\
             In d (date_range_D (d' - semi_holiday_offset) (d' + semi_holiday_offset)).

(** A row flagged as a holiday has its date within [n] days of that of [dt]. *)
Definition flagged_date (datetime_col : list datetime) (holiday_col : list Z) (n : Z)
    (dt : datetime) : Prop :=
  exists j dt' h', nth_error datetime_col j = Some dt' /\ nth_error holiday_col j = Some h' /\
                   0 < h' /\ Z.abs (toordinal dt - toordinal dt') <= n.

(** ** [week_of_month] (lines 111-133)

    The quotient by [7.0] is exact enough in floats for the ceiling to be
    that of the rational: the numerator is at most 37. *)

(** [date_time.replace(day=d)] *)
Definition replace_day (date_time : datetime) (d : Z) : datetime :=
  mkdatetime (year date_time) (month date_time) d
             (hour date_time) (minute date_time) (second date_time).

(** The inner function of [week_of_month], for one date. *)
Definition _week_of_month (date_time : datetime) : Z :=
  let first_day := replace_day date_time 1 in
  let dom := day date_time in
  let adjusted_dom := dom + dayofweek first_day in
  let wom := Qceiling (inject_Z adjusted_dom / 7) in
  wom.

(** [week_of_month] of a [pd.Series]. *)
Definition week_of_month (date_time : list datetime) : list Z :=
  map _week_of_month date_time.

(** ** The position in a period (lines 210-279) *)

(** What the three functions return: a column, or the integer 0 for a
    period of one point. *)
Inductive normalized (A : Type) : Type :=
| Series (col : list A)
| Scalar (x : Z).
Arguments Series {A} col.
Arguments Scalar {A} x.

(** [min_year] and [max_year] are integers; for them one of the two
    tests holds. *)
Definition normalized_current_year (datetime_col : list datetime) (min_year max_year : Z)
    : normalized Q :=
  let year := map year datetime_col in
  if negb (max_year =? min_year) then
    Series (map (fun y => inject_Z (y - min_year) / inject_Z (max_year - min_year))%Q year)
  else Scalar 0.

(** A [date] is its proleptic ordinal; [(a - b).days] is the difference. *)
Definition normalized_current_date (datetime_col : list datetime) (min_date max_date : Z)
    : normalized Q :=
  let date := map toordinal datetime_col in
  let current_date := map (fun d => d - min_date) date in
  if negb (max_date =? min_date) then
    Series (map (fun x => inject_Z x / inject_Z (max_date - min_date))%Q current_date)
  else Scalar 0.

(** A float of a numpy column: the quotient by the float zero raises no
    exception, it is [NaN] for 0 / 0 and infinite for the other
    numerators. *)
Inductive np_float : Type :=
| Fin (q : Q)
| Nan
| Inf
| NegInf.

Definition np_divide (x d : Q) : np_float :=
  if Qeq_bool d 0 then
    (if Qeq_bool x 0 then Nan else if Qle_bool 0 x then Inf else NegInf)
  else Fin (x / d).

(** [!=] and [==] between a [timedelta] and an [int]. The difference of
    two timestamps is a [timedelta], also when it is zero; neither type
    compares itself with the other, so that Python answers by identity:
    the two are never equal, whatever their values. *)
Definition timedelta_ne_int (d n : Z) : bool := true.
Definition timedelta_eq_int (d n : Z) : bool := false.

Definition normalized_current_datehour (datetime_col : list Z)
    (min_datehour max_datehour : Z) : normalized np_float :=
  let current_datehour := map (fun t => timedelta_hours (t - min_datehour)) datetime_col in
  let max_min_diff := max_datehour - min_datehour in
  if timedelta_ne_int max_min_diff 0 then
    Series (map (fun x => np_divide x (timedelta_hours max_min_diff)) current_datehour)
  else if timedelta_eq_int max_min_diff 0 then Scalar 0
  else Series (map Fin current_datehour).

(** The position of [a] in a period of length [b]. *)
Definition position_in_period (a b : Z) (v : Q) : Prop :=
  (v == inject_Z a / inject_Z b /\
   (a = 0%Z -> v == 0) /\ (a = b -> v == 1) /\ ((0 <= a <= b)%Z -> 0 <= v <= 1))%Q.

(** ** [normalized_columns] (lines 282-322) *)

(** [<] and [!=] of two floats: every comparison with [NaN] is false,
    [!=] with it is true. *)
Definition cell_lt (a b : cell) : bool :=
  match a, b with
  | Some x, Some y => negb (Qle_bool y x)
  | _, _ => false
  end.

Definition cell_ne (a b : cell) : bool :=
  match a, b with
  | Some x, Some y => negb (Qeq_bool x y)
  | _, _ => true
  end.

(** The builtins [min] and [max] on a column: the first item, replaced by
    each later item that is smaller (greater); nothing to choose from is a
    [ValueError]. *)
Definition py_min_cells (col : list cell) : result cell :=
  match col with
  | [] => Raise ValueError
  | x :: l => Ok (fold_left (fun m y => if cell_lt y m then y else m) l x)
  end.

Definition py_max_cells (col : list cell) : result cell :=
  match col with
  | [] => Raise ValueError
  | x :: l => Ok (fold_left (fun m y => if cell_lt m y then y else m) l x)
  end.

(** [a - b] and [a / b] of floats; the function divides by the mean or by
    [max_value - min_value] only after it has tested that they are not 0. *)
Definition cell_sub (a b : cell) : cell :=
  match a, b with
  | Some x, Some y => Some (x - y)%Q
  | _, _ => None
  end.

Definition cell_div (a b : cell) : cell :=
  match a, b with
  | Some x, Some y => if Qeq_bool y 0 then None else Some (x / y)%Q
  | _, _ => None
  end.

(** [np_log] stands for [np.log], which has no rational value. *)
Definition normalized_columns (np_log : Q -> cell) (datetime_col : list Z)
    (value_col : list cell) (mode output_colname : string) : result DataFrame :=
  df <- new_frame datetime_col value_col ;;
  let df := if negb (is_monotonic (index df)) then sort_index df else df in
  df <- (if String.eqb mode "log" then
           value <- get_col df "value" ;;
           let mean_value := nanmean value in
           if cell_ne mean_value (Some 0%Q) then
             Ok (set_col df output_colname
                   (map (fun v => match cell_div v mean_value with
                                  | Some x => np_log x
                                  | None => None
                                  end) value))
           else Ok (set_col df output_colname (map (fun _ => Some 0%Q) (index df)))
         else if String.eqb mode "minmax" then
           value <- get_col df "value" ;;
           min_value <- py_min_cells value ;;
           max_value <- py_max_cells value ;;
           if cell_ne min_value max_value then
             Ok (set_col df output_colname
                   (map (fun v => cell_div (cell_sub v min_value)
                                           (cell_sub max_value min_value)) value))
           else Ok (set_col df output_colname (map (fun _ => Some 0%Q) (index df)))
         else Raise ValueError) ;;
  select df [output_colname].

(** The rows of a frame of one column in the order [ps]. *)
Definition reordered (ps : list nat) (datetime_col : list Z) (qs : list Q)
    (idx : list Z) (vs : list Q) : Prop :=
  Permutation ps (seq 0 (List.length datetime_col)) /\
  idx = map (fun p => nth p datetime_col 0) ps /\
  vs = map (fun p => nth p qs 0%Q) ps.

(** [(x - min) / (max - min)], and 0 when [min] and [max] are equal. *)
Definition minmax_scaled (mn mx x : Q) : Q :=
  if Qeq_bool mn mx then 0%Q else ((x - mn) / (mx - mn))%Q.

(** ** Lags and moving averages of a frame (lines 852-907) *)

(** [df.shift(lag)]: every column is shifted. *)
Definition shift_frame (lag : Z) (df : DataFrame) : DataFrame :=
  mkDF (index df) (map (fun c => (fst c, shift lag (snd c))) (columns df)).

(** [df.columns = [f(x) for x in df.columns]] *)
Definition rename_columns (f : string -> string) (df : DataFrame) : DataFrame :=
  mkDF (index df) (map (fun c => (f (fst c), snd c)) (columns df)).

(** [pd.concat(frames, axis=1)] of frames on one index: their columns side
    by side; there must be a frame. *)
Definition concat_columns (frames : list DataFrame) : result DataFrame :=
  match frames with
  | [] => Raise ValueError
  | df :: _ => Ok (mkDF (index df) (flat_map columns frames))
  end.

Definition lagged_features (df : DataFrame) (lags : list Z) : result DataFrame :=
  let df_list :=
    fold_left
      (fun df_list lag =>
         let df_shifted := shift_frame lag df in
         let df_shifted :=
           rename_columns (fun x => x ++ "_lag" ++ str lag)%string df_shifted in
         df_list ++ [df_shifted])
      lags [] in
  concat_columns df_list.

(** [col.rolling(window, min_periods=1, center=False).mean()]: the mean of
    the values that are not missing among the [window] rows that end in
    the row, [NaN] without one. *)
Definition rolling_mean (window : Z) (col : list cell) : list cell :=
  map (fun k => let lo := Z.max 0 (k - window + 1) in
                nanmean (firstn (Z.to_nat (k + 1 - lo)) (skipn (Z.to_nat lo) col)))
      (range 0 (Z.of_nat (List.length col))).

(** [rolling] refuses a window below 0, and a window of 0 rows, which is
    less than [min_periods]; the default window of a frame without rows
    is such a window. *)
Definition moving_averages (df : DataFrame) (start_step : Z) (window_size : option Z)
    : result DataFrame :=
  let window_size :=
    match window_size with
    | None => Z.of_nat (List.length (index df))
    | Some w => w
    end in
  if window_size <? 1 then Raise ValueError
  else
    let fea :=
      mkDF (index df)
           (map (fun c => (fst c, rolling_mean window_size (shift start_step (snd c))))
                (columns df)) in
    Ok (rename_columns (fun x => x ++ "_mean")%string fea).

Definition combine_features (df : DataFrame) (lag_fea : list string) (lags : list Z)
    (window_size : option Z) (used_columns : list string) : result DataFrame :=
  lag_frame <- select df lag_fea ;;
  lagged_fea <- lagged_features lag_frame lags ;;
  lag_frame <- select df lag_fea ;;
  moving_avg <- moving_averages lag_frame 2 window_size ;;
  used <- select df used_columns ;;
  concat_columns [used; lagged_fea; moving_avg].

(** Every column has a cell for every row. *)
Definition well_formed (df : DataFrame) : Prop :=
  Forall (fun c => List.length (snd c) = List.length (index df)) (columns df).

(** The cell [lag] rows before row [k]. *)
Definition cell_before (col : list cell) (lag : Z) (k : nat) : cell :=
  if (0 <=? Z.of_nat k - lag) && (Z.of_nat k - lag <? Z.of_nat (List.length col))
  then nth (Z.to_nat (Z.of_nat k - lag)) col None else None.

(** Two lists of columns with the same names and lengths and the same
    first [k] rows, and two frames of such columns on one index. *)
Definition columns_agree (k : nat) (cs1 cs2 : list (string * list cell)) : Prop :=
  Forall2 (fun c1 c2 => fst c1 = fst c2 /\ List.length (snd c1) = List.length (snd c2) /\
                        firstn k (snd c1) = firstn k (snd c2)) cs1 cs2.

Definition agree_upto (k : nat) (df1 df2 : DataFrame) : Prop :=
  index df1 = index df2 /\ columns_agree k (columns df1) (columns df2).

(** ** [df_from_cartesian_product] (lines 836-849) *)

(** [itertools.product] of the lists: one item of every list, the last
    list varying fastest. *)
Fixpoint product {A : Type} (lists : list (list A)) : list (list A) :=
  match lists with
  | [] => [[]]
  | l :: lists' => flat_map (fun x => map (cons x) (product lists')) l
  end.

(** The dictionary is the list of its items in their order; the frame is
    its column names and its rows. *)
Definition df_from_cartesian_product {A : Type} (dict_in : list (string * list A))
    : list string * list (list A) :=
  let cart := product (map snd dict_in) in
  (map fst dict_in, cart).

(** ** One-hot encodings (lines 156-207) *)

(** [pd.get_dummies(col)] of a column of integers: for every value that
    occurs, in ascending order, a column that is 1 in the rows of the
    value and 0 in the others. *)
Definition get_dummies (col : list Z) : list (Z * list Z) :=
  map (fun v => (v, map (fun x => if x =? v then 1 else 0) col)) (sorted_unique col).

(** [pd.get_dummies(col, prefix=prefix)]: the columns are named after the
    prefix and the value. *)
Definition get_dummies_prefix (col : list Z) (prefix : string) : list (string * list Z) :=
  map (fun c => ((prefix ++ "_" ++ str (fst c))%string, snd c)) (get_dummies col).

Definition encoded_month_of_year (month_of_year : list Z) : list (string * list Z) :=
  get_dummies_prefix month_of_year "MonthOfYear".

Definition encoded_day_of_week (day_of_week : list Z) : list (string * list Z) :=
  get_dummies_prefix day_of_week "DayOfWeek".

Definition encoded_day_of_month (day_of_month : list Z) : list (string * list Z) :=
  get_dummies_prefix day_of_month "DayOfMonth".

Definition encoded_day_of_year (day_of_year : list Z) : list (Z * list Z) :=
  get_dummies day_of_year.

Definition encoded_hour_of_day (hour_of_day : list Z) : list (string * list Z) :=
  get_dummies_prefix hour_of_day "HourOfDay".

Definition encoded_week_of_year (week_of_year : list Z) : list (string * list Z) :=
  get_dummies_prefix week_of_year "WeekOfYear".

(** The cells of row [i] of a list of columns. *)
Definition cells_of_row {K : Type} (cols : list (K * list Z)) (i : nat) : list Z :=
  map (fun c => nth i (snd c) 0) cols.

(** ** Notions of the statements: the course of a year *)

(** [dt1] is earlier in its year than [dt2], by month, day and hour. *)
Definition earlier_in_year (dt1 dt2 : datetime) : Prop :=
  month dt1 < month dt2 \/
  (month dt1 = month dt2 /\
   (day dt1 < day dt2 \/ (day dt1 = day dt2 /\ hour dt1 < hour dt2))).

(** ** Example inputs *)

(** A series with a row at day 0, day 1 and day 365. *)
Definition three_days : list Z := [0; days 1; days 365].
Definition three_values : list cell := [Some 1%Q; Some 2%Q; Some 7%Q].

(** Two rows one hour apart. *)
Definition two_hours : list Z := [0; 3600].
Definition two_values : list cell := [Some 1%Q; Some 2%Q].

(** 170 hourly rows, one week and two hours. *)
Definition week_and_two_hours : list Z := hourly_grid 0 170.
Definition week_values : list cell := map (fun k => Some (inject_Z k)) (range 0 170).

(** 340 hourly rows, two weeks and four hours, with the halves of the
    numbers of the rows as values. *)
Definition two_weeks_and_four_hours : list Z := hourly_grid 0 340.
Definition half_values : list cell := map (fun k => Some (inject_Z k / 2)%Q) (range 0 340).

(** An entity of ten rows with one feature column [x]. *)
Definition ten_rows (g1 g2 : Z) : Table :=
  map (fun k => mkRow g1 g2 [("x"%string, inject_Z (100 * g1 + 10 * g2 + k))]) (range 0 10).

(** Four entities in the order of their keys, and two in the other order. *)
Definition four_entities : Table :=
  ten_rows 1 1 ++ ten_rows 1 2 ++ ten_rows 2 1 ++ ten_rows 2 2.
Definition two_entities_reversed : Table := ten_rows 2 1 ++ ten_rows 1 1.

(** Two entities of two rows each, of which the rows alternate. *)
Definition interleaved_entities : Table :=
  [mkRow 1 1 [("x"%string, 110%Q)]; mkRow 1 2 [("x"%string, 120%Q)];
   mkRow 1 1 [("x"%string, 111%Q)]; mkRow 1 2 [("x"%string, 121%Q)]].

(** Three days of July 2017, the second one a holiday. *)
Definition july_days : list datetime :=
  [mkdatetime 2017 7 3 0 0 0; mkdatetime 2017 7 4 12 0 0; mkdatetime 2017 7 5 0 0 0].
Definition july_holidays : list Z := [0; 1; 0].

(** A day of six rows of which the two frames differ in the last one. *)
Definition six_rows (last : Q) : DataFrame :=
  mkDF (hourly_grid 0 6)
       [("load"%string, map Some [1; 2; 3; 4; 5; last]%Q);
        ("temp"%string, map Some [7; 7; 8; 8; 9; 9]%Q)].

(** Two stores and two brands, of which one combination has no row. *)
Definition three_entities : Table := ten_rows 1 1 ++ ten_rows 1 2 ++ ten_rows 2 1.

(** * Properties *)

(** ** Properties of ranges and offsets *)

Lemma In_range (a b x : Z) : In x (range a b) <-> a <= x < b.
Proof.
  unfold range. rewrite in_map_iff. split.
  - intros (k & <- & Hk). apply in_seq in Hk. lia.
  - intros H. exists (Z.to_nat (x - a)). split; [lia|].
    apply in_seq. lia.
Qed.

Lemma range_cons (a b : Z) : a < b -> range a b = a :: range (a + 1) b.
Proof.
  intros H. unfold range.
  replace (Z.to_nat (b - a)) with (S (Z.to_nat (b - (a + 1)))) by lia.
  cbn [seq map]. f_equal; [lia|].
  rewrite <- seq_shift, map_map. apply map_ext. intros k. lia.
Qed.

Lemma length_range (a b : Z) : List.length (range a b) = Z.to_nat (b - a).
Proof. unfold range. now rewrite length_map, length_seq. Qed.

Lemma fold_left_app_flat_map {A B : Type} (f : A -> list B) (l : list A) (acc : list B) :
  fold_left (fun acc y => acc ++ f y) l acc = acc ++ flat_map f l.
Proof.
  revert acc. induction l as [|a l IH]; intros acc; simpl.
  - now rewrite app_nil_r.
  - rewrite IH. now rewrite <- app_assoc.
Qed.

Lemma week_lag_all_flat_map (Y w : Z) :
  week_lag_all Y w =
  flat_map (fun y => map (fun x => x + y * 52) (week_lag_last_year w)) (range 0 Y).
Proof. unfold week_lag_all. now rewrite fold_left_app_flat_map. Qed.

Lemma day_lag_all_flat_map (Y w : Z) :
  day_lag_all Y w =
  flat_map (fun y => map (fun x => x + y * 365) (day_lag_last_year w)) (range 0 Y).
Proof. unfold day_lag_all. now rewrite fold_left_app_flat_map. Qed.

Lemma In_week_lag_all (Y w x : Z) :
  In x (week_lag_all Y w) <->
  exists y k, 0 <= y < Y /\ - w <= k <= w /\ x = 52 * (y + 1) + k.
Proof.
  rewrite week_lag_all_flat_map, in_flat_map. split.
  - intros (y & Hy & Hx). apply In_range in Hy.
    apply in_map_iff in Hx. destruct Hx as (x0 & <- & Hx0).
    apply In_range in Hx0. unfold week_lag_base in Hx0.
    exists y, (x0 - 52). lia.
  - intros (y & k & Hy & Hk & ->). exists y. split; [apply In_range; lia|].
    apply in_map_iff. exists (52 + k). split; [lia|].
    apply In_range. unfold week_lag_base. lia.
Qed.

Lemma In_day_lag_all (Y w x : Z) :
  In x (day_lag_all Y w) <->
  exists y k, 0 <= y < Y /\ - w <= k <= w /\ x = 365 * (y + 1) + k.
Proof.
  rewrite day_lag_all_flat_map, in_flat_map. split.
  - intros (y & Hy & Hx). apply In_range in Hy.
    apply in_map_iff in Hx. destruct Hx as (x0 & <- & Hx0).
    apply In_range in Hx0. unfold day_lag_base in Hx0.
    exists y, (x0 - 365). lia.
  - intros (y & k & Hy & Hk & ->). exists y. split; [apply In_range; lia|].
    apply in_map_iff. exists (365 + k). split; [lia|].
    apply In_range. unfold day_lag_base. lia.
Qed.

(** C4 (as amended): the candidate offsets are the window around the same
    week (day) of each of the [Y] PREVIOUS years: [52 * (y + 1) + k] weeks
    and [365 * (y + 1) + k] days for [y] in [[0, Y)] and [k] in [[-w, w]]. *)
Theorem lag_offsets_previous_years (Y w x : Z) :
  (In x (week_lag_all Y w) <->
   exists y k, 0 <= y < Y /\ - w <= k <= w /\ x = 52 * (y + 1) + k) /\
  (In x (day_lag_all Y w) <->
   exists y k, 0 <= y < Y /\ - w <= k <= w /\ x = 365 * (y + 1) + k).
Proof. split; [apply In_week_lag_all | apply In_day_lag_all]. Qed.

(** C4 (as stated) fails: with one year and a window of one the set of the
    specification is [{-1, 0, 1}], with the offset 0 of the row itself; the
    code's lists are [[51; 52; 53]] weeks and [[364; 365; 366]] days. *)
Lemma lag_offsets_not_spec_set :
  week_lag_all 1 1 = [51; 52; 53] /\ spec_offset 52 1 1 0 /\ ~ In 0 (week_lag_all 1 1) /\
  day_lag_all 1 1 = [364; 365; 366] /\ spec_offset 365 1 1 0 /\ ~ In 0 (day_lag_all 1 1).
Proof.
  repeat split; try reflexivity; try (exists 0, 0; lia);
    vm_compute; intuition discriminate.
Qed.

(** ** Calendar features *)

Lemma dayofweek_bounds (dt : datetime) : 0 <= dayofweek dt <= 6.
Proof. unfold dayofweek. pose proof (Z.mod_pos_bound (toordinal dt + 6) 7). lia. Qed.

Lemma replace_week_day_type (d : Z) :
  0 <= d <= 6 -> In (replace WEEK_DAY_TYPE_MAP d) plain_day_types.
Proof.
  intros Hd.
  assert (H : d = 0 \/ d = 1 \/ d = 2 \/ d = 3 \/ d = 4 \/ d = 5 \/ d = 6) by lia.
  unfold plain_day_types.
  destruct H as [-> | [-> | [-> | [-> | [-> | [-> | ->]]]]]]; vm_compute; tauto.
Qed.

(** C10: without a holiday column every day type is one of 0, 2, 4, 5, 6;
    the holiday code 7 and the semi-holiday code 8 are not among them. *)
Theorem day_type_without_holidays (datetime_col : list datetime) (semi_holiday_offset : Z) :
  Forall (fun x => In x plain_day_types /\ x <> HOLIDAY_CODE /\ x <> SEMI_HOLIDAY_CODE)
         (day_type datetime_col None semi_holiday_offset).
Proof.
  unfold day_type. apply Forall_forall. intros x Hx.
  apply in_map_iff in Hx. destruct Hx as (dt & <- & _).
  pose proof (replace_week_day_type (dayofweek dt) (dayofweek_bounds dt)) as Hin.
  split; [exact Hin|].
  unfold plain_day_types, HOLIDAY_CODE, SEMI_HOLIDAY_CODE in *. simpl in Hin. lia.
Qed.

Lemma days_in_month_bounds (y m : Z) : 28 <= days_in_month y m <= 31.
Proof.
  unfold days_in_month.
  destruct (m =? 2); [destruct (isleap y); lia|].
  destruct ((m =? 4) || (m =? 6) || (m =? 9) || (m =? 11)); lia.
Qed.

Lemma dayofyear_bounds (dt : datetime) :
  valid_datetime dt -> 1 <= dayofyear dt <= year_length (year dt).
Proof.
  intros (Hm & Hd & _). unfold dayofyear, year_length.
  assert (H : month dt = 1 \/ month dt = 2 \/ month dt = 3 \/ month dt = 4 \/
              month dt = 5 \/ month dt = 6 \/ month dt = 7 \/ month dt = 8 \/
              month dt = 9 \/ month dt = 10 \/ month dt = 11 \/ month dt = 12) by lia.
  remember (days_before_month (year dt) (month dt)) as s eqn:Hs.
  remember (days_in_month (year dt) (month dt)) as k eqn:Hk.
  unfold days_before_month in Hs. unfold days_in_month in Hs, Hk.
  destruct (isleap (year dt)) eqn:E;
    repeat (destruct H as [H | H]); rewrite H in Hs, Hk;
    vm_compute in Hs, Hk; lia.
Qed.

Lemma time_of_year_at_spec (dt : datetime) :
  valid_datetime dt ->
  (time_of_year_at dt == spec_time_of_year dt /\
   0 <= time_of_year_at dt <= 1 /\
   (isleap (year dt) = false -> (month dt = 12)%Z -> (day dt = 31)%Z ->
    (hour dt = 23)%Z -> time_of_year_at dt == 1))%Q.
Proof.
  intros Hv. pose proof (dayofyear_bounds dt Hv) as Hdoy.
  destruct Hv as (Hm & Hd & Hh & _).
  assert (Heq : time_of_year_at dt = spec_time_of_year dt).
  { unfold time_of_year_at, spec_time_of_year, hours_in_year.
    destruct (isleap (year dt)); reflexivity. }
  unfold year_length in Hdoy.
  assert (Hden : 0 < hours_in_year (year dt) - 1).
  { unfold hours_in_year. destruct (isleap (year dt)); lia. }
  assert (Hnum : 0 <= (dayofyear dt - 1) * 24 + hour dt <= hours_in_year (year dt) - 1).
  { unfold hours_in_year. destruct (isleap (year dt)); lia. }
  rewrite Heq. unfold spec_time_of_year.
  set (n := (dayofyear dt - 1) * 24 + hour dt) in *.
  set (d := hours_in_year (year dt) - 1) in *.
  assert (HdQ : (inject_Z 0 < inject_Z d)%Q) by (rewrite <- Zlt_Qlt; exact Hden).
  change (inject_Z 0) with 0%Q in HdQ.
  split; [reflexivity|]. split; [split|].
  - apply Qle_shift_div_l; [exact HdQ|]. rewrite Qmult_0_l.
    change 0%Q with (inject_Z 0). rewrite <- Zle_Qle. lia.
  - apply Qle_shift_div_r; [exact HdQ|]. rewrite Qmult_1_l.
    rewrite <- Zle_Qle. lia.
  - intros Hleap Hmo Hday Hhour.
    assert (Hn : n = d).
    { subst n d. unfold hours_in_year, dayofyear. rewrite Hleap, Hmo, Hday, Hhour.
      unfold days_before_month, days_in_month. rewrite Hleap. reflexivity. }
    rewrite Hn. apply Qmult_inv_r. intros E. rewrite E in HdQ. discriminate.
Qed.

(** C8: on a column of well-formed datetimes [time_of_year] is the
    zero-based hour of the year over the hours of the year less one (366
    days in a leap year), lies in [[0, 1]], and is 1 at 23:00 of the 31st
    of December of a year that is not a leap year. *)
Theorem time_of_year_spec (datetime_col : list datetime) :
  Forall valid_datetime datetime_col ->
  Forall2 (fun dt v =>
             (v == spec_time_of_year dt /\ 0 <= v <= 1 /\
              (isleap (year dt) = false -> (month dt = 12)%Z -> (day dt = 31)%Z ->
               (hour dt = 23)%Z -> v == 1))%Q)
          datetime_col (time_of_year datetime_col).
Proof.
  unfold time_of_year. induction 1 as [|dt l Hdt _ IH]; simpl; constructor.
  - apply time_of_year_at_spec. exact Hdt.
  - exact IH.
Qed.

Lemma time_of_year_spec_witness :
  Forall2 (fun dt v =>
             (v == spec_time_of_year dt /\ 0 <= v <= 1 /\
              (isleap (year dt) = false -> (month dt = 12)%Z -> (day dt = 31)%Z ->
               (hour dt = 23)%Z -> v == 1))%Q)
          [mkdatetime 2019 12 31 23 0 0; mkdatetime 2020 2 29 12 30 0]
          (time_of_year [mkdatetime 2019 12 31 23 0 0; mkdatetime 2020 2 29 12 30 0]).
Proof.
  apply (time_of_year_spec [mkdatetime 2019 12 31 23 0 0; mkdatetime 2020 2 29 12 30 0]).
  repeat constructor; vm_compute; congruence.
Defined.

(** ** Sequence windows *)

Lemma combine_map_same {A B C : Type} (f : A -> B) (g : A -> C) (l : list A) :
  combine (map f l) (map g l) = map (fun x => (f x, g x)) l.
Proof. induction l as [|a l IH]; simpl; [reflexivity | now rewrite IH]. Qed.

Lemma combine_range_shift (a b d : Z) :
  combine (range a b) (range (a + d) (b + d)) = map (fun i => (i, i + d)) (range a b).
Proof.
  unfold range. replace (b + d - (a + d)) with (b - a) by lia.
  rewrite combine_map_same, map_map. apply map_ext. intros k. f_equal. lia.
Qed.

Lemma length_mapM {A B : Type} (f : A -> result B) (l : list A) (bs : list B) :
  mapM f l = Ok bs -> List.length bs = List.length l.
Proof.
  revert bs. induction l as [|a l IH]; simpl; intros bs H.
  - now inversion H.
  - destruct (f a); simpl in H; [|discriminate].
    destruct (mapM f l); simpl in H; [|discriminate].
    inversion H; subst. simpl. f_equal. now apply IH.
Qed.

(** The windows of [gen_sequence], one for each start [i] of the first
    range, from row [i] to row [i + seq_len] excluded. *)
Lemma gen_sequence_windows (df : Table) (seq_len : Z) (seq_cols : list string)
    (start_timestep end_timestep : Z) (data_array : matrix) :
  values df seq_cols = Ok data_array ->
  gen_sequence df seq_len seq_cols start_timestep (Some end_timestep) =
  Ok (map (fun i => slice i (i + seq_len) data_array)
          (range start_timestep (end_timestep - seq_len + 2))).
Proof.
  intros Hv. unfold gen_sequence. rewrite Hv. simpl. f_equal.
  replace (end_timestep + 2) with (end_timestep - seq_len + 2 + seq_len) by lia.
  rewrite combine_range_shift, map_map. reflexivity.
Qed.

Lemma slice_inside {A : Type} (i len : Z) (a : list A) :
  0 <= i -> 0 <= len -> i + len <= Z.of_nat (List.length a) ->
  slice i (i + len) a = firstn (Z.to_nat len) (skipn (Z.to_nat i) a) /\
  List.length (slice i (i + len) a) = Z.to_nat len.
Proof.
  intros Hi Hl Hn. unfold slice.
  destruct (Z.ltb_spec (i + len) 0); [lia|].
  destruct (Z.ltb_spec i 0); [lia|].
  replace (Z.min (i + len) (Z.of_nat (List.length a)) -
           Z.min i (Z.of_nat (List.length a))) with len by lia.
  replace (Z.min i (Z.of_nat (List.length a))) with i by lia.
  split; [reflexivity|].
  rewrite length_firstn, length_skipn. lia.
Qed.

(** X7: with an explicit last time step inside the frame every window is
    whole: the [seq_len] rows from [i] on, for [i] from [start_timestep] to
    [end_timestep - seq_len + 1]. *)
Lemma gen_sequence_whole_windows (df : Table) (seq_len : Z) (seq_cols : list string)
    (start_timestep end_timestep : Z) (data_array : matrix) :
  values df seq_cols = Ok data_array ->
  0 <= start_timestep -> 0 <= seq_len ->
  end_timestep < Z.of_nat (List.length df) ->
  exists ws,
    gen_sequence df seq_len seq_cols start_timestep (Some end_timestep) = Ok ws /\
    ws = map (fun i => firstn (Z.to_nat seq_len) (skipn (Z.to_nat i) data_array))
             (range start_timestep (end_timestep - seq_len + 2)) /\
    List.length ws = Z.to_nat (end_timestep - seq_len + 2 - start_timestep) /\
    Forall (fun w => List.length w = Z.to_nat seq_len) ws.
Proof.
  intros Hv Hs Hl He.
  pose proof (length_mapM _ _ _ Hv) as Hlen. fold (values df seq_cols) in Hv.
  rewrite (gen_sequence_windows _ _ _ _ _ _ Hv). eexists. split; [reflexivity|].
  assert (Hw : forall i, In i (range start_timestep (end_timestep - seq_len + 2)) ->
             slice i (i + seq_len) data_array =
             firstn (Z.to_nat seq_len) (skipn (Z.to_nat i) data_array) /\
             List.length (slice i (i + seq_len) data_array) = Z.to_nat seq_len).
  { intros i Hi. apply In_range in Hi. apply slice_inside; lia. }
  split; [|split].
  - apply map_ext_in. intros i Hi. apply Hw, Hi.
  - rewrite length_map, length_range. reflexivity.
  - apply Forall_forall. intros w Hin. apply in_map_iff in Hin.
    destruct Hin as (i & <- & Hi). apply Hw, Hi.
Qed.

(** X8: with the default [end_timestep], the number of rows, the last window
    starts [seq_len - 1] rows before the end and is one row short. *)
Lemma gen_sequence_default_short_window (df : Table) (seq_len : Z) (seq_cols : list string)
    (data_array : matrix) :
  values df seq_cols = Ok data_array ->
  1 <= seq_len <= Z.of_nat (List.length df) ->
  exists ws w,
    gen_sequence df seq_len seq_cols 0 None = Ok ws /\
    List.length ws = Z.to_nat (Z.of_nat (List.length df) - seq_len + 2) /\
    In w ws /\ List.length w = Z.to_nat (seq_len - 1).
Proof.
  intros Hv HL. pose proof (length_mapM _ _ _ Hv) as Hlen.
  fold (values df seq_cols) in Hv.
  set (n := Z.of_nat (List.length df)) in *.
  assert (Hrun : gen_sequence df seq_len seq_cols 0 None =
                 gen_sequence df seq_len seq_cols 0 (Some n)) by reflexivity.
  rewrite Hrun, (gen_sequence_windows _ _ _ _ _ _ Hv).
  exists (map (fun i => slice i (i + seq_len) data_array) (range 0 (n - seq_len + 2))),
         (slice (n - seq_len + 1) (n - seq_len + 1 + seq_len) data_array).
  split; [reflexivity|]. split; [|split].
  - rewrite length_map, length_range. f_equal. lia.
  - apply in_map_iff. exists (n - seq_len + 1). split; [reflexivity|].
    apply In_range. lia.
  - unfold slice. rewrite Hlen. fold n.
    destruct (Z.ltb_spec (n - seq_len + 1 + seq_len) 0); [lia|].
    destruct (Z.ltb_spec (n - seq_len + 1) 0); [lia|].
    rewrite length_firstn, length_skipn, Hlen. lia.
Qed.

(** C3: with the default [end_timestep] of [gen_sequence] (the number of
    rows, one past the last time step) an entity of 10 rows and
    [seq_len = 3] yields 9 windows, the last of 2 rows only, and
    [gen_sequence_array] cannot stack the windows of two such entities;
    with the last time step 9 given, it yields the 16 windows of 3 rows. *)
Theorem gen_sequence_default_end_short_window :
  option_map (map (@List.length (list Q)))
    (match gen_sequence (ten_rows 1 1) 3 ["x"%string] 0 None with
     | Ok ws => Some ws | Raise _ => None end) =
  Some [3; 3; 3; 3; 3; 3; 3; 3; 2]%nat /\
  gen_sequence_array (ten_rows 1 1 ++ ten_rows 1 2) 3 ["x"%string] 0 None =
  Raise ValueError /\
  option_map (map (@List.length (list Q)))
    (match gen_sequence_array (ten_rows 1 1 ++ ten_rows 1 2) 3 ["x"%string] 0 (Some 9) with
     | Ok ws => Some ws | Raise _ => None end) =
  Some (repeat 3%nat 16).
Proof. repeat split; vm_compute; reflexivity. Qed.

(** ** Ascending lists without repetition *)

Section Ascending.

Context {A : Type} (cmp : A -> A -> comparison).

Hypothesis cmp_eq : forall a b, cmp a b = Eq -> a = b.
Hypothesis cmp_gt : forall a b, cmp a b = Gt -> cmp b a = Lt.
Hypothesis cmp_trans : forall a b c, cmp a b = Lt -> cmp b c = Lt -> cmp a c = Lt.
Hypothesis cmp_irrefl : forall a, cmp a a <> Lt.

Lemma In_insert_by (k x : A) (l : list A) :
  In x (insert_by cmp k l) <-> x = k \/ In x l.
Proof.
  induction l as [|k' l IH]; simpl.
  - intuition.
  - destruct (cmp k k') eqn:E; simpl.
    + apply cmp_eq in E. subst k'. intuition.
    + intuition.
    + rewrite IH. intuition.
Qed.

Lemma insert_by_ascending (k : A) (l : list A) :
  StronglySorted (below cmp) l -> StronglySorted (below cmp) (insert_by cmp k l).
Proof.
  induction 1 as [|k' l Hl IH Hk']; simpl.
  - repeat constructor.
  - destruct (cmp k k') eqn:E.
    + now constructor.
    + constructor; [now constructor|]. constructor; [exact E|].
      eapply Forall_impl; [|exact Hk']. intros y Hy. eapply cmp_trans; eauto.
    + constructor; [exact IH|]. apply Forall_forall. intros y Hy.
      apply In_insert_by in Hy. destruct Hy as [-> | Hy].
      * now apply cmp_gt.
      * rewrite Forall_forall in Hk'. now apply Hk'.
Qed.

Lemma fold_insert_by_ascending (l : list A) :
  StronglySorted (below cmp) (fold_right (insert_by cmp) [] l).
Proof.
  induction l as [|a l IH]; simpl; [constructor | now apply insert_by_ascending].
Qed.

Lemma In_fold_insert_by (x : A) (l : list A) :
  In x (fold_right (insert_by cmp) [] l) <-> In x l.
Proof.
  induction l as [|a l IH]; simpl; [tauto|].
  rewrite In_insert_by, IH. intuition.
Qed.

(** Two ascending lists with the same elements are the same list. *)
Lemma ascending_unique (l1 l2 : list A) :
  StronglySorted (below cmp) l1 -> StronglySorted (below cmp) l2 ->
  (forall x, In x l1 <-> In x l2) -> l1 = l2.
Proof.
  intros H1. revert l2. induction H1 as [|a l1 Hl1 IH Ha]; intros l2 H2 Hin.
  - destruct l2 as [|b l2]; [reflexivity|].
    exfalso. apply (Hin b). now left.
  - destruct H2 as [|b l2 Hl2 Hb].
    + exfalso. apply (Hin a). now left.
    + rewrite Forall_forall in Ha, Hb.
      assert (Hab : a = b).
      { destruct (proj1 (Hin a) (or_introl eq_refl)) as [E | Hal2]; [now symmetry|].
        destruct (proj2 (Hin b) (or_introl eq_refl)) as [E | Hbl1]; [exact E|].
        exfalso. apply (cmp_irrefl a).
        eapply cmp_trans; [apply Ha, Hbl1 | apply Hb, Hal2]. }
      subst b. f_equal. apply IH; [exact Hl2|].
      intros x. split; intros Hx.
      * destruct (proj1 (Hin x) (or_intror Hx)) as [E | Hx2]; [|exact Hx2].
        subst x. exfalso. apply (cmp_irrefl a). now apply Ha.
      * destruct (proj2 (Hin x) (or_intror Hx)) as [E | Hx1]; [|exact Hx1].
        subst x. exfalso. apply (cmp_irrefl a). now apply Hb.
Qed.

Lemma ascending_app (l1 l2 : list A) :
  StronglySorted (below cmp) l1 -> StronglySorted (below cmp) l2 ->
  (forall x y, In x l1 -> In y l2 -> below cmp x y) ->
  StronglySorted (below cmp) (l1 ++ l2).
Proof.
  induction 1 as [|a l1 Hl1 IH Ha]; intros H2 Hcross; simpl; [exact H2|].
  constructor.
  - apply IH; [exact H2|]. intros x y Hx Hy. apply Hcross; [now right | exact Hy].
  - apply Forall_app. split; [exact Ha|].
    apply Forall_forall. intros y Hy. apply Hcross; [now left | exact Hy].
Qed.

End Ascending.

(** The two orders at hand: integers, and pairs of keys. *)

Lemma Zcompare_gt (a b : Z) : (a ?= b) = Gt -> (b ?= a) = Lt.
Proof. rewrite Z.compare_gt_iff, Z.compare_lt_iff. lia. Qed.

Lemma Zcompare_trans (a b c : Z) : (a ?= b) = Lt -> (b ?= c) = Lt -> (a ?= c) = Lt.
Proof. rewrite !Z.compare_lt_iff. lia. Qed.

Lemma Zcompare_irrefl (a : Z) : (a ?= a) <> Lt.
Proof. rewrite Z.compare_refl. discriminate. Qed.

Lemma key_compare_eq (a b : Z * Z) : key_compare a b = Eq -> a = b.
Proof.
  destruct a as [a1 a2], b as [b1 b2]. unfold key_compare. simpl.
  destruct (a1 ?= b1) eqn:E1; try discriminate.
  intros E2. apply Z.compare_eq in E1, E2. now subst.
Qed.

Lemma key_compare_lt (a b : Z * Z) :
  key_compare a b = Lt <-> fst a < fst b \/ (fst a = fst b /\ snd a < snd b).
Proof.
  unfold key_compare.
  destruct (fst a ?= fst b) eqn:E1.
  - apply Z.compare_eq in E1. rewrite Z.compare_lt_iff. lia.
  - rewrite Z.compare_lt_iff in E1. intuition.
  - rewrite Z.compare_gt_iff in E1. split; [discriminate | intros; exfalso; lia].
Qed.

Lemma key_compare_gt_iff (a b : Z * Z) :
  key_compare a b = Gt <-> fst b < fst a \/ (fst a = fst b /\ snd b < snd a).
Proof.
  unfold key_compare.
  destruct (fst a ?= fst b) eqn:E1.
  - apply Z.compare_eq in E1. rewrite Z.compare_gt_iff. lia.
  - rewrite Z.compare_lt_iff in E1. split; [discriminate | intros; exfalso; lia].
  - rewrite Z.compare_gt_iff in E1. intuition.
Qed.

Lemma key_compare_gt (a b : Z * Z) : key_compare a b = Gt -> key_compare b a = Lt.
Proof. rewrite key_compare_gt_iff, key_compare_lt. intuition lia. Qed.

Lemma key_compare_trans (a b c : Z * Z) :
  key_compare a b = Lt -> key_compare b c = Lt -> key_compare a c = Lt.
Proof. rewrite !key_compare_lt. lia. Qed.

Lemma key_compare_irrefl (a : Z * Z) : key_compare a a <> Lt.
Proof. rewrite key_compare_lt. lia. Qed.

(** ** Lists split by a predicate *)

Lemma StronglySorted_filter {A : Type} (R : A -> A -> Prop) (f : A -> bool) (l : list A) :
  StronglySorted R l -> StronglySorted R (filter f l).
Proof.
  induction 1 as [|a l Hl IH Ha]; simpl; [constructor|].
  destruct (f a); [|exact IH]. constructor; [exact IH|].
  rewrite Forall_forall in *. intros y Hy. apply filter_In in Hy. now apply Ha.
Qed.

Lemma filter_none {A : Type} (f : A -> bool) (l : list A) :
  (forall x, In x l -> f x = false) -> filter f l = [].
Proof.
  induction l as [|a l IH]; simpl; intros H; [reflexivity|].
  rewrite (H a (or_introl eq_refl)). apply IH. intros x Hx. apply H. now right.
Qed.

Lemma filter_all {A : Type} (f : A -> bool) (l : list A) :
  (forall x, In x l -> f x = true) -> filter f l = l.
Proof.
  induction l as [|a l IH]; simpl; intros H; [reflexivity|].
  rewrite (H a (or_introl eq_refl)). f_equal. apply IH. intros x Hx. apply H. now right.
Qed.

Lemma filter_filter {A : Type} (f g : A -> bool) (l : list A) :
  filter f (filter g l) = filter (fun x => g x && f x) l.
Proof.
  induction l as [|a l IH]; simpl; [reflexivity|].
  destruct (g a); simpl; [destruct (f a)|]; now rewrite IH.
Qed.

(** A list in which the rows that satisfy [p] come first is its [p] part
    followed by the rest. *)
Lemma filter_split {A : Type} (p : A -> bool) (l : list A) :
  StronglySorted (fun x y => p y = true -> p x = true) l ->
  l = filter p l ++ filter (fun x => negb (p x)) l.
Proof.
  induction 1 as [|a l Hl IH Ha]; simpl; [reflexivity|].
  destruct (p a) eqn:E; simpl.
  - f_equal. exact IH.
  - rewrite Forall_forall in Ha.
    assert (Hnone : forall y, In y l -> p y = false).
    { intros y Hy. destruct (p y) eqn:Ey; [|reflexivity].
      specialize (Ha y Hy Ey). congruence. }
    rewrite (filter_none p l Hnone). simpl. f_equal. symmetry.
    apply filter_all. intros y Hy. now rewrite (Hnone y Hy).
Qed.

Lemma StronglySorted_impl_in {A : Type} (R R' : A -> A -> Prop) (l : list A) :
  (forall x y, In x l -> In y l -> R x y -> R' x y) ->
  StronglySorted R l -> StronglySorted R' l.
Proof.
  intros Himp H. induction H as [|a l Hl IH Ha]; constructor.
  - apply IH. intros x y Hx Hy. apply Himp; now right.
  - rewrite Forall_forall in *. intros y Hy.
    apply Himp; [now left | now right | now apply Ha].
Qed.

Lemma StronglySorted_map {A B : Type} (R : B -> B -> Prop) (f : A -> B) (l : list A) :
  StronglySorted (fun x y => R (f x) (f y)) l -> StronglySorted R (map f l).
Proof.
  induction 1 as [|a l Hl IH Ha]; simpl; constructor; [exact IH|].
  rewrite Forall_forall in *. intros y Hy. apply in_map_iff in Hy.
  destruct Hy as (x & <- & Hx). now apply Ha.
Qed.

(** ** First appearances *)

Lemma In_unique (x : Z) (l : list Z) : In x (unique l) <-> In x l.
Proof.
  induction l as [|a l IH]; simpl; [tauto|].
  rewrite filter_In, IH. split.
  - intros [-> | [H _]]; auto.
  - intros [-> | H]; [now left|].
    destruct (Z.eq_dec x a) as [-> | Hne]; [now left|].
    right. split; [exact H|]. apply negb_true_iff. now apply Z.eqb_neq.
Qed.

Lemma unique_ascending (l : list Z) :
  StronglySorted Z.le l -> StronglySorted (below Z.compare) (unique l).
Proof.
  induction 1 as [|a l Hl IH Ha]; simpl; constructor.
  - now apply StronglySorted_filter.
  - rewrite Forall_forall in *. intros y Hy. apply filter_In in Hy.
    destruct Hy as (Hy & Hne). rewrite In_unique in Hy.
    apply negb_true_iff, Z.eqb_neq in Hne. specialize (Ha y Hy).
    unfold below. apply Z.compare_lt_iff. lia.
Qed.

Lemma unique_app (l1 l2 : list Z) :
  unique (l1 ++ l2) = unique l1 ++ filter (fun y => negb (memZ y l1)) (unique l2).
Proof.
  induction l1 as [|a l1 IH]; simpl.
  - symmetry. apply filter_all. reflexivity.
  - f_equal. rewrite IH, filter_app. f_equal.
    rewrite filter_filter. apply filter_ext. intros y.
    unfold memZ. simpl. destruct (y =? a), (existsb (Z.eqb y) l1); reflexivity.
Qed.

Lemma memZ_In (x : Z) (l : list Z) : memZ x l = true <-> In x l.
Proof.
  unfold memZ. rewrite existsb_exists. split.
  - intros (y & Hy & E). apply Z.eqb_eq in E. now subst.
  - intros H. exists x. split; [exact H | apply Z.eqb_refl].
Qed.

Lemma unique_app_covered (l1 l2 : list Z) :
  (forall y, In y l2 -> In y l1) -> unique (l1 ++ l2) = unique l1.
Proof.
  intros H. rewrite unique_app, filter_none; [apply app_nil_r|].
  intros y Hy. rewrite In_unique in Hy. apply negb_false_iff, memZ_In. now apply H.
Qed.

Lemma sorted_unique_ascending (l : list Z) :
  StronglySorted (below Z.compare) (sorted_unique l).
Proof.
  apply fold_insert_by_ascending.
  - intros a b. apply Z.compare_eq.
  - apply Zcompare_gt.
  - apply Zcompare_trans.
Qed.

Lemma In_sorted_unique (x : Z) (l : list Z) : In x (sorted_unique l) <-> In x l.
Proof. apply In_fold_insert_by. intros a b. apply Z.compare_eq. Qed.

(** First appearances in ascending order are the sorted unique values. *)
Lemma unique_sorted_unique (l : list Z) :
  StronglySorted (below Z.compare) (unique l) -> unique l = sorted_unique l.
Proof.
  intros H. apply (ascending_unique Z.compare).
  - apply Zcompare_trans.
  - apply Zcompare_irrefl.
  - exact H.
  - apply sorted_unique_ascending.
  - intros x. now rewrite In_unique, In_sorted_unique.
Qed.

(** ** Entities of a frame *)

Lemma key_eqb_spec (r : Row) (g : Z * Z) :
  (grain1 r =? fst g) && (grain2 r =? snd g) = true <-> key r = g.
Proof.
  destruct g as [a b]. unfold key. simpl.
  rewrite andb_true_iff, !Z.eqb_eq. split.
  - intros [-> ->]. reflexivity.
  - intros E. inversion E. auto.
Qed.

Lemma In_entity (r : Row) (df : Table) (g : Z * Z) :
  In r (entity df g) <-> In r df /\ key r = g.
Proof. unfold entity. now rewrite filter_In, key_eqb_spec. Qed.

Lemma key_le_antisym (a b : Z * Z) :
  key_compare a b <> Gt -> key_compare b a <> Gt -> a = b.
Proof.
  rewrite !key_compare_gt_iff. destruct a as [a1 a2], b as [b1 b2]. simpl.
  intros H1 H2. f_equal; lia.
Qed.

Lemma key_le_trans (a b c : Z * Z) :
  key_compare a b <> Gt -> key_compare b c <> Gt -> key_compare a c <> Gt.
Proof. rewrite !key_compare_gt_iff. lia. Qed.

Lemma key_le_below (a b : Z * Z) :
  key_compare a b <> Gt -> a <> b -> below key_compare a b.
Proof.
  intros Hle Hne. unfold below. destruct (key_compare a b) eqn:E.
  - now apply key_compare_eq in E.
  - reflexivity.
  - congruence.
Qed.

Lemma ordered_by_key_sorted (df : Table) :
  ordered_by_key df = true -> StronglySorted row_le df.
Proof.
  intros H. apply Sorted_StronglySorted.
  - intros a b c. apply key_le_trans.
  - induction df as [|r df IH]; [constructor|].
    destruct df as [|r' df]; [repeat constructor|].
    simpl in H. destruct (key_compare (key r) (key r')) eqn:E; try discriminate.
    + constructor; [now apply IH|]. constructor. unfold row_le. congruence.
    + constructor; [now apply IH|]. constructor. unfold row_le. congruence.
Qed.

Lemma all_combinations_spec (df : Table) :
  all_combinations df = true ->
  forall a b, In a (map grain1 df) -> In b (map grain2 df) ->
              exists r, In r df /\ key r = (a, b).
Proof.
  unfold all_combinations. rewrite forallb_forall. intros H a b Ha Hb.
  specialize (H (a, b) (proj2 (in_prod_iff _ _ a b) (conj Ha Hb))).
  destruct (entity df (a, b)) as [|r l] eqn:E; [discriminate|].
  exists r. apply (In_entity r df (a, b)). rewrite E. now left.
Qed.

(** In a frame ordered by the keys, the rows of the least key come first. *)
Lemma entity_split (df : Table) (k : Z * Z) :
  StronglySorted row_le df ->
  (forall r, In r df -> key_compare k (key r) <> Gt) ->
  df = entity df k ++
       filter (fun r => negb ((grain1 r =? fst k) && (grain2 r =? snd k))) df.
Proof.
  intros Hs Hmin. unfold entity.
  apply (filter_split (fun r => (grain1 r =? fst k) && (grain2 r =? snd k))).
  eapply StronglySorted_impl_in; [|exact Hs].
  intros x y Hx Hy Hle Hy'. apply key_eqb_spec in Hy'. apply key_eqb_spec.
  apply key_le_antisym; [|now apply Hmin].
  unfold row_le in Hle. now rewrite Hy' in Hle.
Qed.

Lemma flat_map_ext_in {A B : Type} (f g : A -> list B) (l : list A) :
  (forall a, In a l -> f a = g a) -> flat_map f l = flat_map g l.
Proof.
  induction l as [|a l IH]; simpl; intros H; [reflexivity|].
  rewrite (H a (or_introl eq_refl)). f_equal. apply IH. intros x Hx. apply H. now right.
Qed.

(** A frame ordered by the keys is the concatenation of its entities in
    the ascending order of their keys. *)
Lemma flat_map_entity_ordered (K : list (Z * Z)) :
  StronglySorted (below key_compare) K ->
  forall df, StronglySorted row_le df ->
             (forall r, In r df -> In (key r) K) ->
             flat_map (entity df) K = df.
Proof.
  induction 1 as [|k K HK IH Hk]; intros df Hs Hin; simpl.
  - destruct df as [|r df]; [reflexivity|]. exfalso. apply (Hin r). now left.
  - rewrite Forall_forall in Hk.
    set (rest := filter (fun r => negb ((grain1 r =? fst k) && (grain2 r =? snd k))) df).
    assert (Hsplit : df = entity df k ++ rest).
    { apply entity_split; [exact Hs|]. intros r Hr.
      destruct (Hin r Hr) as [<- | HrK].
      - intros E. apply key_compare_gt in E. now apply key_compare_irrefl in E.
      - specialize (Hk _ HrK). unfold below in Hk. congruence. }
    assert (Hrest : flat_map (entity df) K = flat_map (entity rest) K).
    { apply flat_map_ext_in. intros g Hg. unfold entity, rest.
      rewrite filter_filter. apply filter_ext. intros r.
      destruct ((grain1 r =? fst g) && (grain2 r =? snd g)) eqn:Eg;
        [|now rewrite andb_false_r].
      rewrite andb_true_r. symmetry. apply negb_true_iff.
      destruct ((grain1 r =? fst k) && (grain2 r =? snd k)) eqn:Ek; [|reflexivity].
      apply key_eqb_spec in Eg, Ek. exfalso.
      apply (key_compare_irrefl k). specialize (Hk _ Hg). unfold below in Hk. congruence. }
    rewrite Hrest, IH.
    + symmetry. exact Hsplit.
    + now apply StronglySorted_filter.
    + intros r Hr. apply filter_In in Hr. destruct Hr as (Hr & Hne).
      destruct (Hin r Hr) as [E | HrK]; [|exact HrK].
      exfalso. apply negb_true_iff in Hne.
      assert (Ht : (grain1 r =? fst k) && (grain2 r =? snd k) = true)
        by (apply key_eqb_spec; now symmetry).
      congruence.
Qed.

Lemma group_keys_ascending (df : Table) :
  StronglySorted (below key_compare) (group_keys df).
Proof.
  apply fold_insert_by_ascending.
  - apply key_compare_eq.
  - apply key_compare_gt.
  - apply key_compare_trans.
Qed.

Lemma In_group_keys (g : Z * Z) (df : Table) :
  In g (group_keys df) <-> exists r, In r df /\ key r = g.
Proof.
  unfold group_keys. rewrite In_fold_insert_by by apply key_compare_eq.
  rewrite in_map_iff. split; intros (r & H1 & H2); exists r; auto.
Qed.

Lemma list_prod_ascending (l1 l2 : list Z) :
  StronglySorted (below Z.compare) l1 -> StronglySorted (below Z.compare) l2 ->
  StronglySorted (below key_compare) (list_prod l1 l2).
Proof.
  intros H1 H2. induction H1 as [|a l1 Hl1 IH Ha]; simpl; [constructor|].
  apply ascending_app.
  - clear IH. induction H2 as [|b l2 Hl2 IH2 Hb]; simpl; constructor; [exact IH2|].
    rewrite Forall_forall in *. intros y Hy. apply in_map_iff in Hy.
    destruct Hy as (b' & <- & Hb'). apply key_compare_lt. simpl.
    specialize (Hb b' Hb'). unfold below in Hb. rewrite Z.compare_lt_iff in Hb. lia.
  - exact IH.
  - intros x y Hx Hy. apply in_map_iff in Hx. destruct Hx as (b & <- & Hb).
    destruct y as [a' b']. apply in_prod_iff in Hy. destruct Hy as (Ha' & _).
    rewrite Forall_forall in Ha. specialize (Ha a' Ha'). unfold below in *.
    rewrite Z.compare_lt_iff in Ha. apply key_compare_lt. simpl. lia.
Qed.

Lemma row_le_grain1 (x y : Row) : row_le x y -> grain1 x <= grain1 y.
Proof. unfold row_le. rewrite key_compare_gt_iff. unfold key. simpl. lia. Qed.

Lemma row_le_grain2 (x y : Row) : row_le x y -> grain1 x = grain1 y -> grain2 x <= grain2 y.
Proof. unfold row_le. rewrite key_compare_gt_iff. unfold key. simpl. lia. Qed.

Lemma grain1_unique_ascending (df : Table) :
  StronglySorted row_le df ->
  StronglySorted (below Z.compare) (unique (map grain1 df)).
Proof.
  intros Hs. apply unique_ascending, StronglySorted_map.
  eapply StronglySorted_impl_in; [|exact Hs].
  intros x y _ _. apply row_le_grain1.
Qed.

Lemma grain2_unique_ascending (df : Table) :
  StronglySorted row_le df -> all_combinations df = true ->
  StronglySorted (below Z.compare) (unique (map grain2 df)).
Proof.
  intros Hs Hall. destruct df as [|r0 df']; [constructor|].
  set (df := r0 :: df') in *.
  set (p := fun r => grain1 r =? grain1 r0).
  assert (Hmin : forall r, In r df -> grain1 r0 <= grain1 r).
  { intros r [<- | Hr]; [lia|]. apply row_le_grain1.
    apply StronglySorted_inv in Hs. destruct Hs as (_ & Hhd).
    rewrite Forall_forall in Hhd. now apply Hhd. }
  assert (Hsplit : df = filter p df ++ filter (fun r => negb (p r)) df).
  { apply filter_split. eapply StronglySorted_impl_in; [|exact Hs].
    intros x y Hx Hy Hle. unfold p. rewrite !Z.eqb_eq. intros E.
    apply row_le_grain1 in Hle. specialize (Hmin x Hx). lia. }
  assert (Hcols : map grain2 df =
                  map grain2 (filter p df) ++ map grain2 (filter (fun r => negb (p r)) df)).
  { rewrite <- map_app. now rewrite <- Hsplit. }
  rewrite Hcols, unique_app_covered.
  - apply unique_ascending, StronglySorted_map.
    eapply StronglySorted_impl_in; [|apply StronglySorted_filter; exact Hs].
    intros x y Hx Hy Hle. apply filter_In in Hx, Hy.
    destruct Hx as (_ & Hx), Hy as (_ & Hy). unfold p in Hx, Hy.
    apply Z.eqb_eq in Hx, Hy. apply row_le_grain2; [exact Hle | congruence].
  - intros y Hy. apply in_map_iff in Hy. destruct Hy as (r & <- & Hr).
    apply filter_In in Hr. destruct Hr as (Hr & _).
    destruct (all_combinations_spec df Hall (grain1 r0) (grain2 r)) as (r' & Hr' & Hk).
    + apply in_map. now left.
    + now apply in_map.
    + unfold key in Hk. injection Hk as Hk1 Hk2.
      apply in_map_iff. exists r'. split; [exact Hk2|].
      apply filter_In. split; [exact Hr'|]. unfold p. now apply Z.eqb_eq.
Qed.

Lemma firstn_same_length {A : Type} (n : nat) (l : list A) :
  List.length (firstn n l) = List.length l -> firstn n l = l.
Proof.
  intros H. apply firstn_all2. rewrite length_firstn in H. lia.
Qed.

Lemma slice_head_same_length {A : Type} (t : Z) (l : list A) :
  List.length (slice 0 t l) = List.length l -> slice 0 t l = l.
Proof.
  unfold slice. simpl.
  replace (Z.min 0 (Z.of_nat (List.length l))) with 0 by lia.
  simpl. apply firstn_same_length.
Qed.

Lemma slice_nil {A : Type} (start stop : Z) : slice start stop (@nil A) = [].
Proof. unfold slice. now rewrite skipn_nil, firstn_nil. Qed.

(** ** The arrays of the entities *)

Lemma mapM_app {A B : Type} (f : A -> result B) (l1 l2 : list A) :
  mapM f (l1 ++ l2) = (a <- mapM f l1 ;; b <- mapM f l2 ;; Ok (a ++ b)).
Proof.
  induction l1 as [|x l1 IH]; cbn [mapM app bind].
  - destruct (mapM f l2); reflexivity.
  - destruct (f x) as [y|e]; cbn [bind]; [|reflexivity]. rewrite IH.
    destruct (mapM f l1) as [a|e]; cbn [bind]; [|reflexivity].
    destruct (mapM f l2) as [b|e]; reflexivity.
Qed.

Lemma mapM_map {A B C : Type} (f : B -> result C) (h : A -> B) (l : list A) :
  mapM f (map h l) = mapM (fun a => f (h a)) l.
Proof.
  induction l as [|a l IH]; cbn [mapM map]; [reflexivity|]. now rewrite IH.
Qed.

Lemma mapM_Forall2 {A B : Type} (f : A -> result B) (l : list A) (bs : list B) :
  mapM f l = Ok bs <-> Forall2 (fun a b => f a = Ok b) l bs.
Proof.
  revert bs. induction l as [|a l IH]; intros bs; cbn [mapM].
  - split; [intros H; inversion H; constructor | intros H; now inversion H].
  - split.
    + destruct (f a) as [b|e] eqn:E; cbn [bind]; [|discriminate].
      destruct (mapM f l) as [bs'|e] eqn:E'; cbn [bind]; [|discriminate].
      intros H. inversion H. subst bs. constructor; [exact E | now apply IH].
    + intros H. inversion H as [|a' b l' bs' Hb Hbs]. subst.
      rewrite Hb. cbn [bind]. apply IH in Hbs. rewrite Hbs. reflexivity.
Qed.

Lemma values_concat (ls : list Table) (seq_cols : list string) :
  values (concat ls) seq_cols =
  (rows <- mapM (fun l => values l seq_cols) ls ;; Ok (concat rows)).
Proof.
  induction ls as [|l ls IH]; cbn [concat mapM bind]; [reflexivity|].
  unfold values at 1. rewrite mapM_app. fold (values l seq_cols).
  fold (values (concat ls) seq_cols). rewrite IH.
  destruct (values l seq_cols) as [a|e]; cbn [bind]; [|reflexivity].
  destruct (mapM (fun l0 => values l0 seq_cols) ls) as [b|e]; reflexivity.
Qed.

Lemma np_concatenate_concat (ls : list (list matrix)) (ws : list matrix) :
  np_concatenate ls = Ok ws -> ws = concat ls.
Proof.
  unfold np_concatenate. destruct ls as [|l0 ls0] eqn:E; [discriminate|].
  rewrite <- E. clear E l0 ls0.
  destruct (forallb is_nil ls) eqn:Hnil.
  - intros H. inversion H. clear H. rewrite forallb_forall in Hnil.
    induction ls as [|l ls IH]; [reflexivity|]. cbn [concat].
    rewrite <- IH by (intros x Hx; apply Hnil; now right).
    specialize (Hnil l (or_introl eq_refl)). destruct l; [reflexivity | discriminate].
  - destruct (_ && _); [|discriminate]. intros H. now inversion H.
Qed.

Lemma concat_map_filter_nonempty {A B : Type} (h : A -> list B) (p : A -> bool) (l : list A) :
  (forall a, In a l -> p a = false -> h a = []) ->
  concat (map h (filter p l)) = concat (map h l).
Proof.
  induction l as [|a l IH]; intros H; [reflexivity|]. cbn [filter map concat].
  destruct (p a) eqn:E; cbn [map concat].
  - rewrite IH by (intros; apply H; [now right | assumption]). reflexivity.
  - rewrite (H a (or_introl eq_refl) E), IH by (intros; apply H; [now right | assumption]).
    reflexivity.
Qed.

Lemma entity_nonempty_key (df : Table) (g : Z * Z) :
  is_nil (entity df g) = false <-> In g (group_keys df).
Proof.
  rewrite In_group_keys. split.
  - destruct (entity df g) as [|r l] eqn:E; [discriminate|]. intros _.
    exists r. apply In_entity. rewrite E. now left.
  - intros (r & Hr & Hk). assert (H : In r (entity df g)) by now apply In_entity.
    destruct (entity df g); [contradiction | reflexivity].
Qed.

(** The groups are the entities that have a row, in the same order. *)
Lemma group_keys_sequence_entities (df : Table) :
  unique (map grain1 df) = sorted_unique (map grain1 df) ->
  unique (map grain2 df) = sorted_unique (map grain2 df) ->
  group_keys df = filter (fun g => negb (is_nil (entity df g))) (sequence_entities df).
Proof.
  intros H1 H2. apply (ascending_unique key_compare).
  - apply key_compare_trans.
  - apply key_compare_irrefl.
  - apply group_keys_ascending.
  - apply StronglySorted_filter. unfold sequence_entities. rewrite H1, H2.
    apply list_prod_ascending; apply sorted_unique_ascending.
  - intros [a b]. rewrite filter_In, negb_true_iff, entity_nonempty_key.
    split; [|tauto]. intros H. split; [|exact H].
    apply In_group_keys in H. destruct H as (r & Hr & Hk). inversion Hk.
    unfold sequence_entities. rewrite in_prod_iff, !In_unique. split; now apply in_map.
Qed.

(** The heads of the groups follow the entities in the order in which
    [gen_sequence_array] visits them. *)
Lemma groupby_head_sequence_entities (df : Table) (total_timesteps : Z) :
  unique (map grain1 df) = sorted_unique (map grain1 df) ->
  unique (map grain2 df) = sorted_unique (map grain2 df) ->
  cuts_a_group df total_timesteps = true \/ grouped_by_entity df ->
  groupby_head df total_timesteps =
  concat (map (fun g => slice 0 total_timesteps (entity df g)) (sequence_entities df)).
Proof.
  intros H1 H2 H. unfold groupby_head.
  destruct (forallb _ _) eqn:E.
  - destruct H as [H|H].
    + exfalso. unfold cuts_a_group in H. apply existsb_exists in H.
      destruct H as (g & Hg & Hcut). rewrite forallb_forall in E.
      rewrite (E (entity df g) (in_map _ _ _ Hg)) in Hcut. discriminate.
    + etransitivity; [symmetry; exact H|]. f_equal. apply map_ext_in. intros g Hg. symmetry.
      destruct (is_nil (entity df g)) eqn:En.
      * destruct (entity df g); [apply slice_nil | discriminate].
      * apply slice_head_same_length, Nat.eqb_eq. rewrite forallb_forall in E.
        apply E, in_map. now apply entity_nonempty_key.
  - rewrite map_map, (group_keys_sequence_entities df H1 H2).
    apply (concat_map_filter_nonempty (fun g => slice 0 total_timesteps (entity df g))).
    intros g _ Hg. apply negb_false_iff in Hg.
    destruct (entity df g); [apply slice_nil | discriminate].
Qed.

(** A frame ordered by its pair of keys, with every combination of them,
    is grouped by entity, and its keys first appear in ascending order. *)
Lemma ordered_by_key_grouped (df : Table) :
  ordered_by_key df = true -> all_combinations df = true ->
  unique (map grain1 df) = sorted_unique (map grain1 df) /\
  unique (map grain2 df) = sorted_unique (map grain2 df) /\
  grouped_by_entity df.
Proof.
  intros Hord Hall. apply ordered_by_key_sorted in Hord.
  pose proof (unique_sorted_unique _ (grain1_unique_ascending df Hord)) as H1.
  pose proof (unique_sorted_unique _ (grain2_unique_ascending df Hord Hall)) as H2.
  split; [exact H1|]. split; [exact H2|].
  unfold grouped_by_entity. rewrite <- flat_map_concat_map.
  apply flat_map_entity_ordered; [|exact Hord|].
  - unfold sequence_entities. rewrite H1, H2.
    apply list_prod_ascending; apply sorted_unique_ascending.
  - intros r Hr. unfold sequence_entities, key. rewrite in_prod_iff, !In_unique.
    split; now apply in_map.
Qed.

(** C7 (as amended): on a frame in which the values of each of the two
    keys first appear in ascending order and, unless [total_timesteps]
    cuts some group short, whose rows are grouped by entity,
    [gen_sequence_array] and [static_feature_array] go through the
    entities in the same order, the Cartesian product of the sorted unique
    values of the two keys: the array of the former is made of the windows
    of the entities one entity after the other, the array of the latter of
    the first [total_timesteps] rows of the entities in the same order.
    With a row for every combination of the keys, that order is also the
    order of the groups of [groupby]. *)
Theorem entity_order_aligned (df_all : Table) (total_timesteps : Z) :
  unique (map grain1 df_all) = sorted_unique (map grain1 df_all) ->
  unique (map grain2 df_all) = sorted_unique (map grain2 df_all) ->
  cuts_a_group df_all total_timesteps = true \/ grouped_by_entity df_all ->
  sequence_entities df_all =
    list_prod (sorted_unique (map grain1 df_all)) (sorted_unique (map grain2 df_all)) /\
  (all_combinations df_all = true -> group_keys df_all = sequence_entities df_all) /\
  (forall seq_len seq_cols start_timestep end_timestep ws,
     gen_sequence_array df_all seq_len seq_cols start_timestep end_timestep = Ok ws ->
     exists blocks,
       Forall2 (fun g b => gen_sequence (entity df_all g) seq_len seq_cols
                                        start_timestep end_timestep = Ok b)
               (sequence_entities df_all) blocks /\
       ws = concat blocks) /\
  (forall seq_cols,
     static_feature_array df_all total_timesteps seq_cols =
     (rows <- mapM (fun g => values (slice 0 total_timesteps (entity df_all g)) seq_cols)
                   (sequence_entities df_all) ;;
      Ok (concat rows))).
Proof.
  intros H1 H2 H. split; [|split; [|split]].
  - unfold sequence_entities. now rewrite H1, H2.
  - intros Hall. rewrite (group_keys_sequence_entities df_all H1 H2).
    apply forallb_filter_id. apply forallb_forall. intros [a b] Hg.
    unfold sequence_entities in Hg. rewrite in_prod_iff, !In_unique in Hg.
    destruct Hg as (Ha & Hb). apply negb_true_iff, entity_nonempty_key, In_group_keys.
    now apply all_combinations_spec.
  - intros seq_len seq_cols s e ws Hrun. unfold gen_sequence_array in Hrun.
    destruct (mapM _ (sequence_entities df_all)) as [blocks|] eqn:E;
      cbn [bind] in Hrun; [|discriminate].
    exists blocks. split; [now apply mapM_Forall2 | now apply np_concatenate_concat].
  - intros seq_cols. unfold static_feature_array. cbv zeta.
    rewrite (groupby_head_sequence_entities df_all total_timesteps H1 H2 H).
    now rewrite values_concat, mapM_map.
Qed.

(** ** [str] is injective *)

Lemma to_int_wellformed (z : Z) :
  Z.to_int z <> Decimal.Pos Decimal.Nil /\ Z.to_int z <> Decimal.Neg Decimal.Nil.
Proof.
  destruct z as [|p|p]; simpl; split; try discriminate;
    intros E; injection E as E; now apply Unsigned.to_uint_nonnil in E.
Qed.

Lemma str_inj (a b : Z) : str a = str b -> a = b.
Proof.
  unfold str. intros E.
  destruct (to_int_wellformed a) as (Ha1 & Ha2).
  destruct (to_int_wellformed b) as (Hb1 & Hb2).
  pose proof (NilZero.isi (Z.to_int a) Ha1 Ha2) as Ia.
  pose proof (NilZero.isi (Z.to_int b) Hb1 Hb2) as Ib.
  rewrite E in Ia. rewrite Ia in Ib. injection Ib as Ib.
  rewrite <- (DecimalZ.of_to a), <- (DecimalZ.of_to b). now rewrite Ib.
Qed.

Lemma append_inj_r (p s1 s2 : string) : (p ++ s1 = p ++ s2)%string -> s1 = s2.
Proof.
  induction p as [|c p IH]; simpl; intros E; [exact E|].
  injection E as E. now apply IH.
Qed.

Lemma lag_name_inj (prefix : string) (a b : Z) :
  (prefix ++ str a = prefix ++ str b)%string -> a = b.
Proof. intros E. apply str_inj. eapply append_inj_r. exact E. Qed.

(** ** Columns of a frame *)

Lemma get_col_set_col_same (df : DataFrame) (n : string) (c : list cell) :
  get_col (set_col df n c) n = Ok c.
Proof.
  unfold get_col, set_col. simpl. induction (columns df) as [|[n' c'] cols IH]; simpl.
  - now rewrite String.eqb_refl.
  - destruct (String.eqb n' n) eqn:E; simpl.
    + now rewrite String.eqb_refl.
    + rewrite E. exact IH.
Qed.

Lemma get_col_set_col_other (df : DataFrame) (n n' : string) (c : list cell) :
  n <> n' -> get_col (set_col df n c) n' = get_col df n'.
Proof.
  intros Hne. unfold get_col, set_col. simpl.
  induction (columns df) as [|[m c'] cols IH]; simpl.
  - apply String.eqb_neq in Hne. now rewrite Hne.
  - destruct (String.eqb m n) eqn:E; simpl.
    + apply String.eqb_eq in E. subst m. apply String.eqb_neq in Hne. now rewrite Hne.
    + destruct (String.eqb m n'); [reflexivity | exact IH].
Qed.

Lemma set_col_set_col (df : DataFrame) (n : string) (c1 c2 : list cell) :
  set_col (set_col df n c1) n c2 = set_col df n c2.
Proof.
  unfold set_col. simpl. f_equal.
  induction (columns df) as [|[m c'] cols IH]; simpl.
  - now rewrite String.eqb_refl.
  - destruct (String.eqb m n) eqn:E; simpl.
    + now rewrite String.eqb_refl.
    + rewrite E. now rewrite IH.
Qed.

Lemma has_col_set_col (df : DataFrame) (n n' : string) (c : list cell) :
  has_col (set_col df n c) n' = String.eqb n n' || has_col df n'.
Proof.
  unfold has_col, set_col. simpl. induction (columns df) as [|[m c'] cols IH]; simpl.
  - now rewrite orb_false_r.
  - destruct (String.eqb m n) eqn:E; simpl.
    + apply String.eqb_eq in E. subst m. now destruct (String.eqb n n').
    + rewrite IH. destruct (String.eqb m n'), (String.eqb n n'); reflexivity.
Qed.

Lemma has_col_get_col (df : DataFrame) (n : string) :
  has_col df n = true <-> exists c, get_col df n = Ok c.
Proof.
  unfold has_col, get_col. induction (columns df) as [|[m c'] cols IH]; simpl.
  - split; [discriminate | intros (c & H); discriminate].
  - destruct (String.eqb m n); simpl.
    + split; [intros _; now exists c' | reflexivity].
    + exact IH.
Qed.

(** ** Lookups by label *)

Lemma length_rows_at (idx : list Z) (col : list cell) (t : Z) :
  List.length idx = List.length col ->
  List.length (rows_at idx col t) = occurrences idx t.
Proof.
  unfold rows_at, occurrences. rewrite length_map. revert col.
  induction idx as [|x idx IH]; intros [|c col] H; simpl in *; try discriminate;
    [reflexivity|].
  destruct (x =? t); simpl; rewrite IH; auto.
Qed.

Lemma rows_at_single (idx : list Z) (col : list cell) (t : Z) :
  List.length idx = List.length col -> occurrences idx t = 1%nat ->
  rows_at idx col t = [value_at idx col t].
Proof.
  intros Hlen Hocc. pose proof (length_rows_at idx col t Hlen) as H.
  rewrite Hocc in H. unfold value_at.
  destruct (rows_at idx col t) as [|v [|v' l]]; simpl in H; try discriminate.
  reflexivity.
Qed.

Lemma loc_values_total (idx : list Z) (col : list cell) (labels : list Z) :
  List.length idx = List.length col ->
  (forall t, In t labels -> occurrences idx t = 1%nat) ->
  loc_values idx col labels = Ok (map (value_at idx col) labels).
Proof.
  intros Hlen. induction labels as [|t labels IH]; intros H; simpl; [reflexivity|].
  rewrite (rows_at_single idx col t Hlen (H t (or_introl eq_refl))).
  rewrite IH by (intros t' Ht'; apply H; now right). reflexivity.
Qed.

(** When [loc_values] returns as many values as there are labels, every
    label is the label of exactly one row. *)
Lemma loc_values_exact (idx : list Z) (col : list cell) (labels : list Z) (vals : list cell) :
  List.length idx = List.length col ->
  loc_values idx col labels = Ok vals ->
  (List.length labels <= List.length vals)%nat /\
  (List.length vals = List.length labels ->
   forall t, In t labels -> occurrences idx t = 1%nat).
Proof.
  intros Hlen. revert vals. induction labels as [|t labels IH]; intros vals H; simpl in *.
  - inversion H. simpl. split; [lia | tauto].
  - pose proof (length_rows_at idx col t Hlen) as Hocc.
    destruct (rows_at idx col t) as [|v rows] eqn:Er; [discriminate|].
    destruct (loc_values idx col labels) as [rest|]; simpl in H; [|discriminate].
    inversion H; subst vals. clear H.
    destruct (IH rest eq_refl) as (Hle & Hex). simpl in *.
    rewrite length_app. split; [lia|].
    intros Hl t' [<- | Ht'].
    + lia.
    + apply Hex; [lia | exact Ht'].
Qed.

Lemma mask_select_map {A : Type} (f : A -> bool) (l : list A) :
  mask_select (map f l) l = filter f l.
Proof.
  induction l as [|a l IH]; simpl; [reflexivity|].
  destruct (f a); now rewrite IH.
Qed.

Lemma length_filter_mask {A : Type} (f : A -> bool) (l : list A) :
  List.length (filter (fun b => b) (map f l)) = List.length (filter f l).
Proof.
  induction l as [|a l IH]; simpl; [reflexivity|].
  destruct (f a); simpl; now rewrite IH.
Qed.

Lemma mask_set_map {A B : Type} (f : A -> bool) (g : A -> B) (c : A -> B) (l : list A) :
  mask_set (map f l) (map g (filter f l)) (map c l) =
  map (fun x => if f x then g x else c x) l.
Proof.
  induction l as [|a l IH]; simpl; [reflexivity|].
  destruct (f a); simpl; now rewrite IH.
Qed.

(** ** The loop over the candidate offsets *)

Lemma timedelta_spec (secs : Z) :
  (timedelta_ok secs = true /\ timedelta secs = Ok secs) \/
  (timedelta_ok secs = false /\ exists e, timedelta secs = Raise e).
Proof.
  unfold timedelta_ok, timedelta.
  destruct (Z.ltb_spec 999999999 (Z.abs (secs / 86400))) as [H1|H1].
  - right. split; [|eauto]. apply andb_false_iff. left. apply Z.leb_gt. exact H1.
  - destruct (Z.ltb_spec 9223372036854775807 (Z.abs (secs * 1000000000))) as [H2|H2].
    + right. split; [|eauto]. apply andb_false_iff. right. apply Z.leb_gt. exact H2.
    + left. split; [|reflexivity]. apply andb_true_iff. split; now apply Z.leb_le.
Qed.

Lemma timedelta_ok_eq (secs : Z) : timedelta_ok secs = true -> timedelta secs = Ok secs.
Proof. intros H. destruct (timedelta_spec secs) as [(_ & E) | (E & _)]; congruence. Qed.

(** A timestamp from 1970 on, minus an offset that is not negative and
    that [timedelta] accepts, is within the 64-bit nanoseconds of a
    [Timestamp]. *)
Lemma shifted_timestamp_in_range (t secs lag : Z) :
  timedelta secs = Ok lag -> 0 <= secs ->
  0 <= t -> timestamp_ok t = true -> timestamp_ok (t - lag) = true.
Proof.
  unfold timestamp_ok. intros H Hs Ht Hmax. apply Z.leb_le in Hmax. apply Z.leb_le.
  destruct (timedelta_spec secs) as [(Hok & E) | (_ & e & E)].
  - rewrite E in H. inversion H. subst lag.
    apply andb_true_iff in Hok. destruct Hok as (_ & Hok). apply Z.leb_le in Hok. lia.
  - rewrite E in H. discriminate.
Qed.

Section LagLoop.

Variable delta : Z -> Z.
Variable prefix : string.
Variables min_time_stamp max_time_stamp : Z.
Variable idx : list Z.
Variable value : list cell.

Hypothesis prefix_not_value : forall w, (prefix ++ str w)%string <> "value"%string.
Hypothesis same_length : List.length idx = List.length value.

Local Abbreviation created := (lag_created delta min_time_stamp max_time_stamp).
Local Abbreviation name := (lag_name prefix).
Local Abbreviation lag_state := (lag_state idx value).
Local Abbreviation lags_ok := (lags_ok delta min_time_stamp max_time_stamp idx).

Lemma lag_state_set_col (df : DataFrame) (w : Z) (c : list cell) :
  lag_state df -> lag_state (set_col df (name w) c).
Proof.
  intros (Hi & Hv). split; [exact Hi|].
  rewrite get_col_set_col_other; [exact Hv | apply prefix_not_value].
Qed.

Lemma labels_ok_spec (d : Z) :
  labels_ok min_time_stamp d idx = true <->
  forall t, In t (filter (fun t => min_time_stamp <=? t) (map (fun t => t - d) idx)) ->
            occurrences idx t = 1%nat.
Proof.
  unfold labels_ok. rewrite forallb_forall. split.
  - intros H t Ht. apply filter_In in Ht. destruct Ht as (Ht & Hmin).
    apply in_map_iff in Ht. destruct Ht as (t' & <- & Ht').
    specialize (H t' Ht'). rewrite Hmin in H. simpl in H. now apply Nat.eqb_eq.
  - intros H t' Ht'. destruct (min_time_stamp <=? t' - d) eqn:E; [|reflexivity].
    simpl. apply Nat.eqb_eq. apply H. apply filter_In. split; [|exact E].
    apply in_map_iff. now exists t'.
Qed.

Lemma lag_step_skip (df : DataFrame) (cols : list string) (w : Z) :
  timedelta_ok (delta w) = true -> created w = false ->
  lag_step delta prefix min_time_stamp max_time_stamp (df, cols) w = Ok (df, cols).
Proof.
  intros Ht. unfold lag_created, lag_step. rewrite (timedelta_ok_eq _ Ht). cbn [bind].
  now intros ->.
Qed.

Lemma lag_step_ok (df : DataFrame) (cols : list string) (w : Z) :
  timedelta_ok (delta w) = true ->
  lag_state df -> created w = true ->
  labels_ok min_time_stamp (delta w) idx = true ->
  lag_step delta prefix min_time_stamp max_time_stamp (df, cols) w =
  Ok (set_col df (name w) (lag_column min_time_stamp (delta w) idx value),
      cols ++ [name w]).
Proof.
  intros Ht (Hi & Hv) Hc Hok. unfold lag_created in Hc. unfold lag_step.
  rewrite (timedelta_ok_eq _ Ht). cbn [bind]. rewrite Hc.
  fold (lag_name prefix w). rewrite get_col_set_col_other by apply prefix_not_value.
  rewrite Hv. simpl. rewrite Hi, mask_select_map.
  rewrite (loc_values_total idx value _ same_length (proj1 (labels_ok_spec _) Hok)).
  simpl. unfold loc_set_mask. rewrite get_col_set_col_same. simpl.
  rewrite length_map, length_filter_mask, Nat.eqb_refl, set_col_set_col.
  do 2 f_equal. f_equal.
  rewrite <- (map_map (fun t => t - delta w) (fun _ => @None Q)).
  rewrite mask_set_map. unfold lag_column. now rewrite map_map.
Qed.

Lemma lag_step_raise (df : DataFrame) (cols : list string) (w : Z) :
  lag_state df -> created w = true ->
  labels_ok min_time_stamp (delta w) idx = false ->
  exists e, lag_step delta prefix min_time_stamp max_time_stamp (df, cols) w = Raise e.
Proof.
  intros (Hi & Hv) Hc Hok. unfold lag_created in Hc. unfold lag_step.
  destruct (timedelta_spec (delta w)) as [(_ & ->) | (_ & e & ->)]; [|now exists e].
  cbn [bind]. rewrite Hc.
  fold (lag_name prefix w). rewrite get_col_set_col_other by apply prefix_not_value.
  rewrite Hv. simpl. rewrite Hi, mask_select_map.
  destruct (loc_values idx value _) as [vals|e] eqn:El; simpl; [|now exists e].
  unfold loc_set_mask. rewrite get_col_set_col_same. simpl.
  rewrite length_filter_mask.
  destruct (Nat.eqb_spec (List.length vals)
              (List.length (filter (fun t => min_time_stamp <=? t)
                                   (map (fun t => t - delta w) idx)))) as [E|E];
    [|now exists ValueError].
  exfalso. destruct (loc_values_exact idx value _ vals same_length El) as (_ & Hex).
  specialize (Hex E). apply labels_ok_spec in Hex. congruence.
Qed.

Lemma index_lag_frame (df : DataFrame) (lags : list Z) :
  index (lag_frame delta prefix min_time_stamp max_time_stamp value df lags) = index df.
Proof.
  unfold lag_frame. revert df. induction lags as [|w lags IH]; intros df; simpl;
    [reflexivity|].
  rewrite IH. now destruct (_ <=? _).
Qed.

Lemma lag_loop_ok (lags : list Z) (df : DataFrame) (cols : list string) :
  offsets_in_range delta lags = true ->
  lag_state df -> lags_ok lags = true ->
  lag_loop delta prefix min_time_stamp max_time_stamp (df, cols) lags =
  Ok (lag_frame delta prefix min_time_stamp max_time_stamp value df lags,
      cols ++ map name (filter created lags)).
Proof.
  revert df cols. induction lags as [|w lags IH]; intros df cols Hr Hst Hok.
  - simpl. now rewrite app_nil_r.
  - simpl in Hok. apply andb_true_iff in Hok. destruct Hok as (Hw & Hok).
    cbn [offsets_in_range forallb] in Hr. apply andb_true_iff in Hr.
    destruct Hr as (Ht & Hr). fold (offsets_in_range delta lags) in Hr.
    cbn [lag_loop lag_frame fold_left filter].
    destruct (created w) eqn:Ec.
    + simpl in Hw. rewrite (lag_step_ok df cols w Ht Hst Ec Hw). cbn [bind].
      rewrite IH; [|exact Hr | now apply lag_state_set_col | exact Hok].
      unfold lag_created in Ec. rewrite Ec. destruct Hst as (Hi & _). rewrite Hi.
      cbn [map]. now rewrite <- app_assoc.
    + rewrite (lag_step_skip df cols w Ht Ec). cbn [bind].
      rewrite IH; [|exact Hr | exact Hst | exact Hok].
      unfold lag_created in Ec. now rewrite Ec.
Qed.

(** A loop that returns has shifted by every offset. *)
Lemma lag_loop_in_range (lags : list Z) (st st' : DataFrame * list string) :
  lag_loop delta prefix min_time_stamp max_time_stamp st lags = Ok st' ->
  offsets_in_range delta lags = true.
Proof.
  revert st. induction lags as [|w lags IH]; intros st H; [reflexivity|].
  cbn [lag_loop] in H. cbn [offsets_in_range forallb].
  destruct (lag_step delta prefix min_time_stamp max_time_stamp st w) as [st1|e] eqn:E;
    cbn [bind] in H; [|discriminate].
  apply andb_true_iff. split; [|exact (IH _ H)].
  destruct st as [df cols]. unfold lag_step in E.
  destruct (timedelta_spec (delta w)) as [(Ht & _) | (_ & e & Ee)]; [exact Ht|].
  rewrite Ee in E. discriminate.
Qed.

(** The loop raises at the first offset that is out of range, if not
    before. *)
Lemma lag_loop_out_of_range (lags : list Z) (st : DataFrame * list string) :
  offsets_in_range delta lags = false ->
  exists e, lag_loop delta prefix min_time_stamp max_time_stamp st lags = Raise e.
Proof.
  intros Hr. destruct (lag_loop delta prefix min_time_stamp max_time_stamp st lags)
    as [st'|e] eqn:E; [|eauto].
  apply lag_loop_in_range in E. congruence.
Qed.

Lemma lag_loop_raise (lags : list Z) (df : DataFrame) (cols : list string) :
  lag_state df -> lags_ok lags = false ->
  exists e, lag_loop delta prefix min_time_stamp max_time_stamp (df, cols) lags = Raise e.
Proof.
  revert df cols. induction lags as [|w lags IH]; intros df cols Hst Hok.
  - discriminate.
  - simpl in Hok. cbn [lag_loop].
    destruct (timedelta_ok (delta w)) eqn:Ht.
    + destruct (created w) eqn:Ec; simpl in Hok.
      * destruct (labels_ok min_time_stamp (delta w) idx) eqn:El; simpl in Hok.
        -- rewrite (lag_step_ok df cols w Ht Hst Ec El). cbn [bind].
           apply IH; [now apply lag_state_set_col | exact Hok].
        -- destruct (lag_step_raise df cols w Hst Ec El) as (e & ->). now exists e.
      * rewrite (lag_step_skip df cols w Ht Ec). cbn [bind]. now apply IH.
    + unfold lag_step.
      destruct (timedelta_spec (delta w)) as [(Ht' & _) | (_ & e & ->)]; [congruence|].
      now exists e.
Qed.

(** The columns of the frame after the loop. *)
Lemma get_col_lag_frame_stable (lags : list Z) (df : DataFrame) (n : string) (c : list cell) :
  index df = idx -> get_col df n = Ok c ->
  (forall w, In w lags -> created w = true -> name w = n ->
             lag_column min_time_stamp (delta w) idx value = c) ->
  get_col (lag_frame delta prefix min_time_stamp max_time_stamp value df lags) n = Ok c.
Proof.
  unfold lag_frame. revert df. induction lags as [|w lags IH]; intros df Hi Hg Hsame; simpl;
    [exact Hg|].
  apply IH.
  - now destruct (_ <=? _).
  - destruct (min_time_stamp <=? max_time_stamp - delta w) eqn:Ec; [|exact Hg].
    destruct (String.eqb_spec (name w) n) as [En|En].
    + fold (lag_name prefix w). rewrite En, get_col_set_col_same. f_equal.
      rewrite Hi. apply Hsame; [now left | exact Ec | exact En].
    + fold (lag_name prefix w). now rewrite get_col_set_col_other.
  - intros w' Hw'. apply Hsame. now right.
Qed.

Lemma get_col_lag_frame (lags : list Z) (df : DataFrame) (w : Z) :
  index df = idx -> In w lags -> created w = true ->
  get_col (lag_frame delta prefix min_time_stamp max_time_stamp value df lags) (name w) =
  Ok (lag_column min_time_stamp (delta w) idx value).
Proof.
  unfold lag_frame. revert df. induction lags as [|w' lags IH]; intros df Hi Hin Hc;
    [destruct Hin|].
  simpl. destruct (in_dec Z.eq_dec w lags) as [Hl | Hl].
  - apply IH; [now destruct (_ <=? _) | exact Hl | exact Hc].
  - destruct Hin as [-> | Hin]; [|contradiction].
    unfold lag_created in Hc. rewrite Hc.
    apply get_col_lag_frame_stable.
    + exact Hi.
    + rewrite Hi. apply get_col_set_col_same.
    + intros w'' _ _ En. apply lag_name_inj in En. now subst.
Qed.

Lemma has_col_lag_frame (lags : list Z) (df : DataFrame) (n : string) :
  has_col (lag_frame delta prefix min_time_stamp max_time_stamp value df lags) n =
  has_col df n || existsb (fun w => created w && String.eqb (name w) n) lags.
Proof.
  unfold lag_frame. revert df. induction lags as [|w lags IH]; intros df; simpl.
  - now rewrite orb_false_r.
  - rewrite IH. fold (lag_created delta min_time_stamp max_time_stamp w). destruct (created w); simpl; [|reflexivity].
    rewrite has_col_set_col. fold (lag_name prefix w).
    destruct (has_col df n), (String.eqb (name w) n); reflexivity.
Qed.

End LagLoop.

(** ** The frame with its lag columns *)

Lemma fold_min_spec (l : list Z) (x : Z) :
  (fold_left Z.min l x = x \/ In (fold_left Z.min l x) l) /\
  fold_left Z.min l x <= x /\ forall t, In t l -> fold_left Z.min l x <= t.
Proof.
  revert x. induction l as [|a l IH]; intros x; simpl.
  - split; [now left|]. split; [lia | tauto].
  - destruct (IH (Z.min x a)) as (Hin & Hle & Hall). split; [|split].
    + destruct Hin as [E | Hin]; [|now right; right].
      rewrite E. destruct (Z.min_spec x a) as [(_ & ->) | (_ & ->)]; [now left | right; now left].
    + lia.
    + intros t [<- | Ht]; [lia | now apply Hall].
Qed.

Lemma fold_max_spec (l : list Z) (x : Z) :
  (fold_left Z.max l x = x \/ In (fold_left Z.max l x) l) /\
  x <= fold_left Z.max l x /\ forall t, In t l -> t <= fold_left Z.max l x.
Proof.
  revert x. induction l as [|a l IH]; intros x; simpl.
  - split; [now left|]. split; [lia | tauto].
  - destruct (IH (Z.max x a)) as (Hin & Hle & Hall). split; [|split].
    + destruct Hin as [E | Hin]; [|now right; right].
      rewrite E. destruct (Z.max_spec x a) as [(_ & ->) | (_ & ->)]; [right; now left | now left].
    + lia.
    + intros t [<- | Ht]; [lia | now apply Hall].
Qed.

Lemma py_min_spec (l : list Z) (m : Z) :
  py_min l = Ok m -> In m l /\ forall t, In t l -> m <= t.
Proof.
  destruct l as [|x l]; simpl; [discriminate|]. intros E. inversion E; subst m.
  destruct (fold_min_spec l x) as (Hin & Hle & Hall). split.
  - destruct Hin as [-> | Hin]; [now left | now right].
  - intros t [<- | Ht]; [exact Hle | now apply Hall].
Qed.

Lemma py_max_spec (l : list Z) (m : Z) :
  py_max l = Ok m -> In m l /\ forall t, In t l -> t <= m.
Proof.
  destruct l as [|x l]; simpl; [discriminate|]. intros E. inversion E; subst m.
  destruct (fold_max_spec l x) as (Hin & Hle & Hall). split.
  - destruct Hin as [-> | Hin]; [now left | now right].
  - intros t [<- | Ht]; [exact Hle | now apply Hall].
Qed.

Lemma week_lag_not_value (w : Z) : ("week_lag_" ++ str w)%string <> "value"%string.
Proof. simpl. discriminate. Qed.

Lemma day_lag_not_value (w : Z) : ("day_lag_" ++ str w)%string <> "value"%string.
Proof. simpl. discriminate. Qed.

Lemma lag_state_new_frame (dt : list Z) (v : list cell) :
  lag_state dt v (mkDF dt [("value"%string, v)]).
Proof. split; reflexivity. Qed.

Lemma lag_cols_ok (delta : Z -> Z) (prefix : string) (lags dt : list Z) (v : list cell)
    (mn mx : Z) :
  (forall w, (prefix ++ str w)%string <> "value"%string) ->
  py_min dt = Ok mn -> py_max dt = Ok mx -> List.length dt = List.length v ->
  offsets_in_range delta lags = true ->
  lags_ok delta mn mx dt lags = true ->
  lag_cols delta prefix lags dt v =
  Ok (lag_frame delta prefix mn mx v (mkDF dt [("value"%string, v)]) lags,
      map (lag_name prefix) (filter (lag_created delta mn mx) lags)).
Proof.
  intros Hp Hmin Hmax Hlen Hr Hok. unfold lag_cols, new_frame.
  rewrite Hmin, Hmax. simpl. rewrite Hlen, Nat.eqb_refl. simpl.
  rewrite (lag_loop_ok delta prefix mn mx dt v Hp Hlen lags _ [] Hr
             (lag_state_new_frame dt v) Hok).
  reflexivity.
Qed.

(** A run of the loop that returns has found every label exactly once. *)
Lemma lag_cols_inv (delta : Z -> Z) (prefix : string) (lags dt : list Z) (v : list cell)
    (st : DataFrame * list string) :
  (forall w, (prefix ++ str w)%string <> "value"%string) ->
  lag_cols delta prefix lags dt v = Ok st ->
  exists mn mx,
    py_min dt = Ok mn /\ py_max dt = Ok mx /\ List.length dt = List.length v /\
    lags_ok delta mn mx dt lags = true /\
    st = (lag_frame delta prefix mn mx v (mkDF dt [("value"%string, v)]) lags,
          map (lag_name prefix) (filter (lag_created delta mn mx) lags)).
Proof.
  intros Hp Hrun. unfold lag_cols in Hrun.
  destruct (py_min dt) as [mn|] eqn:Hmin; simpl in Hrun; [|discriminate].
  destruct (py_max dt) as [mx|] eqn:Hmax; simpl in Hrun; [|discriminate].
  unfold new_frame in Hrun.
  destruct (Nat.eqb_spec (List.length dt) (List.length v)) as [Hlen|Hlen];
    simpl in Hrun; [|discriminate].
  pose proof (lag_loop_in_range delta prefix mn mx lags _ _ Hrun) as Hr.
  exists mn, mx. repeat split; try assumption.
  - destruct (lags_ok delta mn mx dt lags) eqn:Hok; [reflexivity|].
    destruct (lag_loop_raise delta prefix mn mx dt v Hp Hlen lags _ []
                (lag_state_new_frame dt v) Hok) as (e & He).
    rewrite He in Hrun. discriminate.
  - destruct (lags_ok delta mn mx dt lags) eqn:Hok.
    + rewrite (lag_loop_ok delta prefix mn mx dt v Hp Hlen lags _ [] Hr
                 (lag_state_new_frame dt v) Hok) in Hrun.
      now inversion Hrun.
    + destruct (lag_loop_raise delta prefix mn mx dt v Hp Hlen lags _ []
                  (lag_state_new_frame dt v) Hok) as (e & He).
      rewrite He in Hrun. discriminate.
Qed.

Lemma lookup_total_lags_ok (delta : Z -> Z) (lags dt : list Z) (mn mx : Z) :
  py_min dt = Ok mn -> py_max dt = Ok mx ->
  lookup_total delta lags dt = lags_ok delta mn mx dt lags.
Proof. intros Hmin Hmax. unfold lookup_total. now rewrite Hmin, Hmax. Qed.

Lemma py_min_max_nonempty (dt : list Z) :
  dt <> [] -> exists mn mx, py_min dt = Ok mn /\ py_max dt = Ok mx.
Proof. destruct dt as [|t dt]; [congruence|]. intros _. simpl. eauto. Qed.

Lemma nth_error_lag_column (mn d : Z) (idx : list Z) (value : list cell) (i : nat) (t : Z) :
  nth_error idx i = Some t ->
  nth_error (lag_column mn d idx value) i =
  Some (if mn <=? t - d then value_at idx value (t - d) else None).
Proof. intros H. unfold lag_column. now rewrite nth_error_map, H. Qed.

(** The frame of the loop has the column of an offset exactly when the
    offset is one whose column is created. *)
Lemma has_lag_col (delta : Z -> Z) (prefix : string) (lags dt : list Z) (v : list cell)
    (mn mx w : Z) :
  (forall w, (prefix ++ str w)%string <> "value"%string) -> In w lags ->
  has_col (lag_frame delta prefix mn mx v (mkDF dt [("value"%string, v)]) lags)
          (prefix ++ str w) = lag_created delta mn mx w.
Proof.
  intros Hp Hin. rewrite has_col_lag_frame.
  assert (H0 : has_col (mkDF dt [("value"%string, v)]) (prefix ++ str w) = false).
  { unfold has_col. cbn [columns existsb fst]. rewrite orb_false_r.
    apply String.eqb_neq. intros E. symmetry in E. now apply Hp in E. }
  rewrite H0. cbn [orb]. fold (lag_name prefix w).
  destruct (lag_created delta mn mx w) eqn:Ec.
  - apply existsb_exists. exists w. split; [exact Hin|].
    rewrite Ec. simpl. apply String.eqb_refl.
  - destruct (existsb _ lags) eqn:Ex; [|reflexivity].
    apply existsb_exists in Ex. destruct Ex as (w' & _ & Hw').
    apply andb_true_iff in Hw'. destruct Hw' as (Hc & En).
    apply String.eqb_eq, lag_name_inj in En. subst w'. congruence.
Qed.

Lemma lag_function_cols_eq (f : lag_function) (dt : list Z) (v : list cell) (Y W : Z) :
  lag_function_cols f dt v Y W =
  lag_cols (lag_delta f) (lag_prefix f) (lag_offsets f Y W) dt v.
Proof. destruct f; reflexivity. Qed.

Lemma lag_prefix_not_value (f : lag_function) (w : Z) :
  (lag_prefix f ++ str w)%string <> "value"%string.
Proof. destruct f; [apply week_lag_not_value | apply day_lag_not_value]. Qed.

(** C6 (as amended): in [same_week_day_hour_lag] and [same_day_hour_lag],
    when every candidate offset is a [timedelta] that a [Timestamp] can be
    shifted by, and the shifted timestamps are within the range of
    [Timestamp]: the rows whose shifted timestamp precedes the first
    timestamp of the series do not make the functions raise (the loop
    returns as soon as the other rows find their label). In every run
    whose loop returns, for every candidate offset [w], the cell of such a
    row in the column of [w] is missing, and the column of [w] is left out
    exactly when the last timestamp shifted by [w] precedes the first one,
    which is when no row can reach back by [w]. With a candidate offset
    out of that range the functions raise, whatever the series. *)
Theorem insufficient_history_is_missing (f : lag_function) (dt : list Z) (v : list cell)
    (Y W mn mx : Z) :
  py_min dt = Ok mn -> py_max dt = Ok mx ->
  (offsets_in_range (lag_delta f) (lag_offsets f Y W) = true ->
   shifts_in_range (lag_delta f) (lag_offsets f Y W) dt = true ->
   lookup_total (lag_delta f) (lag_offsets f Y W) dt = true ->
   List.length dt = List.length v ->
   exists st, lag_function_cols f dt v Y W = Ok st) /\
  (offsets_in_range (lag_delta f) (lag_offsets f Y W) = false ->
   exists e, lag_function_cols f dt v Y W = Raise e) /\
  (forall frame cols, lag_function_cols f dt v Y W = Ok (frame, cols) ->
   forall w, In w (lag_offsets f Y W) ->
     (has_col frame (lag_prefix f ++ str w) = false <-> mx - lag_delta f w < mn) /\
     (~ In (lag_prefix f ++ str w)%string cols <-> mx - lag_delta f w < mn) /\
     (mx - lag_delta f w < mn <-> forall t, In t dt -> t - lag_delta f w < mn) /\
     (forall col i t, get_col frame (lag_prefix f ++ str w) = Ok col ->
                      nth_error dt i = Some t -> t - lag_delta f w < mn ->
                      nth_error col i = Some None)).
Proof.
  intros Hmin Hmax. rewrite lag_function_cols_eq.
  pose proof (lag_prefix_not_value f) as Hp. split; [|split].
  - intros Hr _ Htot Hlen. rewrite (lookup_total_lags_ok _ _ _ _ _ Hmin Hmax) in Htot.
    rewrite (lag_cols_ok _ _ _ _ _ _ _ Hp Hmin Hmax Hlen Hr Htot). eauto.
  - intros Hr. unfold lag_cols. rewrite Hmin, Hmax. cbn [bind].
    destruct (new_frame dt v) as [df|e]; cbn [bind]; [|eauto].
    now apply lag_loop_out_of_range.
  - intros frame cols Hrun w Hw.
    destruct (lag_cols_inv _ _ _ _ _ _ Hp Hrun) as (mn' & mx' & Hmin' & Hmax' & Hlen & Hok & Hst).
    rewrite Hmin in Hmin'. rewrite Hmax in Hmax'. inversion Hmin'. inversion Hmax'.
    subst mn' mx'. inversion Hst; subst frame cols. clear Hst Hmin' Hmax'.
    assert (Hc : lag_created (lag_delta f) mn mx w = false <-> mx - lag_delta f w < mn).
    { unfold lag_created. rewrite Z.leb_gt. tauto. }
    split; [|split; [|split]].
    + now rewrite (has_lag_col _ _ _ _ _ _ _ _ Hp Hw).
    + rewrite <- Hc. rewrite in_map_iff. split.
      * intros Hn. destruct (lag_created (lag_delta f) mn mx w) eqn:Ec; [|reflexivity].
        exfalso. apply Hn. exists w. split; [reflexivity|]. apply filter_In. now split.
      * intros Ec (w' & En & Hw'). apply lag_name_inj in En. subst w'.
        apply filter_In in Hw'. destruct Hw' as (_ & Hw'). congruence.
    + destruct (py_max_spec dt mx Hmax) as (Hin & Hall). split.
      * intros Hlt t Ht. specialize (Hall t Ht). lia.
      * intros H. now apply H.
    + intros col i t Hg Hi Hlt.
      destruct (lag_created (lag_delta f) mn mx w) eqn:Ec.
      * pose proof (get_col_lag_frame (lag_delta f) (lag_prefix f) mn mx dt v Hlen
                      (lag_offsets f Y W) (mkDF dt [("value"%string, v)]) w
                      eq_refl Hw Ec) as Hcol.
        unfold lag_name in Hcol. rewrite Hcol in Hg.
        inversion Hg; subst col. rewrite (nth_error_lag_column _ _ _ _ _ _ Hi).
        destruct (Z.leb_spec mn (t - lag_delta f w)); [lia | reflexivity].
      * exfalso.
        pose proof (has_lag_col (lag_delta f) (lag_prefix f) (lag_offsets f Y W)
                      dt v mn mx w Hp Hw) as Hh.
        rewrite Ec in Hh.
        assert (Ht : has_col (lag_frame (lag_delta f) (lag_prefix f) mn mx v
                               (mkDF dt [("value"%string, v)]) (lag_offsets f Y W))
                             (lag_prefix f ++ str w) = true)
          by (apply has_col_get_col; eauto).
        congruence.
Qed.

(** ** Aggregation of the lag columns *)

Lemma select_cols_lag_frame (delta : Z -> Z) (prefix : string) (mn mx : Z) (dt : list Z)
    (v : list cell) (lags ws : list Z) :
  List.length dt = List.length v ->
  (forall w, In w ws -> In w lags /\ lag_created delta mn mx w = true) ->
  select_cols (lag_frame delta prefix mn mx v (mkDF dt [("value"%string, v)]) lags)
              (map (lag_name prefix) ws) =
  Ok (map (fun w => (lag_name prefix w, lag_column mn (delta w) dt v)) ws).
Proof.
  intros Hlen. induction ws as [|w ws IH]; intros H; simpl; [reflexivity|].
  destruct (H w (or_introl eq_refl)) as (Hin & Hc).
  rewrite (get_col_lag_frame delta prefix mn mx dt v Hlen lags
             (mkDF dt [("value"%string, v)]) w eq_refl Hin Hc).
  simpl. rewrite IH by (intros w' Hw'; apply H; now right). reflexivity.
Qed.

Lemma Forall2_map_seq {A B : Type} (P : A -> B -> Prop) (G : nat -> B) (l : list A) (s : nat) :
  (forall i t, nth_error l i = Some t -> P t (G (s + i)%nat)) ->
  Forall2 P l (map G (seq s (List.length l))).
Proof.
  revert s. induction l as [|a l IH]; intros s H; simpl; constructor.
  - specialize (H 0%nat a eq_refl). now rewrite Nat.add_0_r in H.
  - apply IH. intros i t Hi. specialize (H (S i) t Hi).
    now rewrite Nat.add_succ_r in H.
Qed.

Lemma row_of_lag_columns (delta : Z -> Z) (prefix : string) (mn : Z) (dt : list Z)
    (v : list cell) (ws : list Z) (i : nat) (t : Z) :
  nth_error dt i = Some t ->
  row_of (map (fun w => (lag_name prefix w, lag_column mn (delta w) dt v)) ws) i =
  map (fun w => if mn <=? t - delta w then value_at dt v (t - delta w) else None) ws.
Proof.
  intros Hi. unfold row_of. rewrite map_map. apply map_ext. intros w. simpl.
  apply nth_error_nth. now apply nth_error_lag_column.
Qed.

(** The offsets that a row can reach are among those whose column is
    created, and the cells of the other columns are missing for the row. *)
Lemma present_row_offset_values (delta : Z -> Z) (lags dt : list Z) (v : list cell)
    (mn mx t : Z) :
  t <= mx ->
  present (map (fun w => if mn <=? t - delta w then value_at dt v (t - delta w) else None)
               (filter (lag_created delta mn mx) lags)) =
  present (offset_values delta lags dt v mn t).
Proof.
  intros Ht. unfold offset_values.
  induction lags as [|w lags IH]; simpl; [reflexivity|].
  unfold lag_created at 1.
  destruct (Z.leb_spec mn (t - delta w)) as [Hv|Hv].
  - destruct (Z.leb_spec mn (mx - delta w)); [|lia]. simpl.
    destruct (Z.leb_spec mn (t - delta w)); [|lia]. now rewrite IH.
  - destruct (mn <=? mx - delta w); simpl; [|exact IH].
    destruct (Z.leb_spec mn (t - delta w)); [lia|]. simpl. exact IH.
Qed.

Lemma round_mean_spec (row vals : list cell) :
  present row = present vals -> spec_rounded_mean vals (round_cell (nanmean row)).
Proof.
  intros E. unfold spec_rounded_mean, nanmean. rewrite E.
  destruct (present vals) as [|x l]; simpl; split; congruence.
Qed.

Lemma get_col_missing (df : DataFrame) (n : string) :
  has_col df n = false -> get_col df n = Raise KeyError.
Proof.
  intros H. destruct (get_col df n) as [c|e] eqn:E.
  - assert (Ht : has_col df n = true) by (apply has_col_get_col; eauto). congruence.
  - unfold get_col in E. destruct (find _ _); [discriminate | now symmetry].
Qed.

(** The mean of the lag columns, for both functions. *)
Lemma lag_function_run_mean (f : lag_function) (dt : list Z) (v : list cell)
    (Y W mn : Z) (output_colname : string) :
  offsets_in_range (lag_delta f) (lag_offsets f Y W) = true ->
  py_min dt = Ok mn -> List.length dt = List.length v ->
  lookup_total (lag_delta f) (lag_offsets f Y W) dt = true ->
  exists out,
    lag_function_run f dt v Y W "mean" None output_colname =
    Ok (mkDF dt [(output_colname, out)]) /\
    Forall2 (fun t c =>
               spec_rounded_mean
                 (offset_values (lag_delta f) (lag_offsets f Y W) dt v mn t) c)
            dt out.
Proof.
  intros Hr Hmin Hlen Htot.
  destruct (py_min_max_nonempty dt) as (mn' & mx & Hmin' & Hmax).
  { intros ->. discriminate. }
  rewrite Hmin in Hmin'. inversion Hmin'. subst mn'. clear Hmin'.
  rewrite (lookup_total_lags_ok _ _ _ _ _ Hmin Hmax) in Htot.
  pose proof (lag_cols_ok _ _ _ _ _ _ _ (lag_prefix_not_value f) Hmin Hmax Hlen Hr Htot)
    as Hcols.
  rewrite <- lag_function_cols_eq in Hcols.
  set (ws := filter (lag_created (lag_delta f) mn mx) (lag_offsets f Y W)) in *.
  set (frame := lag_frame (lag_delta f) (lag_prefix f) mn mx v
                  (mkDF dt [("value"%string, v)]) (lag_offsets f Y W)) in *.
  assert (Hsel : select frame (map (lag_name (lag_prefix f)) ws) =
                 Ok (mkDF dt (map (fun w => (lag_name (lag_prefix f) w,
                                             lag_column mn (lag_delta f w) dt v)) ws))).
  { unfold select, frame. rewrite select_cols_lag_frame; [|exact Hlen|].
    - simpl. now rewrite index_lag_frame.
    - intros w Hw. apply filter_In in Hw. exact Hw. }
  eexists. split.
  - assert (Hrun : lag_function_run f dt v Y W "mean" None output_colname =
                   (st <- lag_function_cols f dt v Y W ;;
                    let '(df, lag_cols) := st in
                    df <- (sel <- select df lag_cols ;;
                           col <- round_mean sel ;; Ok (set_col df output_colname col)) ;;
                    select df [output_colname])) by (destruct f; reflexivity).
    rewrite Hrun, Hcols. cbn [bind]. rewrite Hsel. cbn [bind round_mean].
    unfold select. cbn [select_cols]. rewrite get_col_set_col_same. cbn [bind].
    unfold frame. cbn [set_col index]. rewrite index_lag_frame. reflexivity.
  - unfold rows_of. cbn [index columns]. rewrite map_map.
    apply Forall2_map_seq. intros i t Hi. cbn [Nat.add].
    rewrite (row_of_lag_columns _ _ _ _ _ _ _ _ Hi).
    apply round_mean_spec. apply present_row_offset_values.
    apply (py_max_spec dt mx Hmax). eapply nth_error_In. exact Hi.
Qed.

Lemma lag_cols_in_range (delta : Z -> Z) (prefix : string) (lags dt : list Z)
    (v : list cell) (st : DataFrame * list string) :
  lag_cols delta prefix lags dt v = Ok st -> offsets_in_range delta lags = true.
Proof.
  unfold lag_cols. intros Hrun.
  destruct (py_min dt) as [mn|]; cbn [bind] in Hrun; [|discriminate].
  destruct (py_max dt) as [mx|]; cbn [bind] in Hrun; [|discriminate].
  destruct (new_frame dt v) as [df|]; cbn [bind] in Hrun; [|discriminate].
  exact (lag_loop_in_range delta prefix mn mx lags _ _ Hrun).
Qed.

(** X26: on two columns of one length, [same_week_day_hour_lag] and
    [same_day_hour_lag] return only when the series is not empty, every
    candidate offset is a [timedelta] that a [Timestamp] can be shifted
    by, and every timestamp reached by an offset labels one row. *)
Lemma lag_function_run_returns (f : lag_function) (dt : list Z) (v : list cell)
    (Y W : Z) (agg_func : string) (q : option Q) (output_colname : string)
    (df : DataFrame) :
  List.length dt = List.length v ->
  lag_function_run f dt v Y W agg_func q output_colname = Ok df ->
  (exists mn, py_min dt = Ok mn) /\
  offsets_in_range (lag_delta f) (lag_offsets f Y W) = true /\
  lookup_total (lag_delta f) (lag_offsets f Y W) dt = true.
Proof.
  intros _ Hrun.
  assert (Hcols : exists st, lag_function_cols f dt v Y W = Ok st).
  { destruct f; simpl in *; unfold same_week_day_hour_lag, same_day_hour_lag in Hrun;
      match type of Hrun with bind ?r _ = _ => destruct r as [st|e] end;
      try discriminate; eauto. }
  destruct Hcols as (st & Hcols). rewrite lag_function_cols_eq in Hcols.
  destruct (lag_cols_inv _ _ _ _ _ _ (lag_prefix_not_value f) Hcols)
    as (mn & mx & Hmin & Hmax & Hlen & Hok & _).
  split; [eauto|]. split; [exact (lag_cols_in_range _ _ _ _ _ _ Hcols)|].
  now rewrite (lookup_total_lags_ok _ _ _ _ _ Hmin Hmax).
Qed.


(** ** Lookups in an hourly series *)


Lemma NoDup_range (a b : Z) : NoDup (range a b).
Proof.
  unfold range. apply Injective_map_NoDup; [|apply seq_NoDup].
  intros x y. lia.
Qed.











(** ** Aggregations that the functions do not know *)

Lemma supported_false (agg_func : string) (q : option Q) :
  supported agg_func q = false ->
  String.eqb agg_func "mean" && is_None q = false /\
  String.eqb agg_func "quantile" && is_Some q = false /\
  String.eqb agg_func "std" && is_None q = false.
Proof.
  unfold supported. intros H.
  apply orb_false_iff in H. destruct H as (H & H3).
  apply orb_false_iff in H. destruct H as (H1 & H2). auto.
Qed.

(** With an aggregation they do not know, the lag functions leave the
    frame of the loop as it is and select [output_colname] from it. *)
Lemma lag_function_run_unsupported (f : lag_function) (dt : list Z) (v : list cell)
    (Y W : Z) (agg_func : string) (q : option Q) (output_colname : string) :
  supported agg_func q = false ->
  lag_function_run f dt v Y W agg_func q output_colname =
  (st <- lag_function_cols f dt v Y W ;; select (fst st) [output_colname]).
Proof.
  intros H. destruct (supported_false _ _ H) as (H1 & H2 & H3).
  destruct f; simpl; unfold same_week_day_hour_lag, same_day_hour_lag;
    rewrite H1, H2, H3;
    match goal with |- bind ?r _ = _ => destruct r as [[df cols]|e] end; reflexivity.
Qed.

Lemma lag_function_raises_key_error (f : lag_function) (dt : list Z) (v : list cell)
    (Y W : Z) (agg_func : string) (q : option Q) (output_colname : string)
    (st : DataFrame * list string) :
  supported agg_func q = false ->
  output_colname <> "value"%string ->
  (forall w, output_colname <> (lag_prefix f ++ str w)%string) ->
  lag_function_cols f dt v Y W = Ok st ->
  lag_function_run f dt v Y W agg_func q output_colname = Raise KeyError.
Proof.
  intros Hs Hv Hw Hcols. rewrite (lag_function_run_unsupported _ _ _ _ _ _ _ _ Hs), Hcols.
  cbn [bind]. rewrite lag_function_cols_eq in Hcols.
  destruct (lag_cols_inv _ _ _ _ _ _ (lag_prefix_not_value f) Hcols)
    as (mn & mx & _ & _ & _ & _ & ->).
  cbn [fst]. unfold select. cbn [select_cols].
  rewrite get_col_missing; [reflexivity|].
  rewrite has_col_lag_frame.
  apply orb_false_iff. split.
  - unfold has_col. cbn [columns existsb fst]. rewrite orb_false_r.
    apply String.eqb_neq. congruence.
  - destruct (existsb _ _) eqn:Ex; [|reflexivity].
    apply existsb_exists in Ex. destruct Ex as (w & _ & Hx).
    apply andb_true_iff in Hx. destruct Hx as (_ & Hx).
    apply String.eqb_eq in Hx. exfalso. apply (Hw w). now symmetry.
Qed.

(** ** The hourly frame of the moving aggregates *)

Lemma is_monotonic_map_seq (g : nat -> Z) (s m : nat) :
  (forall i, g i <= g (S i)) -> is_monotonic (map g (seq s m)) = true.
Proof.
  intros Hg. revert s. induction m as [|m IH]; intros s; [reflexivity|].
  destruct m as [|m]; [reflexivity|].
  specialize (IH (S s)). simpl in *. rewrite IH, andb_true_r.
  apply Z.leb_le, Hg.
Qed.

Lemma is_monotonic_date_range_H (a b : Z) : is_monotonic (date_range_H a b) = true.
Proof.
  unfold date_range_H, range. rewrite map_map.
  apply is_monotonic_map_seq. intros i. lia.
Qed.

Lemma date_range_H_nonempty (a b : Z) : a <= b -> date_range_H a b <> [].
Proof.
  intros H. unfold date_range_H, range.
  assert (Hq : 0 <= (b - a) / 3600) by (apply Z.div_pos; lia).
  destruct (Z.to_nat ((b - a) / 3600 + 1 - 0)) as [|m] eqn:E; [lia|].
  simpl. discriminate.
Qed.

Lemma py_min_le_max (dt : list Z) (mn mx : Z) :
  py_min dt = Ok mn -> py_max dt = Ok mx -> mn <= mx.
Proof.
  intros Hmin Hmax. destruct (py_min_spec dt mn Hmin) as (Hin & _).
  destruct (py_max_spec dt mx Hmax) as (_ & Hall). now apply Hall.
Qed.

Lemma set_col_fct_diff (g : list Z) (c c' : list cell) :
  set_col (mkDF g [("value"%string, c)]) "fct_diff" c' =
  mkDF g [("value"%string, c); ("fct_diff"%string, c')].
Proof. reflexivity. Qed.

Lemma moving_frame_ok (dt : list Z) (v : list cell) (fct mn mx : Z) :
  py_min dt = Ok mn -> py_max dt = Ok mx ->
  has_duplicates dt = false -> List.length dt = List.length v ->
  exists max_diff,
    moving_frame dt v fct = Ok (hourly_frame dt v fct mn mx, max_diff) /\
    py_maxQ (map (fun t => timedelta_hours (t - fct)) (date_range_H mn mx)) = Ok max_diff.
Proof.
  intros Hmin Hmax Hdup Hlen.
  pose proof (date_range_H_nonempty mn mx (py_min_le_max dt mn mx Hmin Hmax)) as Hne.
  unfold moving_frame, new_frame. rewrite Hlen, Nat.eqb_refl. cbn [bind].
  unfold asfreq_H. cbn [index columns]. rewrite Hdup.
  destruct dt as [|t dt']; [discriminate|].
  simpl in Hmin, Hmax. inversion Hmin. inversion Hmax. subst mn mx. clear Hmin Hmax.
  cbn [bind index map fst snd]. rewrite is_monotonic_date_range_H. cbn [negb].
  rewrite set_col_fct_diff. unfold hourly_frame. cbn [index].
  destruct (map (fun t0 => timedelta_hours (t0 - fct))
                (date_range_H (fold_left Z.min dt' t) (fold_left Z.max dt' t)))
    as [|x l] eqn:E.
  - apply map_eq_nil in E. contradiction.
  - exists (Qmax_list x l). split; reflexivity.
Qed.

(** ** Names of columns *)

Lemma str_head (z : Z) :
  exists c s, str z = String c s /\
              In c ["0"; "1"; "2"; "3"; "4"; "5"; "6"; "7"; "8"; "9"; "-"]%char.
Proof.
  unfold str. destruct z as [|p|p]; simpl.
  - exists "0"%char, ""%string. split; [reflexivity | simpl; tauto].
  - pose proof (Unsigned.to_uint_nonnil p) as Hn.
    destruct (Pos.to_uint p) as [|d|d|d|d|d|d|d|d|d|d]; [congruence|..];
      simpl; eexists; eexists; (split; [reflexivity | simpl; tauto]).
  - eexists; eexists. split; [reflexivity | simpl; tauto].
Qed.

Lemma append_occurs (prefix : string) (c : ascii) (s target : string) :
  (prefix ++ String c s)%string = target -> In c (list_ascii_of_string target).
Proof.
  revert target. induction prefix as [|a prefix IH]; intros target E; subst target; simpl.
  - now left.
  - right. now apply IH.
Qed.

(** A name that ends with [str z] is neither [value] nor [fct_diff]. *)
Lemma append_str_not_value (prefix : string) (z : Z) :
  (prefix ++ str z)%string <> "value"%string.
Proof.
  destruct (str_head z) as (c & s & -> & Hc). intros E.
  apply append_occurs in E. simpl in E, Hc.
  repeat (destruct E as [E | E]; [subst c; intuition discriminate|]). exact E.
Qed.

Lemma append_str_not_fct_diff (prefix : string) (z : Z) :
  (prefix ++ str z)%string <> "fct_diff"%string.
Proof.
  destruct (str_head z) as (c & s & -> & Hc). intros E.
  apply append_occurs in E. simpl in E, Hc.
  repeat (destruct E as [E | E]; [subst c; intuition discriminate|]). exact E.
Qed.

Lemma tmp_name_not_value (h : Z) : tmp_name h <> "value"%string.
Proof. apply append_str_not_value. Qed.

Lemma tmp_name_inj (a b : Z) : tmp_name a = tmp_name b -> a = b.
Proof. apply lag_name_inj. Qed.

(** ** The frame of the lags of one feature *)

Lemma get_col_fold_stable (name : Z -> string) (content : Z -> list cell) (ks : list Z)
    (df : DataFrame) (n : string) (c : list cell) :
  get_col df n = Ok c ->
  (forall h, In h ks -> name h = n -> content h = c) ->
  get_col (fold_left (fun t h => set_col t (name h) (content h)) ks df) n = Ok c.
Proof.
  revert df. induction ks as [|h ks IH]; intros df Hg Hsame; simpl; [exact Hg|].
  apply IH.
  - destruct (String.eqb_spec (name h) n) as [E|E].
    + rewrite E, get_col_set_col_same. f_equal. apply Hsame; [now left | exact E].
    + now rewrite get_col_set_col_other.
  - intros h' Hh'. apply Hsame. now right.
Qed.

Lemma get_col_fold_set_col (name : Z -> string) (content : Z -> list cell) (ks : list Z)
    (df : DataFrame) (k : Z) :
  (forall a b, name a = name b -> a = b) -> In k ks ->
  get_col (fold_left (fun t h => set_col t (name h) (content h)) ks df) (name k) =
  Ok (content k).
Proof.
  intros Hinj. revert df. induction ks as [|h ks IH]; intros df Hin; [destruct Hin|].
  simpl. destruct (in_dec Z.eq_dec k ks) as [Hl|Hl]; [now apply IH|].
  destruct Hin as [-> | Hin]; [|contradiction].
  apply get_col_fold_stable.
  - apply get_col_set_col_same.
  - intros h _ E. apply Hinj in E. now subst.
Qed.

Lemma index_fold_set_col (name : Z -> string) (content : Z -> list cell) (ks : list Z)
    (df : DataFrame) :
  index (fold_left (fun t h => set_col t (name h) (content h)) ks df) = index df.
Proof. revert df. induction ks as [|h ks IH]; intros df; simpl; [reflexivity | now rewrite IH]. Qed.

Lemma build_tmp_fold (c : list cell) (lags : list Z) (t : DataFrame) (cols : list string) :
  get_col t "value" = Ok c ->
  fold_left
    (fun acc h =>
       st <- acc ;;
       let '(tmp_df, tmp_col_all) := st in
       let tmp_col := ("tmp_lag_" ++ str h)%string in
       value <- get_col tmp_df "value" ;;
       Ok (set_col tmp_df tmp_col (shift h value), tmp_col_all ++ [tmp_col]))
    lags (Ok (t, cols)) =
  Ok (fold_left (fun t h => set_col t (tmp_name h) (shift h c)) lags t,
      cols ++ map tmp_name lags).
Proof.
  revert t cols. induction lags as [|h lags IH]; intros t cols Hg; cbn [fold_left map].
  - now rewrite app_nil_r.
  - cbn [bind]. rewrite Hg. cbn [bind]. fold (tmp_name h).
    rewrite IH.
    + now rewrite <- app_assoc.
    + rewrite get_col_set_col_other; [exact Hg | apply tmp_name_not_value].
Qed.

Lemma build_tmp_spec (df : DataFrame) (lags : list Z) (c : list cell) :
  get_col df "value" = Ok c ->
  build_tmp df lags = Ok (tmp_frame (index df) c lags, map tmp_name lags).
Proof.
  intros Hg. unfold build_tmp, select. cbn [select_cols]. rewrite Hg. cbn [bind].
  now rewrite (build_tmp_fold c).
Qed.

(** [tmp_df[tmp_col_all]]: the shifted columns, lag by lag. *)
Lemma select_tmp_frame (idx : list Z) (c : list cell) (lags : list Z) :
  select (tmp_frame idx c lags) (map tmp_name lags) =
  Ok (mkDF idx (map (fun h => (tmp_name h, shift h c)) lags)).
Proof.
  unfold select.
  assert (H : forall hs, (forall h, In h hs -> In h lags) ->
              select_cols (tmp_frame idx c lags) (map tmp_name hs) =
              Ok (map (fun h => (tmp_name h, shift h c)) hs)).
  { induction hs as [|h hs IH]; intros Hin; cbn [map select_cols]; [reflexivity|].
    unfold tmp_frame at 1.
    rewrite (get_col_fold_set_col tmp_name (fun h => shift h c));
      [|apply tmp_name_inj | apply Hin; now left].
    cbn [bind]. rewrite IH by (intros h' Hh'; apply Hin; now right). reflexivity. }
  rewrite H by auto. cbn [bind]. unfold tmp_frame. now rewrite index_fold_set_col.
Qed.

(** ** [same_day_hour_moving_agg] with an aggregation it does not know *)

Lemma moving_agg_unsupported_loop (agg_func : string) (q : option Q) (prefix : string)
    (start_week window_size : Z) (max_diff : Q) (df : DataFrame) (c : list cell)
    (l : list Z) (tmp : tmp_locals) :
  supported agg_func q = false -> get_col df "value" = Ok c ->
  exists tmp',
    for_range (moving_agg_body agg_func q prefix start_week window_size max_diff)
              (df, tmp) l = Ok (df, tmp').
Proof.
  intros Hs Hg. destruct (supported_false _ _ Hs) as (H1 & H2 & H3).
  revert tmp. induction l as [|i l IH]; intros tmp; cbn [for_range].
  - eauto.
  - unfold moving_agg_body at 1. rewrite H1, H2, H3.
    destruct (0 <? List.length (hour_lags (start_week + i) window_size max_diff))%nat.
    + rewrite (build_tmp_spec df _ c Hg). cbn [bind]. apply IH.
    + cbn [bind]. apply IH.
Qed.

Lemma drop_hourly_frame (dt : list Z) (v : list cell) (fct mn mx : Z) :
  drop (hourly_frame dt v fct mn mx) ["fct_diff"; "value"]%string =
  Ok (mkDF (date_range_H mn mx) []).
Proof. reflexivity. Qed.

(** C2 (as amended): with a pair [(agg_func, q)] that the functions do not
    know, [same_day_hour_moving_agg] raises no error and returns a frame
    with no column at all; [same_week_day_hour_lag] and [same_day_hour_lag]
    compute no output column either, but then select it from the frame, and
    that raises a [KeyError] (unless [output_colname] is the name of a
    column that the frame has already: [value] or a lag column). *)
Theorem unsupported_aggregation (f : lag_function) (dt : list Z) (v : list cell)
    (agg_func : string) (q : option Q) :
  supported agg_func q = false ->
  (forall Y W output_colname,
     output_colname <> "value"%string ->
     (forall w, output_colname <> (lag_prefix f ++ str w)%string) ->
     exists e, lag_function_run f dt v Y W agg_func q output_colname = Raise e /\
               (forall st, lag_function_cols f dt v Y W = Ok st -> e = KeyError)) /\
  (forall window_size start_week count forecast_creation_time output_col_prefix mn mx,
     py_min dt = Ok mn -> py_max dt = Ok mx ->
     has_duplicates dt = false -> List.length dt = List.length v ->
     same_day_hour_moving_agg dt v window_size start_week count forecast_creation_time
                              agg_func q output_col_prefix =
     Ok (mkDF (date_range_H mn mx) [])).
Proof.
  intros Hs. split.
  - intros Y W name Hv Hw.
    destruct (lag_function_cols f dt v Y W) as [st|e] eqn:Hcols.
    + exists KeyError. split; [|reflexivity].
      now apply (lag_function_raises_key_error f dt v Y W agg_func q name st).
    + exists e. split; [|discriminate].
      rewrite (lag_function_run_unsupported _ _ _ _ _ _ _ _ Hs), Hcols. reflexivity.
  - intros ws sw count fct prefix mn mx Hmin Hmax Hdup Hlen.
    destruct (moving_frame_ok dt v fct mn mx Hmin Hmax Hdup Hlen) as (md & Hfm & _).
    unfold same_day_hour_moving_agg. rewrite Hfm. cbn [bind fst snd].
    destruct (moving_agg_unsupported_loop agg_func q prefix sw ws md
                (hourly_frame dt v fct mn mx) (map (value_at dt v) (date_range_H mn mx))
                (range 0 count) None Hs eq_refl) as (tmp' & Hloop).
    unfold tmp_locals in *. rewrite Hloop.
    cbn [bind fst]. apply drop_hourly_frame.
Qed.

(** ** The claims on concrete inputs *)


Lemma insufficient_history_is_missing_witness :
  (offsets_in_range (lag_delta SameDayHour) (lag_offsets SameDayHour 3 1) = true ->
   shifts_in_range (lag_delta SameDayHour) (lag_offsets SameDayHour 3 1) three_days = true ->
   lookup_total (lag_delta SameDayHour) (lag_offsets SameDayHour 3 1) three_days = true ->
   List.length three_days = List.length three_values ->
   exists st, lag_function_cols SameDayHour three_days three_values 3 1 = Ok st) /\
  (offsets_in_range (lag_delta SameDayHour) (lag_offsets SameDayHour 3 1) = false ->
   exists e, lag_function_cols SameDayHour three_days three_values 3 1 = Raise e) /\
  (forall frame cols,
     lag_function_cols SameDayHour three_days three_values 3 1 = Ok (frame, cols) ->
     forall w, In w (lag_offsets SameDayHour 3 1) ->
       (has_col frame (lag_prefix SameDayHour ++ str w) = false <->
        days 365 - lag_delta SameDayHour w < 0) /\
       (~ In (lag_prefix SameDayHour ++ str w)%string cols <->
        days 365 - lag_delta SameDayHour w < 0) /\
       (days 365 - lag_delta SameDayHour w < 0 <->
        forall t, In t three_days -> t - lag_delta SameDayHour w < 0) /\
       (forall col i t, get_col frame (lag_prefix SameDayHour ++ str w) = Ok col ->
                        nth_error three_days i = Some t ->
                        t - lag_delta SameDayHour w < 0 ->
                        nth_error col i = Some None)).
Proof.
  apply (insufficient_history_is_missing SameDayHour three_days three_values 3 1 0 (days 365));
    reflexivity.
Defined.


(** C6 (as stated) fails: with [n_years = 300] the offset of 15287 weeks is
    a candidate; the last timestamp of a series of two hourly rows shifted
    by it precedes the first one, as does every other timestamp, so the
    column of that offset would be omitted; but the offset is more than a
    pandas [Timedelta] holds, and the subtraction that decides whether the
    column is omitted raises. The same holds for [same_day_hour_lag]. *)
Lemma insufficient_history_out_of_range :
  In 15287 (week_lag_all 300 1) /\
  py_min two_hours = Ok 0 /\ py_max two_hours = Ok 3600 /\
  3600 - weeks 15287 < 0 /\
  (forall t, In t two_hours -> t - weeks 15287 < 0) /\
  same_week_day_hour_lag two_hours two_values 300 1 "mean" None "SameWeekHourLag" =
  Raise OutOfBoundsTimedelta /\
  same_day_hour_lag two_hours two_values 300 1 "mean" None "SameDayHourLag" =
  Raise OutOfBoundsTimedelta.
Proof.
  split; [|split; [|split; [|split; [|split; [|split]]]]].
  - apply In_week_lag_all. exists 293, (-1). lia.
  - reflexivity.
  - reflexivity.
  - reflexivity.
  - intros t [<-|[<-|[]]]; reflexivity.
  - vm_compute. reflexivity.
  - vm_compute. reflexivity.
Qed.

(** The largest [n_years] whose offsets are all in range, with a window
    of one week or one day. *)
Example offsets_in_range_n_years :
  offsets_in_range weeks (week_lag_all 293 1) = true /\
  offsets_in_range weeks (week_lag_all 294 1) = false /\
  offsets_in_range days (day_lag_all 292 1) = true /\
  offsets_in_range days (day_lag_all 293 1) = false.
Proof. repeat split; vm_compute; reflexivity. Qed.


Lemma unsupported_aggregation_witness :
  (forall Y W output_colname,
     output_colname <> "value"%string ->
     (forall w, output_colname <> (lag_prefix SameWeekDayHour ++ str w)%string) ->
     exists e,
       lag_function_run SameWeekDayHour two_hours two_values Y W "quantile" None
                        output_colname = Raise e /\
       (forall st, lag_function_cols SameWeekDayHour two_hours two_values Y W = Ok st ->
                   e = KeyError)) /\
  (forall window_size start_week count forecast_creation_time output_col_prefix mn mx,
     py_min two_hours = Ok mn -> py_max two_hours = Ok mx ->
     has_duplicates two_hours = false -> List.length two_hours = List.length two_values ->
     same_day_hour_moving_agg two_hours two_values window_size start_week count
                              forecast_creation_time "quantile" None output_col_prefix =
     Ok (mkDF (date_range_H mn mx) [])).
Proof.
  apply (unsupported_aggregation SameWeekDayHour two_hours two_values "quantile" None).
  reflexivity.
Defined.

(** C2 (as stated) fails: the two lag functions raise a [KeyError] when
    the pair [(agg_func, q)] is not one they know. *)
Lemma lag_unsupported_raises :
  same_week_day_hour_lag two_hours two_values 3 1 "quantile" None "SameWeekHourLag" =
  Raise KeyError /\
  same_day_hour_lag two_hours two_values 3 1 "mean" (Some (1 # 2)%Q) "SameDayHourLag" =
  Raise KeyError.
Proof. split; vm_compute; reflexivity. Qed.

Lemma entity_order_aligned_witness :
  sequence_entities four_entities =
    list_prod (sorted_unique (map grain1 four_entities))
              (sorted_unique (map grain2 four_entities)) /\
  (all_combinations four_entities = true ->
   group_keys four_entities = sequence_entities four_entities) /\
  (forall seq_len seq_cols start_timestep end_timestep ws,
     gen_sequence_array four_entities seq_len seq_cols start_timestep end_timestep = Ok ws ->
     exists blocks,
       Forall2 (fun g b => gen_sequence (entity four_entities g) seq_len seq_cols
                                        start_timestep end_timestep = Ok b)
               (sequence_entities four_entities) blocks /\
       ws = concat blocks) /\
  (forall seq_cols,
     static_feature_array four_entities 4 seq_cols =
     (rows <- mapM (fun g => values (slice 0 4 (entity four_entities g)) seq_cols)
                   (sequence_entities four_entities) ;;
      Ok (concat rows))).
Proof.
  apply (entity_order_aligned four_entities 4).
  - reflexivity.
  - reflexivity.
  - left. reflexivity.
Defined.

(** Both arrays of the four entities: two windows of nine rows for each
    entity, and the first row of each entity. *)
Example entity_arrays_four_entities :
  option_map (map (@hd (list Q) []))
    (match gen_sequence_array four_entities 9 ["x"%string] 0 (Some 9) with
     | Ok ws => Some ws | Raise _ => None end) =
  Some [[110%Q]; [111%Q]; [120%Q]; [121%Q]; [210%Q]; [211%Q]; [220%Q]; [221%Q]] /\
  static_feature_array four_entities 1 ["x"%string] =
  Ok [[110%Q]; [120%Q]; [210%Q]; [220%Q]].
Proof. split; vm_compute; reflexivity. Qed.

(** A frame that is not ordered by its keys and whose arrays follow the
    same order of the entities. *)
Example entity_arrays_interleaved :
  ordered_by_key interleaved_entities = false /\
  unique (map grain1 interleaved_entities) = sorted_unique (map grain1 interleaved_entities) /\
  unique (map grain2 interleaved_entities) = sorted_unique (map grain2 interleaved_entities) /\
  cuts_a_group interleaved_entities 1 = true /\
  gen_sequence_array interleaved_entities 1 ["x"%string] 0 (Some 1) =
  Ok [[[110%Q]]; [[111%Q]]; [[120%Q]]; [[121%Q]]] /\
  static_feature_array interleaved_entities 1 ["x"%string] = Ok [[110%Q]; [120%Q]].
Proof. repeat split. Qed.

(** On the same frame, a [total_timesteps] that cuts no group leaves the
    rows in the order of the frame, which is not grouped by entity: the
    rows of the static-feature array alternate between the entities. *)
Example entity_arrays_interleaved_uncut :
  cuts_a_group interleaved_entities 2 = false /\
  concat (map (entity interleaved_entities) (sequence_entities interleaved_entities)) <>
  interleaved_entities /\
  static_feature_array interleaved_entities 2 ["x"%string] =
  Ok [[110%Q]; [120%Q]; [111%Q]; [121%Q]] /\
  (rows <- mapM (fun g => values (slice 0 2 (entity interleaved_entities g)) ["x"%string])
                (sequence_entities interleaved_entities) ;;
   Ok (concat rows)) =
  Ok [[110%Q]; [111%Q]; [120%Q]; [121%Q]].
Proof. repeat split; discriminate. Qed.

(** C7 (as stated) fails: on a frame whose second entity has the smaller
    key, [gen_sequence_array] starts with the entity that appears first,
    the static-feature array with the entity of the least key. *)
Lemma entity_order_not_aligned :
  sequence_entities two_entities_reversed = [(2, 1); (1, 1)] /\
  group_keys two_entities_reversed = [(1, 1); (2, 1)] /\
  list_prod (sorted_unique (map grain1 two_entities_reversed))
            (sorted_unique (map grain2 two_entities_reversed)) = [(1, 1); (2, 1)] /\
  option_map (@hd (list (list Q)) [])
    (match gen_sequence_array two_entities_reversed 3 ["x"%string] 0 (Some 9) with
     | Ok ws => Some ws | Raise _ => None end) =
  Some [[inject_Z 210]; [inject_Z 211]; [inject_Z 212]] /\
  static_feature_array two_entities_reversed 1 ["x"%string] =
  Ok [[inject_Z 110]; [inject_Z 210]].
Proof. repeat split; vm_compute; reflexivity. Qed.

(** ** The assignment outside the [if] *)

(** X4: when the first feature has no lag left, [same_day_hour_moving_quantile]
    reads [tmp_df] before any turn of the loop has assigned it. *)
Lemma moving_quantile_raises (dt : list Z) (v : list cell)
    (window_size start_week quantile_count : Z) (q : Q) (fct : Z) (prefix : string)
    (df : DataFrame) (max_diff : Q) :
  moving_frame dt v fct = Ok (df, max_diff) -> 0 < quantile_count ->
  hour_lags start_week window_size max_diff = [] ->
  same_day_hour_moving_quantile dt v window_size start_week quantile_count q fct prefix =
  Raise UnboundLocalError.
Proof.
  intros Hfm Hc Hl. unfold same_day_hour_moving_quantile. rewrite Hfm. cbn [bind fst snd].
  rewrite (range_cons 0 quantile_count Hc). cbn [for_range]. unfold moving_quantile_body at 1.
  rewrite Z.add_0_r, Hl. reflexivity.
Qed.

(** C1: on 170 hourly rows from the forecast creation time on, the only
    candidate lag of the feature of week 1, 168 hours, does not exceed the
    169 hours from the forecast creation time to the last row and is
    excluded. [same_day_hour_moving_average] and [same_day_hour_moving_std]
    leave the column out; [same_day_hour_moving_quantile] and
    [same_day_hour_moving_agg] raise an [UnboundLocalError] instead. *)
Theorem moving_quantile_unbound_local :
  hour_lags 1 1 (inject_Z 169) = [] /\
  same_day_hour_moving_average week_and_two_hours week_values 1 1 1 0 "moving_average_lag_" =
  Ok (mkDF week_and_two_hours []) /\
  same_day_hour_moving_std week_and_two_hours week_values 1 1 1 0 "moving_std_lag_" =
  Ok (mkDF week_and_two_hours []) /\
  same_day_hour_moving_quantile week_and_two_hours week_values 1 1 1 (1 # 2) 0
                                "moving_quatile_lag_" =
  Raise UnboundLocalError /\
  same_day_hour_moving_agg week_and_two_hours week_values 1 1 1 0 "mean" None
                           "moving_agg_lag_" =
  Raise UnboundLocalError.
Proof. repeat split; vm_compute; reflexivity. Qed.

(** ** The forecast creation time *)

Lemma timedelta_hours_eq (x : Z) : (timedelta_hours x * 3600 == inject_Z x)%Q.
Proof.
  unfold timedelta_hours.
  rewrite (Z.div_mod x 86400) at 3 by lia.
  rewrite inject_Z_plus, !inject_Z_mult. field.
Qed.

Lemma timedelta_hours_lt (x h : Z) :
  (timedelta_hours x < inject_Z h)%Q -> x < h * 3600.
Proof.
  intros H. rewrite Zlt_Qlt, inject_Z_mult, <- timedelta_hours_eq.
  apply Qmult_lt_compat_r; [reflexivity | exact H].
Qed.

Lemma Qmax_list_ge (l : list Q) (x : Q) :
  (x <= Qmax_list x l)%Q /\ forall y, In y l -> (y <= Qmax_list x l)%Q.
Proof.
  revert x. induction l as [|a l IH]; intros x; simpl.
  - split; [apply Qle_refl | tauto].
  - destruct (Qle_bool x a) eqn:E.
    + apply Qle_bool_iff in E. destruct (IH a) as (Ha & Hl). split.
      * eapply Qle_trans; eauto.
      * intros y [<- | Hy]; auto.
    + assert (Hax : (a <= x)%Q).
      { apply Qnot_lt_le. intros Hlt. apply Qlt_le_weak in Hlt.
        apply Qle_bool_iff in Hlt. congruence. }
      destruct (IH x) as (Hx & Hl). split; [exact Hx|].
      intros y [<- | Hy]; [eapply Qle_trans; eauto | auto].
Qed.

Lemma py_maxQ_ge (l : list Q) (m y : Q) : py_maxQ l = Ok m -> In y l -> (y <= m)%Q.
Proof.
  destruct l as [|x l]; simpl; [discriminate|]. intros E. inversion E; subst m.
  destruct (Qmax_list_ge l x) as (Hx & Hl). intros [<- | Hy]; auto.
Qed.

(** The leakage guard: a lag that passes the filter [h > max_diff] reaches
    before the forecast creation time from every row. *)
Lemma hour_lags_before (fct : Z) (grid : list Z) (max_diff : Q)
    (week_lag_start window_size : Z) :
  py_maxQ (map (fun t => timedelta_hours (t - fct)) grid) = Ok max_diff ->
  Forall (lag_before fct grid) (hour_lags week_lag_start window_size max_diff).
Proof.
  intros Hmax. apply Forall_forall. intros h Hh. unfold hour_lags in Hh.
  apply filter_In in Hh. destruct Hh as (_ & Hgt). apply negb_true_iff in Hgt.
  intros t Ht.
  assert (Hle : (timedelta_hours (t - fct) <= max_diff)%Q).
  { apply (py_maxQ_ge _ _ _ Hmax).
    apply (in_map (fun t => timedelta_hours (t - fct))). exact Ht. }
  assert (Hlt : (max_diff < inject_Z h)%Q).
  { apply Qnot_le_lt. intros Hc. apply Qle_bool_iff in Hc. congruence. }
  pose proof (timedelta_hours_lt (t - fct) h (Qle_lt_trans _ _ _ Hle Hlt)). lia.
Qed.

Lemma rows_at_agree (dt : list Z) (v1 v2 : list cell) (t : Z) :
  List.length v1 = List.length v2 ->
  (forall i, nth_error dt i = Some t -> nth_error v1 i = nth_error v2 i) ->
  rows_at dt v1 t = rows_at dt v2 t.
Proof.
  unfold rows_at. revert v1 v2.
  induction dt as [|x dt IH]; intros [|a1 v1] [|a2 v2] Hlen H; simpl in *;
    try reflexivity; try discriminate.
  assert (Htl : map snd (filter (fun p => fst p =? t) (combine dt v1)) =
                map snd (filter (fun p => fst p =? t) (combine dt v2))).
  { apply IH; [lia|]. intros i Hi. apply (H (S i) Hi). }
  destruct (Z.eqb_spec x t) as [E|E]; [|exact Htl].
  simpl. rewrite Htl. f_equal.
  specialize (H 0%nat). simpl in H. rewrite E in H. specialize (H eq_refl).
  now inversion H.
Qed.

Lemma value_at_agree (fct : Z) (dt : list Z) (v1 v2 : list cell) (t : Z) :
  agree_before fct dt v1 v2 -> t < fct -> value_at dt v1 t = value_at dt v2 t.
Proof.
  intros (Hlen & H) Ht. unfold value_at.
  rewrite (rows_at_agree dt v1 v2 t Hlen); [reflexivity|].
  intros i Hi. now apply (H i t).
Qed.

Lemma nth_date_range_H (a b : Z) (j : nat) :
  (j < List.length (date_range_H a b))%nat ->
  nth j (date_range_H a b) 0 = a + Z.of_nat j * 3600.
Proof.
  unfold date_range_H, range. rewrite !length_map, length_seq. intros Hj.
  rewrite map_map.
  rewrite (nth_indep _ 0 ((fun k => a + (0 + Z.of_nat k) * 3600) 0%nat))
    by (now rewrite length_map, length_seq).
  rewrite (map_nth (fun k => a + (0 + Z.of_nat k) * 3600)).
  rewrite seq_nth by exact Hj. simpl. lia.
Qed.

(** A column shifted by a lag that reaches before the forecast creation
    time holds values of before that time only. *)
Lemma shift_agree (fct : Z) (dt : list Z) (v1 v2 : list cell) (mn mx h : Z) :
  agree_before fct dt v1 v2 ->
  lag_before fct (date_range_H mn mx) h ->
  shift h (map (value_at dt v1) (date_range_H mn mx)) =
  shift h (map (value_at dt v2) (date_range_H mn mx)).
Proof.
  intros Hag Hlag. unfold shift. rewrite !length_map.
  set (grid := date_range_H mn mx) in *.
  apply map_ext_in. intros k Hk. apply In_range in Hk.
  destruct ((0 <=? k - h) && (k - h <? Z.of_nat (List.length grid))) eqn:E;
    [|reflexivity].
  apply andb_true_iff in E. destruct E as (E1 & E2).
  apply Z.leb_le in E1. apply Z.ltb_lt in E2.
  assert (Hj : (Z.to_nat (k - h) < List.length grid)%nat) by lia.
  assert (Hk' : (Z.to_nat k < List.length grid)%nat) by lia.
  rewrite (nth_indep _ None (value_at dt v1 0)) by (now rewrite length_map).
  rewrite (nth_indep (map (value_at dt v2) grid) None (value_at dt v2 0))
    by (now rewrite length_map).
  rewrite !map_nth. apply (value_at_agree fct); [exact Hag|].
  pose proof (Hlag (nth (Z.to_nat k) grid 0) (nth_In grid 0 Hk')) as Hb.
  unfold grid in *. rewrite nth_date_range_H in Hb |- * by assumption. lia.
Qed.

(** ** Two runs on series that agree before the forecast creation time *)

Lemma same_but_value_set_col (df1 df2 : DataFrame) (n : string) (c : list cell) :
  same_but_value df1 df2 -> same_but_value (set_col df1 n c) (set_col df2 n c).
Proof.
  intros (Hi & Hc). split; [exact Hi|]. unfold set_col. simpl.
  induction Hc as [|a b l1 l2 (Hn & Hv) Hl IH]; simpl.
  - constructor; [|constructor]. split; [reflexivity | now right].
  - rewrite <- Hn. destruct (String.eqb (fst a) n).
    + constructor; [|exact Hl]. split; [reflexivity | now right].
    + constructor; [now split | exact IH].
Qed.

Lemma same_but_value_has_col (df1 df2 : DataFrame) (n : string) :
  same_but_value df1 df2 -> has_col df1 n = has_col df2 n.
Proof.
  intros (_ & Hc). unfold has_col.
  induction Hc as [|a b l1 l2 (Hn & _) Hl IH]; simpl; [reflexivity|].
  now rewrite Hn, IH.
Qed.

(** Once the column [value] is dropped the two frames are the same. *)
Lemma drop_same_but_value (df1 df2 : DataFrame) (names : list string) :
  same_but_value df1 df2 -> In "value"%string names -> drop df1 names = drop df2 names.
Proof.
  intros Hs Hin. unfold drop.
  assert (Hf : forallb (has_col df1) names = forallb (has_col df2) names).
  { clear Hin. induction names as [|n names IH]; simpl; [reflexivity|].
    now rewrite IH, (same_but_value_has_col df1 df2 n Hs). }
  rewrite Hf. destruct (forallb (has_col df2) names); [|reflexivity].
  destruct Hs as (Hi & Hc). rewrite Hi. do 2 f_equal.
  induction Hc as [|a b l1 l2 (Hn & Hv) Hl IH]; simpl; [reflexivity|].
  rewrite <- Hn. destruct (existsb (String.eqb (fst a)) names) eqn:E; simpl; [exact IH|].
  rewrite IH. f_equal. destruct Hv as [Hv | Hv].
  - exfalso. assert (Ht : existsb (String.eqb (fst a)) names = true).
    { apply existsb_exists. exists "value"%string. split; [exact Hin|].
      now apply String.eqb_eq. }
    congruence.
  - destruct a, b. simpl in *. congruence.
Qed.

Lemma for_range_rel {S : Type} (R : S -> S -> Prop) (body : S -> Z -> result S) (l : list Z) :
  (forall s1 s2 i, R s1 s2 -> result_rel R (body s1 i) (body s2 i)) ->
  forall s1 s2, R s1 s2 -> result_rel R (for_range body s1 l) (for_range body s2 l).
Proof.
  intros Hb. induction l as [|i l IH]; intros s1 s2 HR; cbn [for_range].
  - exact HR.
  - specialize (Hb s1 s2 i HR).
    destruct (body s1 i) as [s1'|e1], (body s2 i) as [s2'|e2]; simpl in Hb;
      try contradiction; cbn [bind].
    + now apply IH.
    + exact Hb.
Qed.

Section TwoRuns.

Variable fct : Z.
Variable dt : list Z.
Variables v1 v2 : list cell.
Variables mn mx : Z.

Hypothesis agree : agree_before fct dt v1 v2.

Local Abbreviation grid := (date_range_H mn mx).
Local Abbreviation c1 := (map (value_at dt v1) (date_range_H mn mx)).
Local Abbreviation c2 := (map (value_at dt v2) (date_range_H mn mx)).
Local Abbreviation related := (loop_rel fct (date_range_H mn mx) c1 c2).

Lemma same_but_value_hourly_frame :
  same_but_value (hourly_frame dt v1 fct mn mx) (hourly_frame dt v2 fct mn mx).
Proof.
  split; [reflexivity|]. unfold hourly_frame. cbn [columns].
  constructor; [split; [reflexivity | now left]|].
  constructor; [split; [reflexivity | now right]|]. constructor.
Qed.

Lemma related_hourly_frame :
  related (hourly_frame dt v1 fct mn mx, None) (hourly_frame dt v2 fct mn mx, None).
Proof.
  split; [apply same_but_value_hourly_frame|]. repeat split. now left.
Qed.

(** The selections [tmp_df[tmp_col_all]] of the two runs are the same. *)
Lemma select_tmp_frame_agree (lags : list Z) :
  Forall (lag_before fct grid) lags ->
  select (tmp_frame grid c1 lags) (map tmp_name lags) =
  select (tmp_frame grid c2 lags) (map tmp_name lags).
Proof.
  intros Hl. rewrite !select_tmp_frame. do 2 f_equal.
  apply map_ext_in. intros h Hh. f_equal.
  apply (shift_agree fct); [exact agree|].
  rewrite Forall_forall in Hl. now apply Hl.
Qed.

Lemma assign_agg_related (agg : DataFrame -> result (list cell)) (df1 df2 : DataFrame)
    (prefix : string) (k : Z) (tmp1 tmp2 : tmp_locals) :
  related (df1, tmp1) (df2, tmp2) ->
  result_rel related
    (df <- assign_agg agg df1 (prefix ++ str k) tmp1 ;; Ok (df, tmp1))
    (df <- assign_agg agg df2 (prefix ++ str k) tmp2 ;; Ok (df, tmp2)).
Proof.
  intros (Hs & Hi & Hg1 & Hg2 & Ht). simpl in Hs, Hi, Hg1, Hg2, Ht.
  destruct Ht as [(-> & ->) | (lags & Hl & -> & ->)]; [reflexivity|].
  unfold assign_agg. rewrite (select_tmp_frame_agree lags Hl).
  destruct (select (tmp_frame grid c2 lags) (map tmp_name lags)) as [sel|e];
    [|reflexivity].
  cbn [bind]. destruct (agg sel) as [col|e]; [|reflexivity].
  cbn [bind result_rel]. split; [|repeat split]; cbn [fst snd].
  - now apply same_but_value_set_col.
  - exact Hi.
  - rewrite get_col_set_col_other; [exact Hg1 | apply append_str_not_value].
  - rewrite get_col_set_col_other; [exact Hg2 | apply append_str_not_value].
  - right. exists lags. auto.
Qed.

(** The step that builds [tmp_df] when the feature has lags left. *)
Lemma build_tmp_related (df1 df2 : DataFrame) (tmp1 tmp2 : tmp_locals) (lags : list Z) :
  related (df1, tmp1) (df2, tmp2) ->
  Forall (lag_before fct grid) lags ->
  exists t1 t2,
    build_tmp df1 lags = Ok t1 /\ build_tmp df2 lags = Ok t2 /\
    related (df1, Some t1) (df2, Some t2).
Proof.
  intros (Hs & Hi & Hg1 & Hg2 & Ht) Hl. simpl in Hs, Hi, Hg1, Hg2.
  rewrite (build_tmp_spec df1 lags _ Hg1), (build_tmp_spec df2 lags _ Hg2).
  do 2 eexists. split; [reflexivity|]. split; [reflexivity|].
  split; [exact Hs|]. repeat split; cbn [fst snd]; try assumption.
  right. exists lags. destruct Hs as (Hidx & _). rewrite <- Hidx, Hi. auto.
Qed.

End TwoRuns.

Section TwoLoops.

Variable fct : Z.
Variable dt : list Z.
Variables v1 v2 : list cell.
Variables mn mx : Z.
Variable max_diff : Q.
Variable prefix : string.
Variables start_week window_size : Z.

Hypothesis agree : agree_before fct dt v1 v2.
Hypothesis max_diff_is_max :
  py_maxQ (map (fun t => timedelta_hours (t - fct)) (date_range_H mn mx)) = Ok max_diff.

Local Abbreviation related :=
  (loop_rel fct (date_range_H mn mx)
            (map (value_at dt v1) (date_range_H mn mx))
            (map (value_at dt v2) (date_range_H mn mx))).

Lemma guarded_body_related (agg : DataFrame -> result (list cell))
    (s1 s2 : DataFrame * tmp_locals) (i : Z) :
  related s1 s2 ->
  result_rel related
    (guarded_body agg prefix start_week window_size max_diff s1 i)
    (guarded_body agg prefix start_week window_size max_diff s2 i).
Proof.
  destruct s1 as [df1 tmp1], s2 as [df2 tmp2]. intros HR.
  unfold guarded_body. cbv zeta.
  destruct (0 <? List.length (hour_lags (start_week + i) window_size max_diff))%nat;
    [|exact HR].
  destruct (build_tmp_related fct dt v1 v2 mn mx df1 df2 tmp1 tmp2 _ HR
              (hour_lags_before fct _ max_diff (start_week + i) window_size max_diff_is_max))
    as (t1 & t2 & -> & -> & HR').
  cbn [bind]. now apply (assign_agg_related fct dt v1 v2 mn mx agree).
Qed.

Lemma moving_average_body_related (s1 s2 : DataFrame * tmp_locals) (i : Z) :
  related s1 s2 ->
  result_rel related
    (moving_average_body prefix start_week window_size max_diff s1 i)
    (moving_average_body prefix start_week window_size max_diff s2 i).
Proof. apply (guarded_body_related round_mean). Qed.

Lemma moving_std_body_related (s1 s2 : DataFrame * tmp_locals) (i : Z) :
  related s1 s2 ->
  result_rel related
    (moving_std_body prefix start_week window_size max_diff s1 i)
    (moving_std_body prefix start_week window_size max_diff s2 i).
Proof. apply (guarded_body_related round_stddev). Qed.

(** The step [if len(hour_lags) > 0: ...] of the two other functions. *)
Lemma tmp_step_related (df1 df2 : DataFrame) (tmp1 tmp2 : tmp_locals) (i : Z) :
  related (df1, tmp1) (df2, tmp2) ->
  exists tmp1' tmp2',
    (if (0 <? List.length (hour_lags (start_week + i) window_size max_diff))%nat
     then t <- build_tmp df1 (hour_lags (start_week + i) window_size max_diff) ;; Ok (Some t)
     else Ok tmp1) = Ok tmp1' /\
    (if (0 <? List.length (hour_lags (start_week + i) window_size max_diff))%nat
     then t <- build_tmp df2 (hour_lags (start_week + i) window_size max_diff) ;; Ok (Some t)
     else Ok tmp2) = Ok tmp2' /\
    related (df1, tmp1') (df2, tmp2').
Proof.
  intros HR.
  destruct (0 <? List.length (hour_lags (start_week + i) window_size max_diff))%nat.
  - destruct (build_tmp_related fct dt v1 v2 mn mx df1 df2 tmp1 tmp2 _ HR
                (hour_lags_before fct _ max_diff (start_week + i) window_size max_diff_is_max))
      as (t1 & t2 & -> & -> & HR').
    exists (Some t1), (Some t2). auto.
  - exists tmp1, tmp2. auto.
Qed.

Lemma moving_quantile_body_related (q : Q) (s1 s2 : DataFrame * tmp_locals) (i : Z) :
  related s1 s2 ->
  result_rel related
    (moving_quantile_body q prefix start_week window_size max_diff s1 i)
    (moving_quantile_body q prefix start_week window_size max_diff s2 i).
Proof.
  destruct s1 as [df1 tmp1], s2 as [df2 tmp2]. intros HR.
  unfold moving_quantile_body. cbv zeta.
  destruct (tmp_step_related df1 df2 tmp1 tmp2 i HR) as (t1 & t2 & -> & -> & HR').
  cbn [bind]. now apply (assign_agg_related fct dt v1 v2 mn mx agree).
Qed.

Lemma moving_agg_body_related (agg_func : string) (q : option Q)
    (s1 s2 : DataFrame * tmp_locals) (i : Z) :
  related s1 s2 ->
  result_rel related
    (moving_agg_body agg_func q prefix start_week window_size max_diff s1 i)
    (moving_agg_body agg_func q prefix start_week window_size max_diff s2 i).
Proof.
  destruct s1 as [df1 tmp1], s2 as [df2 tmp2]. intros HR.
  unfold moving_agg_body. cbv zeta.
  destruct (tmp_step_related df1 df2 tmp1 tmp2 i HR) as (t1 & t2 & -> & -> & HR').
  cbn [bind].
  destruct (String.eqb agg_func "mean" && is_None q);
    [now apply (assign_agg_related fct dt v1 v2 mn mx agree)|].
  destruct (String.eqb agg_func "quantile" && is_Some q);
    [now apply (assign_agg_related fct dt v1 v2 mn mx agree)|].
  destruct (String.eqb agg_func "std" && is_None q);
    [now apply (assign_agg_related fct dt v1 v2 mn mx agree)|].
  exact HR'.
Qed.

(** From related states the end of the four functions gives one result. *)
Lemma drop_related (body : DataFrame * tmp_locals -> Z -> result (DataFrame * tmp_locals))
    (names : list string) (l : list Z) :
  (forall s1 s2 i, related s1 s2 -> result_rel related (body s1 i) (body s2 i)) ->
  In "value"%string names ->
  (st <- for_range body (hourly_frame dt v1 fct mn mx, None) l ;; drop (fst st) names) =
  (st <- for_range body (hourly_frame dt v2 fct mn mx, None) l ;; drop (fst st) names).
Proof.
  intros Hb Hin.
  pose proof (for_range_rel related body l Hb _ _
                (related_hourly_frame fct dt v1 v2 mn mx)) as H.
  destruct (for_range body (hourly_frame dt v1 fct mn mx, None) l) as [st1|e1],
           (for_range body (hourly_frame dt v2 fct mn mx, None) l) as [st2|e2];
    simpl in H; try contradiction; cbn [bind].
  - apply drop_same_but_value; [apply H | exact Hin].
  - now rewrite H.
Qed.

End TwoLoops.

Lemma moving_frame_raises (dt : list Z) (v : list cell) (fct : Z) :
  dt = [] \/ has_duplicates dt = true \/ List.length dt <> List.length v ->
  moving_frame dt v fct = Raise ValueError.
Proof.
  intros H. unfold moving_frame, new_frame.
  destruct (Nat.eqb_spec (List.length dt) (List.length v)) as [Hlen|Hlen]; [|reflexivity].
  cbn [bind]. unfold asfreq_H. cbn [index columns].
  destruct (has_duplicates dt) eqn:Hdup; [reflexivity|].
  destruct H as [-> | [H | H]]; [reflexivity | discriminate | contradiction].
Qed.

(** The frames of two runs before the loop: the same exception, or the
    two hourly frames with the same [max_diff]. *)
Lemma moving_frame_related (fct : Z) (dt : list Z) (v1 v2 : list cell) :
  List.length v1 = List.length v2 ->
  (moving_frame dt v1 fct = Raise ValueError /\ moving_frame dt v2 fct = Raise ValueError) \/
  exists mn mx max_diff,
    moving_frame dt v1 fct = Ok (hourly_frame dt v1 fct mn mx, max_diff) /\
    moving_frame dt v2 fct = Ok (hourly_frame dt v2 fct mn mx, max_diff) /\
    py_maxQ (map (fun t => timedelta_hours (t - fct)) (date_range_H mn mx)) = Ok max_diff.
Proof.
  intros Hlen.
  destruct (Nat.eq_dec (List.length dt) (List.length v1)) as [Hl|Hl];
    [|left; split; apply moving_frame_raises; right; right; congruence].
  destruct (has_duplicates dt) eqn:Hdup;
    [left; split; apply moving_frame_raises; right; left; exact Hdup|].
  destruct dt as [|t dt'] eqn:Edt;
    [left; split; apply moving_frame_raises; now left|].
  rewrite <- Edt in *.
  destruct (py_min_max_nonempty dt) as (mn & mx & Hmin & Hmax); [congruence|].
  right. exists mn, mx.
  destruct (moving_frame_ok dt v1 fct mn mx Hmin Hmax Hdup Hl) as (md1 & H1 & Hm1).
  destruct (moving_frame_ok dt v2 fct mn mx Hmin Hmax Hdup (eq_trans Hl Hlen))
    as (md2 & H2 & Hm2).
  rewrite Hm1 in Hm2. inversion Hm2. subst md2. exists md1. auto.
Qed.

(** X3: the four generators do not read the values at or after the forecast
    creation time: two series with the same timestamps and the same
    values before that time give the same result, be it the frame of the
    features or an exception. *)
Lemma moving_features_ignore_future_values (fct : Z) (dt : list Z) (v1 v2 : list cell)
    (window_size start_week count : Z) (q : Q) (agg_func : string) (oq : option Q)
    (prefix : string) :
  agree_before fct dt v1 v2 ->
  same_day_hour_moving_average dt v1 window_size start_week count fct prefix =
  same_day_hour_moving_average dt v2 window_size start_week count fct prefix /\
  same_day_hour_moving_quantile dt v1 window_size start_week count q fct prefix =
  same_day_hour_moving_quantile dt v2 window_size start_week count q fct prefix /\
  same_day_hour_moving_std dt v1 window_size start_week count fct prefix =
  same_day_hour_moving_std dt v2 window_size start_week count fct prefix /\
  same_day_hour_moving_agg dt v1 window_size start_week count fct agg_func oq prefix =
  same_day_hour_moving_agg dt v2 window_size start_week count fct agg_func oq prefix.
Proof.
  intros Hag. pose proof (proj1 Hag) as Hlen.
  unfold same_day_hour_moving_average, same_day_hour_moving_quantile,
    same_day_hour_moving_std, same_day_hour_moving_agg.
  destruct (moving_frame_related fct dt v1 v2 Hlen)
    as [(-> & ->) | (mn & mx & md & -> & -> & Hmax)];
    [repeat split; reflexivity|].
  cbn [bind fst snd]. repeat split.
  - apply (drop_related fct dt v1 v2 mn mx); [|simpl; tauto].
    apply (moving_average_body_related fct dt v1 v2 mn mx md prefix start_week
             window_size Hag Hmax).
  - apply (drop_related fct dt v1 v2 mn mx); [|simpl; tauto].
    apply (moving_quantile_body_related fct dt v1 v2 mn mx md prefix start_week
             window_size Hag Hmax).
  - apply (drop_related fct dt v1 v2 mn mx); [|simpl; tauto].
    apply (moving_std_body_related fct dt v1 v2 mn mx md prefix start_week
             window_size Hag Hmax).
  - apply (drop_related fct dt v1 v2 mn mx); [|simpl; tauto].
    apply (moving_agg_body_related fct dt v1 v2 mn mx md prefix start_week
             window_size Hag Hmax).
Qed.

(** ** Features without a lag left *)

Lemma guarded_body_has_col (agg : DataFrame -> result (list cell)) (prefix : string)
    (start_week window_size : Z) (max_diff : Q) (st st' : DataFrame * tmp_locals)
    (i : Z) (n : string) :
  guarded_body agg prefix start_week window_size max_diff st i = Ok st' ->
  has_col (fst st') n =
  has_col (fst st) n ||
  ((0 <? List.length (hour_lags (start_week + i) window_size max_diff))%nat &&
   String.eqb (prefix ++ str (start_week + i)) n).
Proof.
  destruct st as [df tmp]. unfold guarded_body. cbv zeta.
  destruct (0 <? List.length (hour_lags (start_week + i) window_size max_diff))%nat.
  - destruct (build_tmp df _) as [[tmp_df cols]|e]; cbn [bind]; [|discriminate].
    unfold assign_agg. destruct (select tmp_df cols) as [sel|e]; cbn [bind]; [|discriminate].
    destruct (agg sel) as [col|e]; cbn [bind]; [|discriminate].
    intros E. inversion E. cbn [fst]. rewrite has_col_set_col. cbn [andb].
    apply orb_comm.
  - intros E. inversion E. cbn [fst andb]. now rewrite orb_false_r.
Qed.

Lemma guarded_loop_has_col (agg : DataFrame -> result (list cell)) (prefix : string)
    (start_week window_size : Z) (max_diff : Q) (l : list Z) (n : string) :
  forall st st',
    for_range (guarded_body agg prefix start_week window_size max_diff) st l = Ok st' ->
    has_col (fst st') n =
    has_col (fst st) n ||
    existsb (fun i => (0 <? List.length (hour_lags (start_week + i) window_size max_diff))%nat
                      && String.eqb (prefix ++ str (start_week + i)) n) l.
Proof.
  induction l as [|i l IH]; intros st st' H; cbn [for_range existsb] in *.
  - inversion H. now rewrite orb_false_r.
  - destruct (guarded_body agg prefix start_week window_size max_diff st i) as [st1|e] eqn:E;
      cbn [bind] in H; [|discriminate].
    rewrite (IH _ _ H), (guarded_body_has_col _ _ _ _ _ _ _ _ _ E).
    now rewrite orb_assoc.
Qed.

Lemma has_col_drop (df df' : DataFrame) (names : list string) (n : string) :
  drop df names = Ok df' -> has_col df n = false -> has_col df' n = false.
Proof.
  unfold drop. destruct (forallb (has_col df) names); [|discriminate].
  intros E. inversion E. clear E. unfold has_col. cbn [columns].
  generalize (columns df). intros cols.
  induction cols as [|c cols IH]; simpl; [reflexivity|].
  intros H. apply orb_false_iff in H. destruct H as (H1 & H2).
  destruct (existsb (String.eqb (fst c)) names); simpl; [now apply IH|].
  now rewrite H1, IH.
Qed.

(** The two functions that assign inside the [if] leave out the column
    of a feature that has no lag left. *)
Lemma guarded_feature_omitted (agg : DataFrame -> result (list cell)) (names : list string)
    (dt : list Z) (v : list cell) (window_size start_week count fct : Z) (prefix : string)
    (frame : DataFrame) (max_diff : Q) (out : DataFrame) (i : Z) :
  moving_frame dt v fct = Ok (frame, max_diff) ->
  (st <- for_range (guarded_body agg prefix start_week window_size max_diff)
                   (frame, None) (range 0 count) ;;
   drop (fst st) names) = Ok out ->
  hour_lags (start_week + i) window_size max_diff = [] ->
  has_col out (prefix ++ str (start_week + i)) = false.
Proof.
  intros Hfm Hrun Hl.
  destruct (for_range _ _ _) as [st|e] eqn:Eloop; cbn [bind] in Hrun; [|discriminate].
  apply (has_col_drop _ _ _ _ Hrun).
  rewrite (guarded_loop_has_col _ _ _ _ _ _ _ _ _ Eloop). cbn [fst].
  apply orb_false_iff. split.
  - assert (Hframe : exists mn mx, frame = hourly_frame dt v fct mn mx).
    { destruct (moving_frame_related fct dt v v eq_refl)
        as [(E & _) | (mn & mx & md & E & _ & _)]; rewrite E in Hfm; [discriminate|].
      inversion Hfm. eauto. }
    destruct Hframe as (mn & mx & ->). unfold has_col, hourly_frame.
    cbn [columns existsb fst]. rewrite orb_false_r. apply orb_false_iff.
    split; apply String.eqb_neq; intros E; symmetry in E; revert E;
      [apply append_str_not_value | apply append_str_not_fct_diff].
  - destruct (existsb _ _) eqn:Ex; [|reflexivity].
    apply existsb_exists in Ex. destruct Ex as (j & _ & Hj).
    apply andb_true_iff in Hj. destruct Hj as (Hne & En).
    apply String.eqb_eq, lag_name_inj in En.
    replace j with i in Hne by lia. rewrite Hl in Hne. discriminate.
Qed.

(** X5: [same_day_hour_moving_average], when it returns, has no column for a
    feature whose lags all lie within [max_diff] hours. *)
Lemma moving_average_omits_feature (dt : list Z) (v : list cell)
    (window_size start_week count fct : Z) (prefix : string)
    (frame : DataFrame) (max_diff : Q) (out : DataFrame) (i : Z) :
  moving_frame dt v fct = Ok (frame, max_diff) ->
  same_day_hour_moving_average dt v window_size start_week count fct prefix = Ok out ->
  hour_lags (start_week + i) window_size max_diff = [] ->
  has_col out (prefix ++ str (start_week + i)) = false.
Proof.
  intros Hfm Hrun. unfold same_day_hour_moving_average in Hrun.
  rewrite Hfm in Hrun. cbn [bind fst snd] in Hrun.
  change (moving_average_body prefix start_week window_size max_diff)
    with (guarded_body round_mean prefix start_week window_size max_diff) in Hrun.
  now apply (guarded_feature_omitted round_mean ["fct_diff"; "value"]%string dt v
               window_size start_week count fct prefix frame max_diff out i Hfm).
Qed.

(** X6: [same_day_hour_moving_std], when it returns, has no column for a
    feature whose lags all lie within [max_diff] hours. *)
Lemma moving_std_omits_feature (dt : list Z) (v : list cell)
    (window_size start_week count fct : Z) (prefix : string)
    (frame : DataFrame) (max_diff : Q) (out : DataFrame) (i : Z) :
  moving_frame dt v fct = Ok (frame, max_diff) ->
  same_day_hour_moving_std dt v window_size start_week count fct prefix = Ok out ->
  hour_lags (start_week + i) window_size max_diff = [] ->
  has_col out (prefix ++ str (start_week + i)) = false.
Proof.
  intros Hfm Hrun. unfold same_day_hour_moving_std in Hrun.
  rewrite Hfm in Hrun. cbn [bind fst snd] in Hrun.
  change (moving_std_body prefix start_week window_size max_diff)
    with (guarded_body round_stddev prefix start_week window_size max_diff) in Hrun.
  now apply (guarded_feature_omitted round_stddev ["value"; "fct_diff"]%string dt v
               window_size start_week count fct prefix frame max_diff out i Hfm).
Qed.

(** * Further properties *)

(** ** The columns of the moving aggregates *)

Lemma guarded_body_spec (agg : DataFrame -> result (list cell)) (prefix : string)
    (start_week window_size : Z) (max_diff : Q) (df : DataFrame) (tmp : tmp_locals)
    (i : Z) (c col : list cell) :
  get_col df "value" = Ok c ->
  hour_lags (start_week + i) window_size max_diff <> [] ->
  agg (lag_table (index df) c (hour_lags (start_week + i) window_size max_diff)) = Ok col ->
  exists tmp',
    guarded_body agg prefix start_week window_size max_diff (df, tmp) i =
    Ok (set_col df (prefix ++ str (start_week + i)) col, tmp').
Proof.
  intros Hc Hl Hagg. unfold guarded_body.
  destruct (hour_lags (start_week + i) window_size max_diff) as [|h lags] eqn:E;
    [contradiction|].
  cbn [List.length Nat.ltb Nat.leb]. rewrite (build_tmp_spec _ _ _ Hc). cbn [bind].
  unfold assign_agg. rewrite select_tmp_frame. cbn [bind].
  unfold lag_table in Hagg. rewrite Hagg. cbn [bind]. eauto.
Qed.

Lemma guarded_body_skip (agg : DataFrame -> result (list cell)) (prefix : string)
    (start_week window_size : Z) (max_diff : Q) (st : DataFrame * tmp_locals) (i : Z) :
  hour_lags (start_week + i) window_size max_diff = [] ->
  guarded_body agg prefix start_week window_size max_diff st i = Ok st.
Proof. intros E. destruct st as [df tmp]. unfold guarded_body. now rewrite E. Qed.

Lemma guarded_loop_spec (agg : DataFrame -> result (list cell)) (prefix : string)
    (start_week window_size : Z) (max_diff : Q) (c : list cell) (idx : list Z) :
  (forall t, exists col, agg t = Ok col) ->
  forall l st,
    NoDup l -> index (fst st) = idx -> get_col (fst st) "value" = Ok c ->
    exists st',
      for_range (guarded_body agg prefix start_week window_size max_diff) st l = Ok st' /\
      index (fst st') = idx /\
      (forall n, (forall i, In i l -> n <> (prefix ++ str (start_week + i))%string) ->
                 get_col (fst st') n = get_col (fst st) n) /\
      (forall i, In i l -> hour_lags (start_week + i) window_size max_diff <> [] ->
                 get_col (fst st') (prefix ++ str (start_week + i)) =
                 agg (lag_table idx c (hour_lags (start_week + i) window_size max_diff))).
Proof.
  intros Hagg. induction l as [|i l IH]; intros [df tmp] Hnd Hidx Hc; cbn [fst] in *.
  - exists (df, tmp). cbn [for_range fst]. repeat split; auto. intros i [].
  - inversion Hnd as [|? ? Hni Hnd']. subst. cbn [for_range].
    assert (Hstep : exists df1 tmp1,
               guarded_body agg prefix start_week window_size max_diff (df, tmp) i =
               Ok (df1, tmp1) /\ index df1 = index df /\
               (forall n, n <> (prefix ++ str (start_week + i))%string ->
                          get_col df1 n = get_col df n) /\
               (hour_lags (start_week + i) window_size max_diff <> [] ->
                get_col df1 (prefix ++ str (start_week + i)) =
                agg (lag_table (index df) c
                       (hour_lags (start_week + i) window_size max_diff)))).
    { destruct (hour_lags (start_week + i) window_size max_diff) as [|h hs] eqn:E.
      - exists df, tmp. rewrite guarded_body_skip by exact E. repeat split; auto.
        intros H. now contradiction H.
      - destruct (Hagg (lag_table (index df) c (h :: hs))) as (col & Hcol).
        destruct (guarded_body_spec agg prefix start_week window_size max_diff df tmp i
                    c col Hc) as (tmp' & Hb).
        + rewrite E. discriminate.
        + now rewrite E.
        + exists (set_col df (prefix ++ str (start_week + i)) col), tmp'.
          split; [exact Hb|]. split; [reflexivity|]. split.
          * intros n Hn. apply get_col_set_col_other. congruence.
          * intros _. rewrite get_col_set_col_same. now rewrite Hcol. }
    destruct Hstep as (df1 & tmp1 & Hb & Hi1 & Hother & Hsame). rewrite Hb. cbn [bind].
    destruct (IH (df1, tmp1) Hnd') as (st' & Hrun & Hidx' & Hkeep & Hnew); cbn [fst].
    + exact Hi1.
    + rewrite Hother; [exact Hc|]. intros E. symmetry in E. revert E.
      apply append_str_not_value.
    + exists st'. split; [exact Hrun|]. split; [exact Hidx'|]. split.
      * intros n Hn. rewrite Hkeep by (intros j Hj; apply Hn; now right).
        apply Hother. apply Hn. now left.
      * intros j [<- | Hj] Hl.
        -- rewrite Hkeep; [now apply Hsame|].
           intros k Hk E. apply lag_name_inj in E.
           assert (i = k) by lia. subst k. contradiction.
        -- now apply Hnew.
Qed.

Lemma length_date_range_H (a b : Z) :
  List.length (date_range_H a b) = Z.to_nat ((b - a) / 3600 + 1).
Proof. unfold date_range_H. rewrite length_map, length_range. f_equal. lia. Qed.

Lemma nth_shift (h : Z) (col : list cell) (k : nat) :
  (k < List.length col)%nat ->
  nth k (shift h col) None =
  if (0 <=? Z.of_nat k - h) && (Z.of_nat k - h <? Z.of_nat (List.length col))
  then nth (Z.to_nat (Z.of_nat k - h)) col None else None.
Proof.
  intros Hk. unfold shift, range. rewrite map_map.
  set (f := fun x : nat => _).
  rewrite (nth_indep _ None (f 0%nat)) by (rewrite length_map, length_seq; lia).
  rewrite (map_nth f), seq_nth by lia. unfold f. cbn [Nat.add].
  now rewrite Z.add_0_l.
Qed.

Lemma nth_shift_grid (dt : list Z) (v : list cell) (mn mx h : Z) (k : nat) :
  mn <= mx -> (k < List.length (date_range_H mn mx))%nat ->
  nth k (shift h (map (value_at dt v) (date_range_H mn mx))) None =
  value_hours_before dt v mn mx (nth k (date_range_H mn mx) 0) h.
Proof.
  intros Hle Hk. rewrite nth_shift by (now rewrite length_map). rewrite length_map.
  unfold value_hours_before. cbv zeta. rewrite nth_date_range_H by exact Hk.
  pose proof (length_date_range_H mn mx) as Hn.
  assert (H0 : 0 <= (mx - mn) / 3600) by (apply Z.div_pos; lia).
  pose proof (Z.mul_div_le (mx - mn) 3600 ltac:(lia)) as H1.
  pose proof (Z.mul_succ_div_gt (mx - mn) 3600 ltac:(lia)) as H2.
  destruct (Z.leb_spec 0 (Z.of_nat k - h)) as [Ha|Ha];
    destruct (Z.ltb_spec (Z.of_nat k - h) (Z.of_nat (List.length (date_range_H mn mx))))
      as [Hb|Hb]; cbn [andb].
  - destruct (Z.leb_spec mn (mn + Z.of_nat k * 3600 - h * 3600)); [|lia].
    destruct (Z.leb_spec (mn + Z.of_nat k * 3600 - h * 3600) mx); [|lia]. cbn [andb].
    rewrite (nth_indep _ None (value_at dt v 0)) by (rewrite length_map; lia).
    rewrite map_nth, nth_date_range_H by lia. f_equal. lia.
  - destruct (Z.leb_spec mn (mn + Z.of_nat k * 3600 - h * 3600)); [|reflexivity].
    destruct (Z.leb_spec (mn + Z.of_nat k * 3600 - h * 3600) mx); [lia|reflexivity].
  - destruct (Z.leb_spec mn (mn + Z.of_nat k * 3600 - h * 3600)); [lia|reflexivity].
  - destruct (Z.leb_spec mn (mn + Z.of_nat k * 3600 - h * 3600)); [lia|reflexivity].
Qed.

Lemma get_col_drop (df df' : DataFrame) (names : list string) (n : string) :
  drop df names = Ok df' -> existsb (String.eqb n) names = false ->
  index df' = index df /\ get_col df' n = get_col df n.
Proof.
  unfold drop. destruct (forallb (has_col df) names); [|discriminate].
  intros E Hn. inversion E. subst df'. clear E. split; [reflexivity|].
  unfold get_col. cbn [columns]. f_equal.
  induction (columns df) as [|c cols IH]; [reflexivity|].
  cbn [filter find]. destruct (String.eqb (fst c) n) eqn:E.
  - apply String.eqb_eq in E. rewrite E, Hn. cbn [negb find].
    now rewrite E, String.eqb_refl.
  - destruct (negb _); [|exact IH]. cbn [find]. now rewrite E.
Qed.

Lemma rows_of_lag_table (idx : list Z) (c : list cell) (lags : list Z) :
  rows_of (lag_table idx c lags) =
  map (fun k => map (fun h => nth k (shift h c) None) lags) (seq 0 (List.length idx)).
Proof.
  unfold rows_of, lag_table. cbn [index columns]. apply map_ext. intros k.
  unfold row_of. now rewrite map_map.
Qed.

Lemma map_nth_seq {A : Type} (f : Z -> A) (l : list Z) :
  map (fun k => f (nth k l 0)) (seq 0 (List.length l)) = map f l.
Proof.
  induction l as [|x l IH]; [reflexivity|].
  cbn [List.length seq map nth]. f_equal. rewrite <- seq_shift, map_map. exact IH.
Qed.

Lemma guarded_feature_column (agg_row : list cell -> cell) (names : list string)
    (dt : list Z) (v : list cell) (window_size start_week count fct : Z)
    (prefix : string) (mn mx : Z) :
  py_min dt = Ok mn -> py_max dt = Ok mx ->
  has_duplicates dt = false -> List.length dt = List.length v ->
  names = ["fct_diff"; "value"]%string \/ names = ["value"; "fct_diff"]%string ->
  exists max_diff out,
    py_maxQ (map (fun t => timedelta_hours (t - fct)) (date_range_H mn mx)) = Ok max_diff /\
    moving_frame dt v fct = Ok (hourly_frame dt v fct mn mx, max_diff) /\
    (st <- for_range (guarded_body (fun t => Ok (map agg_row (rows_of t))) prefix
                        start_week window_size max_diff)
                     (hourly_frame dt v fct mn mx, None) (range 0 count) ;;
     drop (fst st) names) = Ok out /\
    index out = date_range_H mn mx /\
    forall i, 0 <= i < count ->
      hour_lags (start_week + i) window_size max_diff <> [] ->
      get_col out (prefix ++ str (start_week + i)) =
      Ok (feature_column agg_row dt v mn mx
            (hour_lags (start_week + i) window_size max_diff)).
Proof.
  intros Hmin Hmax Hdup Hlen Hnames.
  destruct (moving_frame_ok dt v fct mn mx Hmin Hmax Hdup Hlen) as (md & Hfm & Hmd).
  exists md.
  set (grid := date_range_H mn mx). set (c := map (value_at dt v) grid).
  destruct (guarded_loop_spec (fun t => Ok (map agg_row (rows_of t))) prefix start_week
              window_size md c grid (fun t => ex_intro _ _ eq_refl)
              (range 0 count) (hourly_frame dt v fct mn mx, None))
    as (st' & Hrun & Hidx & Hkeep & Hnew); [apply NoDup_range | reflexivity | reflexivity |].
  rewrite Hrun. cbn [bind].
  assert (Hv : has_col (fst st') "value" = true).
  { apply has_col_get_col. exists c. rewrite Hkeep; [reflexivity|].
    intros i _ E. symmetry in E. revert E. apply append_str_not_value. }
  assert (Hf : has_col (fst st') "fct_diff" = true).
  { apply has_col_get_col. eexists. rewrite Hkeep; [reflexivity|].
    intros i _ E. symmetry in E. revert E. apply append_str_not_fct_diff. }
  assert (Hdrop : exists out, drop (fst st') names = Ok out).
  { unfold drop. destruct Hnames as [-> | ->]; cbn [forallb]; rewrite Hv, Hf; cbn [andb]; eauto. }
  destruct Hdrop as (out & Hdrop). exists out. split; [exact Hmd|]. split; [exact Hfm|]. split; [exact Hdrop|].
  assert (Hget : forall n, n <> "value"%string -> n <> "fct_diff"%string ->
                 index out = index (fst st') /\ get_col out n = get_col (fst st') n).
  { intros n H1 H2. apply (get_col_drop _ _ names); [exact Hdrop|].
    destruct Hnames as [-> | ->]; cbn [existsb];
      apply String.eqb_neq in H1, H2; now rewrite H1, H2. }
  split.
  - rewrite <- Hidx. apply (Hget "x"%string); discriminate.
  - intros i Hi Hl.
    destruct (Hget (prefix ++ str (start_week + i))%string) as (_ & ->);
      [apply append_str_not_value | apply append_str_not_fct_diff |].
    rewrite Hnew by (try apply In_range; auto). f_equal.
    rewrite rows_of_lag_table, map_map. unfold feature_column.
    pose proof (py_min_le_max dt mn mx Hmin Hmax) as Hle.
    rewrite <- (map_nth_seq (fun t => agg_row (map (value_hours_before dt v mn mx t) _))).
    apply map_ext_in. intros k Hk. apply in_seq in Hk. f_equal.
    apply map_ext. intros h. apply nth_shift_grid; [exact Hle | lia].
Qed.

(** ** The rounded mean and the rounded standard deviation *)

Lemma Forall2_map_fun {A B : Type} (P : A -> B -> Prop) (f : A -> B) (l : list A) :
  (forall x, In x l -> P x (f x)) -> Forall2 P l (map f l).
Proof.
  induction l as [|x l IH]; intros H; cbn [map]; constructor.
  - apply H. now left.
  - apply IH. intros y Hy. apply H. now right.
Qed.

Lemma floor_le_iff (a : Z) (x : Q) : (inject_Z a <= x)%Q <-> a <= Qfloor x.
Proof.
  split; intros H.
  - apply Qfloor_resp_le in H. now rewrite Qfloor_Z in H.
  - eapply Qle_trans; [|apply Qfloor_le]. now rewrite <- Zle_Qle.
Qed.

Lemma floor_lt_le (b : Z) (x : Q) : Qfloor x < b -> (x <= inject_Z b)%Q.
Proof.
  intros H. apply Qlt_le_weak. eapply Qlt_le_trans; [apply Qlt_floor|].
  rewrite <- Zle_Qle. lia.
Qed.

Lemma floor_eq (b : Z) (x : Q) : (x == inject_Z b)%Q -> Qfloor x = b.
Proof. intros E. rewrite E. apply Qfloor_Z. Qed.

(** [round_sqrt] gives the integer nearest to the square root. *)
Lemma round_sqrt_nearest (v : Q) : (0 <= v)%Q -> nearest_to_sqrt v (round_sqrt v).
Proof.
  intros Hv. unfold nearest_to_sqrt, round_sqrt. cbv zeta.
  assert (HF : 0 <= Qfloor (4 * v)).
  { apply (floor_le_iff 0). change (inject_Z 0) with 0%Q.
    apply Qmult_le_0_compat; [discriminate | exact Hv]. }
  pose proof (Z.sqrt_spec _ HF) as Hs. pose proof (Z.sqrt_nonneg (Qfloor (4 * v))) as Hm.
  pose proof (fun a => proj2 (floor_le_iff a (4 * v))) as Hle.
  pose proof (fun b => floor_lt_le b (4 * v)) as Hlt.
  pose proof (fun b => floor_eq b (4 * v)) as Heq.
  set (F := Qfloor (4 * v)) in *. set (m := Z.sqrt F) in *.
  assert (Hb : forall b, (4 * v == inject_Z b)%Q -> b = m * m ->
               Qeq_bool (4 * v) (inject_Z (m * m)) = true).
  { intros b Eb <-. now apply Qeq_bool_iff. }
  assert (Hb' : Qeq_bool (4 * v) (inject_Z (m * m)) = true -> F = m * m).
  { intros E. apply Heq. now apply Qeq_bool_iff. }
  clearbody m F. unfold Z.succ in Hs.
  rewrite (Zodd_mod m), (Zodd_mod ((m + 1) / 2)).
  pose proof (Z.div_mod (m + 1) 2 ltac:(lia)) as Hd.
  pose proof (Z.mod_pos_bound (m + 1) 2 ltac:(lia)) as Hd'.
  pose proof (Z.div_mod m 2 ltac:(lia)) as Hd2.
  pose proof (Z.mod_pos_bound m 2 ltac:(lia)) as Hd2'.
  set (up := (m + 1) / 2) in *. clearbody up.
  assert (Hcase : (m = 2 * up /\ m mod 2 = 0) \/ (m = 2 * up - 1 /\ m mod 2 = 1)) by lia.
  clear Hd Hd' Hd2 Hd2'.
  pose proof (Z.div_mod up 2 ltac:(lia)) as Hd3.
  pose proof (Z.mod_pos_bound up 2 ltac:(lia)) as Hd3'.
  pose proof (Z.div_mod (up - 1) 2 ltac:(lia)) as Hd4.
  pose proof (Z.mod_pos_bound (up - 1) 2 ltac:(lia)) as Hd4'.
  assert (Hr : forall r, Z.even r = true <-> r mod 2 = 0).
  { intros r. now rewrite Zeven_mod, Z.eqb_eq. }
  destruct Hcase as [(Em & Ep) | (Em & Ep)]; rewrite Ep; subst m; clear Ep;
    [change (0 =? 1) with false | change (1 =? 1) with true];
    destruct (Qeq_bool (4 * v) (inject_Z _)) eqn:E;
    [specialize (Hb' eq_refl) | clear Hb' | specialize (Hb' eq_refl) | clear Hb'];
    destruct (Z.eqb_spec (up mod 2) 1) as [Hu|Hu]; cbn [andb];
    (split; [lia|]);
    (split; [intros Hp; apply Hle; nia|]);
    (split; [first [apply Hlt; nia
                  | apply Qeq_bool_iff in E; rewrite E, <- Zle_Qle; nia]|]);
    (split; [intros Eb | intros Hp Eb]);
    pose proof (Heq _ Eb) as EF; apply Hr.
  all: try nia.
  all: pose proof (Hb _ Eb eq_refl); discriminate.
Qed.

(** There is one such integer. *)
Lemma nearest_to_sqrt_unique (v : Q) (r r' : Z) :
  nearest_to_sqrt v r -> nearest_to_sqrt v r' -> r = r'.
Proof.
  assert (H : forall a b, nearest_to_sqrt v a -> nearest_to_sqrt v b -> a < b -> False).
  { intros a b (Ha & _ & Hau & Hat & _) (Hb & Hbl & _ & _ & Hbt) Hlt.
    specialize (Hbl ltac:(lia)). specialize (Hbt ltac:(lia)).
    pose proof (Qle_trans _ _ _ Hbl Hau) as Hle. rewrite <- Zle_Qle in Hle.
    assert (Eb : b = a + 1) by nia. subst b.
    assert (E : (2 * (a + 1) - 1) * (2 * (a + 1) - 1) = (2 * a + 1) * (2 * a + 1)) by ring.
    rewrite E in *.
    assert (Ev : (4 * v == inject_Z ((2 * a + 1) * (2 * a + 1)))%Q)
      by (now apply Qle_antisym).
    specialize (Hat Ev). specialize (Hbt Ev).
    rewrite Z.even_add in Hbt. rewrite Hat in Hbt. discriminate. }
  intros Hr Hr'. destruct (Z.lt_trichotomy r r') as [Hlt | [E | Hlt]];
    [exfalso; eauto | exact E | exfalso; eauto].
Qed.

Lemma Qsum_squares_nonneg (m : Q) (xs : list Q) :
  (0 <= Qsum (map (fun x => (x - m) * (x - m)) xs))%Q.
Proof.
  induction xs as [|x xs IH]; cbn [map Qsum fold_right]; [discriminate|].
  fold (Qsum (map (fun x => (x - m) * (x - m))%Q xs)).
  replace 0%Q with (0 + 0)%Q by reflexivity. apply Qplus_le_compat; [|exact IH].
  destruct (Qlt_le_dec (x - m) 0) as [Hn | Hp].
  - setoid_replace ((x - m) * (x - m))%Q with ((- (x - m)) * (- (x - m)))%Q by ring.
    apply Qmult_le_0_compat; apply (Qopp_le_compat _ 0); now apply Qlt_le_weak.
  - now apply Qmult_le_0_compat.
Qed.

Lemma round_std_spec (row vals : list cell) :
  present row = present vals -> spec_rounded_std vals (round_std row).
Proof.
  intros E. unfold spec_rounded_std, round_std, nanvar. rewrite E. cbv zeta.
  destruct (present vals) as [|x [|y l]] eqn:Ep.
  - split; [reflexivity | cbn [List.length]; lia].
  - split; [reflexivity | cbn [List.length]; lia].
  - split; [cbn [List.length]; lia|]. intros _. cbn [option_map].
    eexists. split; [reflexivity|]. apply round_sqrt_nearest.
    apply Qle_shift_div_l.
    + unfold Qlen. cbn [List.length].
      apply (Qlt_minus_iff 1). rewrite <- (Zlt_Qlt 1). lia.
    + rewrite Qmult_0_l. apply Qsum_squares_nonneg.
Qed.

(** X1: on a series without a repeated timestamp [same_day_hour_moving_average]
    returns a frame on the hourly grid from the first to the last timestamp;
    the column of every feature that has a lag left holds, in the row of
    time [t], the sum of the values that are not missing among those [h]
    hours before [t], for the lags [h] of the feature, divided by their
    number and rounded; the cell is missing when all those values are. *)
Theorem moving_average_feature_column (dt : list Z) (v : list cell)
    (window_size start_week average_count fct : Z) (prefix : string) (mn mx : Z) :
  py_min dt = Ok mn -> py_max dt = Ok mx ->
  has_duplicates dt = false -> List.length dt = List.length v ->
  exists max_diff out,
    py_maxQ (map (fun t => timedelta_hours (t - fct)) (date_range_H mn mx)) = Ok max_diff /\
    same_day_hour_moving_average dt v window_size start_week average_count fct prefix =
    Ok out /\
    index out = date_range_H mn mx /\
    forall i, 0 <= i < average_count ->
      hour_lags (start_week + i) window_size max_diff <> [] ->
      exists col,
        get_col out (prefix ++ str (start_week + i)) = Ok col /\
        Forall2 (fun t c =>
                   spec_rounded_mean
                     (map (value_hours_before dt v mn mx t)
                          (hour_lags (start_week + i) window_size max_diff)) c)
                (date_range_H mn mx) col.
Proof.
  intros Hmin Hmax Hdup Hlen.
  destruct (guarded_feature_column (fun row => round_cell (nanmean row))
              ["fct_diff"; "value"]%string dt v window_size start_week average_count fct
              prefix mn mx Hmin Hmax Hdup Hlen (or_introl eq_refl))
    as (md & out & Hmd & Hfm & Hrun & Hidx & Hcol).
  exists md, out. split; [exact Hmd|]. split; [|split; [exact Hidx|]].
  - unfold same_day_hour_moving_average. rewrite Hfm. cbn [bind fst snd]. exact Hrun.
  - intros i Hi Hl. eexists. split; [apply (Hcol i Hi Hl)|].
    unfold feature_column. apply Forall2_map_fun. intros t _.
    now apply round_mean_spec.
Qed.

Lemma moving_average_feature_column_witness :
  exists max_diff out,
    py_maxQ (map (fun t => timedelta_hours (t - 1224000)) (date_range_H 0 1220400)) =
    Ok max_diff /\
    same_day_hour_moving_average two_weeks_and_four_hours half_values 2 1 1 1224000 "avg_" =
    Ok out /\
    index out = date_range_H 0 1220400 /\
    forall i, 0 <= i < 1 ->
      hour_lags (1 + i) 2 max_diff <> [] ->
      exists col,
        get_col out ("avg_" ++ str (1 + i)) = Ok col /\
        Forall2 (fun t c =>
                   spec_rounded_mean
                     (map (value_hours_before two_weeks_and_four_hours half_values
                                              0 1220400 t)
                          (hour_lags (1 + i) 2 max_diff)) c)
                (date_range_H 0 1220400) col.
Proof.
  apply (moving_average_feature_column two_weeks_and_four_hours half_values 2 1 1 1224000
           "avg_"); vm_compute; reflexivity.
Defined.

(** With a forecast creation time after the last row, the feature of the
    first week has the lags of 168 and 336 hours. The rows of the first
    week have no value, those of the second week the value of one week
    before, and the last four rows the rounded mean of two values: 42 for
    84 and 0, 42 for 84.5 and 0.5, 44 for 85.5 and 1.5. *)
Example moving_average_two_weeks :
  hour_lags 1 2 (-1) = [168; 336] /\
  (out <- same_day_hour_moving_average two_weeks_and_four_hours half_values 2 1 1 1224000
                                       "avg_" ;;
   col <- get_col out "avg_1" ;;
   Ok (map (fun i => nth i col None) [0; 168; 336; 337; 339]%nat)) =
  Ok [None; Some 0%Q; Some 42%Q; Some 42%Q; Some 44%Q].
Proof. split; vm_compute; reflexivity. Qed.

(** X2: the same of [same_day_hour_moving_std] with the rounded sample
    standard deviation: with the mean [m] of the values that are not
    missing, the integer nearest to the square root of the sum of the
    squares of their distances to [m] divided by their number minus one;
    the cell is missing when fewer than two of the values are not. *)
Theorem moving_std_feature_column (dt : list Z) (v : list cell)
    (window_size start_week std_count fct : Z) (prefix : string) (mn mx : Z) :
  py_min dt = Ok mn -> py_max dt = Ok mx ->
  has_duplicates dt = false -> List.length dt = List.length v ->
  exists max_diff out,
    py_maxQ (map (fun t => timedelta_hours (t - fct)) (date_range_H mn mx)) = Ok max_diff /\
    same_day_hour_moving_std dt v window_size start_week std_count fct prefix = Ok out /\
    index out = date_range_H mn mx /\
    forall i, 0 <= i < std_count ->
      hour_lags (start_week + i) window_size max_diff <> [] ->
      exists col,
        get_col out (prefix ++ str (start_week + i)) = Ok col /\
        Forall2 (fun t c =>
                   spec_rounded_std
                     (map (value_hours_before dt v mn mx t)
                          (hour_lags (start_week + i) window_size max_diff)) c)
                (date_range_H mn mx) col.
Proof.
  intros Hmin Hmax Hdup Hlen.
  destruct (guarded_feature_column round_std
              ["value"; "fct_diff"]%string dt v window_size start_week std_count fct
              prefix mn mx Hmin Hmax Hdup Hlen (or_intror eq_refl))
    as (md & out & Hmd & Hfm & Hrun & Hidx & Hcol).
  exists md, out. split; [exact Hmd|]. split; [|split; [exact Hidx|]].
  - unfold same_day_hour_moving_std. rewrite Hfm. cbn [bind fst snd]. exact Hrun.
  - intros i Hi Hl. eexists. split; [apply (Hcol i Hi Hl)|].
    unfold feature_column. apply Forall2_map_fun. intros t _.
    now apply round_std_spec.
Qed.

Lemma moving_std_feature_column_witness :
  exists max_diff out,
    py_maxQ (map (fun t => timedelta_hours (t - 1224000)) (date_range_H 0 1220400)) =
    Ok max_diff /\
    same_day_hour_moving_std two_weeks_and_four_hours half_values 2 1 1 1224000 "std_" =
    Ok out /\
    index out = date_range_H 0 1220400 /\
    forall i, 0 <= i < 1 ->
      hour_lags (1 + i) 2 max_diff <> [] ->
      exists col,
        get_col out ("std_" ++ str (1 + i)) = Ok col /\
        Forall2 (fun t c =>
                   spec_rounded_std
                     (map (value_hours_before two_weeks_and_four_hours half_values
                                              0 1220400 t)
                          (hour_lags (1 + i) 2 max_diff)) c)
                (date_range_H 0 1220400) col.
Proof.
  apply (moving_std_feature_column two_weeks_and_four_hours half_values 2 1 1 1224000
           "std_"); vm_compute; reflexivity.
Defined.

(** The rows with one value or none have no standard deviation; the last
    four rows have that of two values 84 apart, the square root of 3528,
    rounded to 59. *)
Example moving_std_two_weeks :
  (out <- same_day_hour_moving_std two_weeks_and_four_hours half_values 2 1 1 1224000
                                   "std_" ;;
   col <- get_col out "std_1" ;;
   Ok (map (fun i => nth i col None) [0; 168; 336; 337; 339]%nat)) =
  Ok [None; None; Some 59%Q; Some 59%Q; Some 59%Q] /\
  nearest_to_sqrt 3528 59.
Proof.
  split; [vm_compute; reflexivity|].
  unfold nearest_to_sqrt. repeat split; try discriminate; intros; try discriminate; lia.
Qed.

(** ** Witnesses of the lemmas on the moving aggregates and the sequences *)

Lemma moving_features_ignore_future_values_witness :
  same_day_hour_moving_average two_hours two_values 1 1 1 3600 "f" =
  same_day_hour_moving_average two_hours [Some 1%Q; Some 5%Q] 1 1 1 3600 "f" /\
  same_day_hour_moving_quantile two_hours two_values 1 1 1 (1 # 2) 3600 "f" =
  same_day_hour_moving_quantile two_hours [Some 1%Q; Some 5%Q] 1 1 1 (1 # 2) 3600 "f" /\
  same_day_hour_moving_std two_hours two_values 1 1 1 3600 "f" =
  same_day_hour_moving_std two_hours [Some 1%Q; Some 5%Q] 1 1 1 3600 "f" /\
  same_day_hour_moving_agg two_hours two_values 1 1 1 3600 "mean" None "f" =
  same_day_hour_moving_agg two_hours [Some 1%Q; Some 5%Q] 1 1 1 3600 "mean" None "f".
Proof.
  apply (moving_features_ignore_future_values 3600 two_hours two_values
           [Some 1%Q; Some 5%Q] 1 1 1 (1 # 2) "mean" None "f").
  split; [reflexivity|].
  intros [|[|[|i]]] t Hi Ht; simpl in Hi; inversion Hi; subst; [reflexivity | lia].
Defined.

Lemma moving_quantile_raises_witness :
  same_day_hour_moving_quantile week_and_two_hours week_values 1 1 1 (1 # 2) 0 "q_" =
  Raise UnboundLocalError.
Proof.
  eapply (moving_quantile_raises week_and_two_hours week_values 1 1 1 (1 # 2) 0 "q_").
  - vm_compute. reflexivity.
  - lia.
  - vm_compute. reflexivity.
Defined.

Lemma moving_average_omits_feature_witness :
  exists out,
    same_day_hour_moving_average week_and_two_hours week_values 1 1 1 0 "avg_" = Ok out /\
    has_col out ("avg_" ++ str (1 + 0)) = false.
Proof.
  eexists. split; [vm_compute; reflexivity|].
  eapply (moving_average_omits_feature week_and_two_hours week_values 1 1 1 0 "avg_");
    vm_compute; reflexivity.
Defined.

Lemma moving_std_omits_feature_witness :
  exists out,
    same_day_hour_moving_std week_and_two_hours week_values 1 1 1 0 "std_" = Ok out /\
    has_col out ("std_" ++ str (1 + 0)) = false.
Proof.
  eexists. split; [vm_compute; reflexivity|].
  eapply (moving_std_omits_feature week_and_two_hours week_values 1 1 1 0 "std_");
    vm_compute; reflexivity.
Defined.

Lemma gen_sequence_whole_windows_witness :
  exists data_array ws,
    gen_sequence (ten_rows 1 1) 3 ["x"%string] 0 (Some 9) = Ok ws /\
    ws = map (fun i => firstn (Z.to_nat 3) (skipn (Z.to_nat i) data_array))
             (range 0 (9 - 3 + 2)) /\
    List.length ws = Z.to_nat (9 - 3 + 2 - 0) /\
    Forall (fun w => List.length w = Z.to_nat 3) ws.
Proof.
  eexists.
  eapply (gen_sequence_whole_windows (ten_rows 1 1) 3 ["x"%string] 0 9);
    [vm_compute; reflexivity | lia | lia | vm_compute; reflexivity].
Defined.

Lemma gen_sequence_default_short_window_witness :
  exists ws w,
    gen_sequence (ten_rows 1 1) 3 ["x"%string] 0 None = Ok ws /\
    List.length ws = Z.to_nat (Z.of_nat (List.length (ten_rows 1 1)) - 3 + 2) /\
    In w ws /\ List.length w = Z.to_nat (3 - 1).
Proof.
  eapply (gen_sequence_default_short_window (ten_rows 1 1) 3 ["x"%string]);
    [vm_compute; reflexivity | vm_compute; split; discriminate].
Defined.

(** X9: a repeated timestamp makes the four generators of moving
    aggregates raise a [ValueError]: the frame cannot be put on the hourly
    grid. *)
Theorem moving_features_reject_duplicates (dt : list Z) (v : list cell)
    (window_size start_week count fct : Z) (q : Q) (agg_func : string) (oq : option Q)
    (prefix : string) :
  has_duplicates dt = true ->
  same_day_hour_moving_average dt v window_size start_week count fct prefix =
  Raise ValueError /\
  same_day_hour_moving_quantile dt v window_size start_week count q fct prefix =
  Raise ValueError /\
  same_day_hour_moving_std dt v window_size start_week count fct prefix =
  Raise ValueError /\
  same_day_hour_moving_agg dt v window_size start_week count fct agg_func oq prefix =
  Raise ValueError.
Proof.
  intros Hdup.
  assert (Hfm : moving_frame dt v fct = Raise ValueError)
    by (apply moving_frame_raises; right; left; exact Hdup).
  unfold same_day_hour_moving_average, same_day_hour_moving_quantile,
    same_day_hour_moving_std, same_day_hour_moving_agg.
  rewrite Hfm. repeat split; reflexivity.
Qed.

Lemma moving_features_reject_duplicates_witness :
  same_day_hour_moving_average [0; 3600; 0] [Some 1%Q; Some 2%Q; Some 3%Q] 1 1 1 0 "f" =
  Raise ValueError /\
  same_day_hour_moving_quantile [0; 3600; 0] [Some 1%Q; Some 2%Q; Some 3%Q] 1 1 1 (1 # 2) 0 "f" =
  Raise ValueError /\
  same_day_hour_moving_std [0; 3600; 0] [Some 1%Q; Some 2%Q; Some 3%Q] 1 1 1 0 "f" =
  Raise ValueError /\
  same_day_hour_moving_agg [0; 3600; 0] [Some 1%Q; Some 2%Q; Some 3%Q] 1 1 1 0 "mean" None "f" =
  Raise ValueError.
Proof.
  apply (moving_features_reject_duplicates [0; 3600; 0] [Some 1%Q; Some 2%Q; Some 3%Q]
           1 1 1 0 (1 # 2) "mean" None "f").
  reflexivity.
Defined.

(** ** [day_type] with a holiday column *)

Lemma nth_error_mask_assign {A : Type} (mask : list bool) (v : A) (col : list A) (i : nat) :
  nth_error (mask_assign mask v col) i =
  match nth_error col i with
  | Some x => Some (match nth_error mask i with Some true => v | _ => x end)
  | None => None
  end.
Proof.
  revert mask i. induction col as [|x col IH]; intros mask i.
  - destruct mask; simpl; now destruct i.
  - destruct mask as [|b mask].
    + simpl. destruct (nth_error (x :: col) i); [|reflexivity]. now destruct i.
    + destruct i as [|i]; simpl; [now destruct b | apply IH].
Qed.

Lemma In_mask_select {A : Type} (mask : list bool) (col : list A) (x : A) :
  In x (mask_select mask col) <->
  exists j, nth_error mask j = Some true /\ nth_error col j = Some x.
Proof.
  revert mask. induction col as [|y col IH]; intros mask.
  - destruct mask; simpl; (split; [intros [] | intros (j & _ & H); now destruct j]).
  - destruct mask as [|b mask].
    + simpl. split; [intros [] | intros (j & H & _); now destruct j].
    + simpl. destruct b.
      * simpl. rewrite IH. split.
        -- intros [<- | (j & H1 & H2)]; [now exists 0%nat | now exists (S j)].
        -- intros ([|j] & H1 & H2); simpl in *; [left; congruence | right; eauto].
      * rewrite IH. split.
        -- intros (j & H1 & H2). now exists (S j).
        -- intros ([|j] & H1 & H2); simpl in *; [discriminate | eauto].
Qed.

Lemma In_date_range_D (a b x : Z) :
  In x (date_range_D a b) <-> exists k, 0 <= k /\ x = a + k * 86400 /\ x <= b.
Proof.
  unfold date_range_D. rewrite in_map_iff. split.
  - intros (k & <- & Hk). apply In_range in Hk. exists k.
    split; [lia|]. split; [reflexivity|].
    pose proof (Z.mul_div_le (b - a) 86400 ltac:(lia)) as Hd.
    remember ((b - a) / 86400) as q. lia.
  - intros (k & Hk & -> & Hle). exists k. split; [reflexivity|].
    apply In_range. split; [lia|].
    assert (k <= (b - a) / 86400) by (apply Z.div_le_lower_bound; lia). lia.
Qed.

Lemma In_holiday_dates (datetime_col : list datetime) (holiday_col : list Z) (d : Z) :
  In d (holiday_dates datetime_col holiday_col) <->
  exists j dt h, nth_error datetime_col j = Some dt /\ nth_error holiday_col j = Some h /\
                 0 < h /\ date_of dt = d.
Proof.
  unfold holiday_dates. rewrite In_mask_select. split.
  - intros (j & H1 & H2). rewrite nth_error_map in H1, H2.
    destruct (nth_error holiday_col j) as [h|] eqn:Eh; [|discriminate].
    destruct (nth_error datetime_col j) as [dt|] eqn:Ed; [|discriminate].
    simpl in *. exists j, dt, h. injection H1 as H1. injection H2 as H2.
    apply Z.ltb_lt in H1. repeat split; auto.
  - intros (j & dt & h & H1 & H2 & Hh & <-). exists j.
    rewrite !nth_error_map, H1, H2. simpl. split; [|reflexivity].
    f_equal. now apply Z.ltb_lt.
Qed.

(** The code of a row of [day_type] with a holiday column. *)
Lemma day_type_row (datetime_col : list datetime) (holiday_col : list Z)
    (semi_holiday_offset : Z) (i : nat) (dt : datetime) (h : Z) :
  nth_error datetime_col i = Some dt -> nth_error holiday_col i = Some h ->
  exists x,
    nth_error (day_type datetime_col (Some holiday_col) semi_holiday_offset) i = Some x /\
    (0 < h -> x = HOLIDAY_CODE) /\
    (h <= 0 ->
     semi_holiday_date datetime_col holiday_col semi_holiday_offset (date_of dt) ->
     x = SEMI_HOLIDAY_CODE) /\
    (h <= 0 ->
     ~ semi_holiday_date datetime_col holiday_col semi_holiday_offset (date_of dt) ->
     x = replace WEEK_DAY_TYPE_MAP (dayofweek dt)).
Proof.
  intros Hdt Hh. unfold day_type. fold (holiday_dates datetime_col holiday_col).
  set (semi := filter _ _).
  assert (Hsemi : memZ (date_of dt) semi = true <->
                  semi_holiday_date datetime_col holiday_col semi_holiday_offset (date_of dt)).
  { rewrite memZ_In. unfold semi, semi_holiday_date. rewrite filter_In, in_flat_map.
    rewrite negb_true_iff, <- not_true_iff_false, memZ_In. tauto. }
  rewrite !nth_error_mask_assign, !nth_error_map, Hdt, Hh. cbn [option_map].
  eexists. split; [reflexivity|].
  destruct (memZ (date_of dt) semi) eqn:E.
  - assert (Hs : semi_holiday_date datetime_col holiday_col semi_holiday_offset (date_of dt))
      by now apply Hsemi.
    split; [|split; [reflexivity | contradiction]].
    intros Hpos. exfalso. apply (proj1 Hs). apply In_holiday_dates. now exists i, dt, h.
  - assert (Hs : ~ semi_holiday_date datetime_col holiday_col semi_holiday_offset (date_of dt))
      by (rewrite <- Hsemi; discriminate).
    destruct (Z.ltb_spec 0 h); (split; [|split]); try reflexivity; try lia; tauto.
Qed.

Lemma semi_holiday_whole_days (datetime_col : list datetime) (holiday_col : list Z)
    (n : Z) (dt : datetime) :
  semi_holiday_date datetime_col holiday_col (n * 86400) (date_of dt) <->
  ~ flagged_date datetime_col holiday_col 0 dt /\
  flagged_date datetime_col holiday_col n dt.
Proof.
  unfold semi_holiday_date, flagged_date. rewrite In_holiday_dates. split.
  - intros (Hno & d' & Hd' & Hin). apply In_holiday_dates in Hd'.
    destruct Hd' as (j & dt' & h' & H1 & H2 & H3 & <-).
    apply In_date_range_D in Hin. destruct Hin as (k & Hk & E & Hle).
    unfold date_of in *. split.
    + intros (j0 & dt0 & h0 & G1 & G2 & G3 & G4). apply Hno.
      exists j0, dt0, h0. repeat split; auto. f_equal. lia.
    + exists j, dt', h'. repeat split; auto. lia.
  - intros (Hno & j & dt' & h' & H1 & H2 & H3 & H4). split.
    + intros (j0 & dt0 & h0 & G1 & G2 & G3 & G4). apply Hno.
      exists j0, dt0, h0. repeat split; auto. unfold date_of in G4. lia.
    + exists (date_of dt'). split.
      * apply In_holiday_dates. now exists j, dt', h'.
      * apply In_date_range_D. unfold date_of.
        exists (toordinal dt - toordinal dt' + n). lia.
Qed.

(** X10: [day_type] with a holiday column and an offset of [n] whole days.
    A row flagged as a holiday has the code 7. Another row has the code 8
    when its date is not the date of a flagged row and lies within [n] days
    of one, and the code of its day of the week otherwise. *)
Theorem day_type_holidays (datetime_col : list datetime) (holiday_col : list Z)
    (n : Z) (i : nat) (dt : datetime) (h : Z) :
  nth_error datetime_col i = Some dt -> nth_error holiday_col i = Some h ->
  exists x,
    nth_error (day_type datetime_col (Some holiday_col) (n * 86400)) i = Some x /\
    (0 < h -> x = HOLIDAY_CODE) /\
    (h <= 0 -> ~ flagged_date datetime_col holiday_col 0 dt ->
     flagged_date datetime_col holiday_col n dt -> x = SEMI_HOLIDAY_CODE) /\
    (h <= 0 ->
     flagged_date datetime_col holiday_col 0 dt \/
     ~ flagged_date datetime_col holiday_col n dt ->
     x = replace WEEK_DAY_TYPE_MAP (dayofweek dt)).
Proof.
  intros Hdt Hh.
  destruct (day_type_row datetime_col holiday_col (n * 86400) i dt h Hdt Hh)
    as (x & Hx & H7 & H8 & Hw).
  exists x. split; [exact Hx|]. split; [exact H7|]. split.
  - intros Hle Hno Hnear. apply H8; [exact Hle|].
    apply semi_holiday_whole_days. now split.
  - intros Hle Hor. apply Hw; [exact Hle|].
    rewrite semi_holiday_whole_days. tauto.
Qed.

(** X11: with an offset that is negative or no whole number of days no
    row has the code 8. *)
Theorem day_type_no_semi_holiday (datetime_col : list datetime) (holiday_col : list Z)
    (semi_holiday_offset : Z) :
  semi_holiday_offset < 0 \/ semi_holiday_offset mod 86400 <> 0 ->
  Forall (fun x => x <> SEMI_HOLIDAY_CODE)
         (day_type datetime_col (Some holiday_col) semi_holiday_offset).
Proof.
  intros Hoff. apply Forall_forall. intros x Hx.
  apply In_nth_error in Hx. destruct Hx as (i & Hx). revert Hx.
  unfold day_type. fold (holiday_dates datetime_col holiday_col).
  set (semi := filter _ _).
  rewrite !nth_error_mask_assign, !nth_error_map.
  destruct (nth_error datetime_col i) as [dt|]; cbn [option_map]; [|discriminate].
  assert (Hsemi : memZ (date_of dt) semi = false).
  { apply not_true_iff_false. rewrite memZ_In. unfold semi.
    rewrite filter_In, in_flat_map. intros ((d' & Hd' & Hin) & _).
    apply In_holiday_dates in Hd'. destruct Hd' as (j & dt' & h' & _ & _ & _ & <-).
    apply In_date_range_D in Hin. destruct Hin as (k & Hk & E & Hle).
    unfold date_of in *. destruct Hoff as [Hneg | Hmod]; [lia|]. apply Hmod.
    replace semi_holiday_offset with ((toordinal dt' + k - toordinal dt) * 86400) by lia.
    apply Z.mod_mul. lia. }
  rewrite Hsemi. intros E. injection E as <-.
  pose proof (replace_week_day_type (dayofweek dt) (dayofweek_bounds dt)) as Hin.
  unfold plain_day_types, HOLIDAY_CODE, SEMI_HOLIDAY_CODE in *. simpl in Hin.
  destruct (option_map _ _) as [[|]|]; lia.
Qed.

Lemma day_type_holidays_witness :
  exists x,
    nth_error (day_type july_days (Some july_holidays) (1 * 86400)) 2 = Some x /\
    (0 < 0 -> x = HOLIDAY_CODE) /\
    (0 <= 0 -> ~ flagged_date july_days july_holidays 0 (mkdatetime 2017 7 5 0 0 0) ->
     flagged_date july_days july_holidays 1 (mkdatetime 2017 7 5 0 0 0) ->
     x = SEMI_HOLIDAY_CODE) /\
    (0 <= 0 ->
     flagged_date july_days july_holidays 0 (mkdatetime 2017 7 5 0 0 0) \/
     ~ flagged_date july_days july_holidays 1 (mkdatetime 2017 7 5 0 0 0) ->
     x = replace WEEK_DAY_TYPE_MAP (dayofweek (mkdatetime 2017 7 5 0 0 0))).
Proof.
  apply (day_type_holidays july_days july_holidays 1 2 (mkdatetime 2017 7 5 0 0 0) 0);
    reflexivity.
Defined.

Lemma day_type_no_semi_holiday_witness :
  Forall (fun x => x <> SEMI_HOLIDAY_CODE) (day_type july_days (Some july_holidays) 43200).
Proof.
  apply (day_type_no_semi_holiday july_days july_holidays 43200).
  right. vm_compute. discriminate.
Defined.

Example day_type_july :
  day_type july_days (Some july_holidays) 86400 = [8; 7; 8] /\
  day_type july_days (Some july_holidays) 43200 = [0; 7; 2].
Proof. split; reflexivity. Qed.

(** ** [week_of_month] *)

Lemma Qceiling_div7 (a : Z) : Qceiling (inject_Z a / 7) = (a + 6) / 7.
Proof.
  unfold Qceiling, Qfloor, Qdiv, Qmult, Qinv, Qopp, inject_Z. simpl.
  rewrite Z.mul_1_r. Z.div_mod_to_equations. lia.
Qed.

Lemma dayofweek_replace_day (dt : datetime) (d : Z) :
  dayofweek (replace_day dt d) = (dayofweek (replace_day dt 1) + d - 1) mod 7.
Proof.
  unfold dayofweek, toordinal, replace_day. cbn [year month day].
  set (b := days_before_year _ + _). Z.div_mod_to_equations. lia.
Qed.

(** X12: the week of the month of a date of a month is between 1 and 6, it
    is 1 on the first day, and from one day to the next it grows by one
    when the next day is a Monday and stays the same otherwise. *)
Theorem week_of_month_mondays (dt : datetime) :
  1 <= day dt <= days_in_month (year dt) (month dt) ->
  1 <= _week_of_month dt <= 6 /\
  _week_of_month (replace_day dt 1) = 1 /\
  _week_of_month (replace_day dt (day dt + 1)) =
  _week_of_month dt + (if dayofweek (replace_day dt (day dt + 1)) =? 0 then 1 else 0).
Proof.
  intros Hd. pose proof (days_in_month_bounds (year dt) (month dt)) as Hm.
  unfold _week_of_month. cbv zeta. rewrite !Qceiling_div7.
  rewrite (dayofweek_replace_day dt (day dt + 1)).
  replace (replace_day (replace_day dt 1) 1) with (replace_day dt 1) by reflexivity.
  replace (replace_day (replace_day dt (day dt + 1)) 1) with (replace_day dt 1)
    by reflexivity.
  cbn [day replace_day].
  pose proof (dayofweek_bounds (replace_day dt 1)) as Hw.
  fold (replace_day dt 1).
  set (w := dayofweek (replace_day dt 1)) in *.
  destruct (Z.eqb_spec ((w + (day dt + 1) - 1) mod 7) 0) as [E|E];
    Z.div_mod_to_equations; lia.
Qed.

Lemma week_of_month_mondays_witness :
  1 <= _week_of_month (mkdatetime 2017 7 2 0 0 0) <= 6 /\
  _week_of_month (replace_day (mkdatetime 2017 7 2 0 0 0) 1) = 1 /\
  _week_of_month (replace_day (mkdatetime 2017 7 2 0 0 0) (2 + 1)) =
  _week_of_month (mkdatetime 2017 7 2 0 0 0) +
  (if dayofweek (replace_day (mkdatetime 2017 7 2 0 0 0) (2 + 1)) =? 0 then 1 else 0).
Proof.
  apply (week_of_month_mondays (mkdatetime 2017 7 2 0 0 0)). vm_compute.
  split; discriminate.
Defined.

(** ** The position in a period *)

Lemma ratio_in_period (a b : Z) :
  0 < b -> position_in_period a b (inject_Z a / inject_Z b).
Proof.
  intros Hb. assert (Hq : (0 < inject_Z b)%Q) by (rewrite <- (Zlt_Qlt 0); exact Hb).
  assert (Hne : ~ (inject_Z b == 0)%Q) by (intros E; rewrite E in Hq; discriminate).
  unfold position_in_period. split; [reflexivity|]. split; [|split].
  - intros ->. now field.
  - intros ->. now field.
  - intros (H0 & H1). split.
    + apply Qle_shift_div_l; [exact Hq|]. rewrite Qmult_0_l.
      rewrite <- (Zle_Qle 0). exact H0.
    + apply Qle_shift_div_r; [exact Hq|]. rewrite Qmult_1_l.
      rewrite <- Zle_Qle. exact H1.
Qed.

(** X13: [normalized_current_year] for [min_year < max_year] gives, for a
    row of year [y], the quotient of [y - min_year] by
    [max_year - min_year]: 0 in [min_year], 1 in [max_year], and between
    the two for a year between them. For [min_year = max_year] it returns
    the integer 0 and no column. *)
Theorem normalized_current_year_range (datetime_col : list datetime) (min_year max_year : Z) :
  min_year < max_year ->
  normalized_current_year datetime_col min_year min_year = Scalar 0 /\
  exists vs,
    normalized_current_year datetime_col min_year max_year = Series vs /\
    Forall2 (fun dt v => position_in_period (year dt - min_year) (max_year - min_year) v)
            datetime_col vs.
Proof.
  intros Hlt. unfold normalized_current_year. rewrite Z.eqb_refl. split; [reflexivity|].
  destruct (Z.eqb_spec max_year min_year); [lia|]. cbn [negb].
  eexists. split; [reflexivity|]. rewrite map_map.
  induction datetime_col as [|dt l IH]; constructor; [|exact IH].
  apply ratio_in_period. lia.
Qed.

Lemma normalized_current_year_range_witness :
  normalized_current_year [mkdatetime 2015 3 1 0 0 0; mkdatetime 2017 3 1 0 0 0] 2015 2015 =
  Scalar 0 /\
  exists vs,
    normalized_current_year [mkdatetime 2015 3 1 0 0 0; mkdatetime 2017 3 1 0 0 0]
                            2015 2017 = Series vs /\
    Forall2 (fun dt v => position_in_period (year dt - 2015) (2017 - 2015) v)
            [mkdatetime 2015 3 1 0 0 0; mkdatetime 2017 3 1 0 0 0] vs.
Proof.
  apply (normalized_current_year_range
           [mkdatetime 2015 3 1 0 0 0; mkdatetime 2017 3 1 0 0 0] 2015 2017).
  lia.
Defined.

(** X14: [normalized_current_date] for [min_date] before [max_date] gives,
    for a row of date [d], the quotient of the days from [min_date] to [d]
    by the days from [min_date] to [max_date]; the time of the day does
    not count. For [min_date = max_date] it returns the integer 0. *)
Theorem normalized_current_date_range (datetime_col : list datetime) (min_date max_date : Z) :
  min_date < max_date ->
  normalized_current_date datetime_col min_date min_date = Scalar 0 /\
  exists vs,
    normalized_current_date datetime_col min_date max_date = Series vs /\
    Forall2 (fun dt v => position_in_period (toordinal dt - min_date) (max_date - min_date) v)
            datetime_col vs.
Proof.
  intros Hlt. unfold normalized_current_date. rewrite Z.eqb_refl. split; [reflexivity|].
  destruct (Z.eqb_spec max_date min_date); [lia|]. cbn [negb].
  eexists. split; [reflexivity|]. rewrite !map_map.
  induction datetime_col as [|dt l IH]; constructor; [|exact IH].
  apply ratio_in_period. lia.
Qed.

Lemma normalized_current_date_range_witness :
  normalized_current_date july_days 736513 736513 = Scalar 0 /\
  exists vs,
    normalized_current_date july_days 736513 736515 = Series vs /\
    Forall2 (fun dt v => position_in_period (toordinal dt - 736513) (736515 - 736513) v)
            july_days vs.
Proof.
  apply (normalized_current_date_range july_days 736513 736515). lia.
Defined.

Example july_ordinals : map toordinal july_days = [736513; 736514; 736515].
Proof. reflexivity. Qed.

Lemma timedelta_hours_ratio (x : Z) : (timedelta_hours x == inject_Z x / 3600)%Q.
Proof. rewrite <- timedelta_hours_eq. now field. Qed.

Lemma timedelta_hours_sign (x : Z) :
  Qeq_bool (timedelta_hours x) 0 = (x =? 0) /\
  Qle_bool 0 (timedelta_hours x) = (0 <=? x).
Proof.
  split.
  - destruct (Z.eqb_spec x 0) as [->|Hne]; [reflexivity|].
    apply not_true_iff_false. intros E. apply Qeq_bool_iff in E.
    rewrite timedelta_hours_ratio in E. apply Hne.
    assert (H : (inject_Z x == 0)%Q) by (rewrite <- (Qmult_0_l 3600), <- E; now field).
    apply (inject_Z_injective x 0). exact H.
  - destruct (Z.leb_spec 0 x) as [H|H].
    + apply Qle_bool_iff. rewrite timedelta_hours_ratio.
      apply Qle_shift_div_l; [reflexivity|]. rewrite Qmult_0_l.
      rewrite <- (Zle_Qle 0). exact H.
    + apply not_true_iff_false. intros E. apply Qle_bool_iff in E.
      rewrite timedelta_hours_ratio in E.
      assert (G : (0 <= inject_Z x)%Q).
      { rewrite <- (Qmult_0_l 3600).
        setoid_replace (inject_Z x) with (inject_Z x / 3600 * 3600)%Q by now field.
        apply Qmult_le_compat_r; [exact E | discriminate]. }
      rewrite <- (Zle_Qle 0) in G. lia.
Qed.

(** X15: [normalized_current_datehour] for [min_datehour] before
    [max_datehour] gives, for a row of time [t], the quotient of the hours
    from [min_datehour] to [t] by the hours of the period. *)
Theorem normalized_current_datehour_range (datetime_col : list Z)
    (min_datehour max_datehour : Z) :
  min_datehour < max_datehour ->
  exists vs,
    normalized_current_datehour datetime_col min_datehour max_datehour = Series vs /\
    Forall2 (fun t v => exists q, v = Fin q /\
                        position_in_period (t - min_datehour)
                                           (max_datehour - min_datehour) q)
            datetime_col vs.
Proof.
  intros Hlt. unfold normalized_current_datehour. cbv zeta.
  unfold timedelta_ne_int. eexists. split; [reflexivity|]. rewrite map_map.
  unfold np_divide. rewrite (proj1 (timedelta_hours_sign _)).
  destruct (Z.eqb_spec (max_datehour - min_datehour) 0); [lia|].
  induction datetime_col as [|t l IH]; constructor; [|exact IH].
  eexists. split; [reflexivity|].
  pose proof (ratio_in_period (t - min_datehour) (max_datehour - min_datehour)
                ltac:(lia)) as H.
  assert (Hq : (0 < inject_Z (max_datehour - min_datehour))%Q)
    by (rewrite <- (Zlt_Qlt 0); lia).
  assert (Hne : ~ (inject_Z (max_datehour - min_datehour) == 0)%Q)
    by (intros E; rewrite E in Hq; discriminate).
  assert (E : (timedelta_hours (t - min_datehour) /
               timedelta_hours (max_datehour - min_datehour) ==
               inject_Z (t - min_datehour) / inject_Z (max_datehour - min_datehour))%Q).
  { rewrite !timedelta_hours_ratio. now field. }
  unfold position_in_period in *. rewrite E. exact H.
Qed.

Lemma normalized_current_datehour_range_witness :
  exists vs,
    normalized_current_datehour two_hours 0 3600 = Series vs /\
    Forall2 (fun t v => exists q, v = Fin q /\ position_in_period (t - 0) (3600 - 0) q)
            two_hours vs.
Proof. apply (normalized_current_datehour_range two_hours 0 3600). lia. Defined.

(** X16: for a period of one point, [min_datehour = max_datehour],
    [normalized_current_datehour] does not return 0: the difference of the
    two is a [timedelta], which is never equal to the integer 0, so the
    column is divided by zero hours; its rows are [NaN] at that point and
    infinite elsewhere. *)
Theorem normalized_current_datehour_single_point (datetime_col : list Z) (datehour : Z) :
  exists vs,
    normalized_current_datehour datetime_col datehour datehour = Series vs /\
    Forall2 (fun t v => (t = datehour -> v = Nan) /\ (datehour < t -> v = Inf) /\
                        (t < datehour -> v = NegInf))
            datetime_col vs.
Proof.
  unfold normalized_current_datehour. cbv zeta. unfold timedelta_ne_int.
  eexists. split; [reflexivity|]. rewrite map_map, Z.sub_diag.
  induction datetime_col as [|t l IH]; constructor; [|exact IH].
  unfold np_divide. destruct (timedelta_hours_sign (t - datehour)) as (-> & ->).
  change (Qeq_bool (timedelta_hours 0) 0) with true. cbv iota.
  destruct (Z.eqb_spec (t - datehour) 0), (Z.leb_spec 0 (t - datehour));
    repeat split; intros; try reflexivity; lia.
Qed.

(** ** [normalized_columns] *)

(** X17: a [mode] other than ["log"] and ["minmax"] is a [ValueError]. *)
Theorem normalized_columns_invalid_mode (np_log : Q -> cell) (datetime_col : list Z)
    (value_col : list cell) (mode output_colname : string) :
  mode <> "log"%string -> mode <> "minmax"%string ->
  normalized_columns np_log datetime_col value_col mode output_colname = Raise ValueError.
Proof.
  intros H1 H2. unfold normalized_columns.
  destruct (new_frame datetime_col value_col) as [df|e] eqn:E.
  - cbn [bind]. apply String.eqb_neq in H1, H2. now rewrite H1, H2.
  - unfold new_frame in E. destruct (Nat.eqb _ _); [discriminate|]. now inversion E.
Qed.

Lemma normalized_columns_invalid_mode_witness :
  normalized_columns (fun _ => None) two_hours two_values "zscore" "normalized_columns" =
  Raise ValueError.
Proof.
  apply (normalized_columns_invalid_mode (fun _ => None) two_hours two_values "zscore");
    discriminate.
Defined.

Lemma insert_pos_perm (p : Z * nat) (l : list (Z * nat)) :
  Permutation (insert_pos p l) (p :: l).
Proof.
  induction l as [|p' l IH]; simpl; [reflexivity|].
  destruct (fst p <=? fst p'); [reflexivity|].
  rewrite IH. apply perm_swap.
Qed.

Lemma insert_pos_monotonic (p : Z * nat) (l : list (Z * nat)) :
  is_monotonic (map fst l) = true -> is_monotonic (map fst (insert_pos p l)) = true.
Proof.
  induction l as [|p' l IH]; intros H; [reflexivity|].
  cbn [insert_pos]. destruct (Z.leb_spec (fst p) (fst p')) as [Hle|Hgt].
  - cbn [map is_monotonic] in *. rewrite H. cbn [map]. rewrite andb_true_r.
    apply Z.leb_le. exact Hle.
  - assert (Hl : is_monotonic (map fst l) = true).
    { cbn [map is_monotonic] in H. destruct (map fst l); [reflexivity|].
      now apply andb_true_iff in H. }
    specialize (IH Hl). cbn [map]. destruct l as [|p'' l].
    + cbn. rewrite andb_true_r. apply Z.leb_le. lia.
    + cbn [insert_pos] in *. destruct (Z.leb_spec (fst p) (fst p'')).
      * cbn [map is_monotonic] in *. rewrite IH, andb_true_r. apply Z.leb_le. lia.
      * cbn [map is_monotonic] in *. apply andb_true_iff in H.
        destruct H as (H & _). now rewrite H, IH.
Qed.

Lemma fold_insert_pos_spec (l : list (Z * nat)) :
  Permutation (fold_right insert_pos [] l) l /\
  is_monotonic (map fst (fold_right insert_pos [] l)) = true.
Proof.
  induction l as [|p l (IH1 & IH2)]; simpl; [now split|]. split.
  - rewrite insert_pos_perm. now constructor.
  - now apply insert_pos_monotonic.
Qed.

Lemma map_snd_combine_seq (l : list Z) (s : nat) :
  map snd (combine l (seq s (List.length l))) = seq s (List.length l).
Proof.
  revert s. induction l as [|x l IH]; intros s; simpl; [reflexivity | now rewrite IH].
Qed.

Lemma In_combine_seq (l : list Z) (t : Z) (k s : nat) :
  In (t, k) (combine l (seq s (List.length l))) -> nth (k - s) l 0 = t /\ (s <= k)%nat.
Proof.
  revert s. induction l as [|x l IH]; intros s H; [contradiction|].
  simpl in H. destruct H as [H | H].
  - inversion H. subst. rewrite Nat.sub_diag. now split.
  - apply IH in H. destruct H as (H & Hle). split; [|lia].
    replace (k - s)%nat with (S (k - S s)) by lia. exact H.
Qed.

(** Rows of one timestamp keep their order when the index is sorted. *)
Example sorted_positions_stable :
  sorted_positions [3600; 0; 3600; 0] = [1; 3; 0; 2]%nat.
Proof. reflexivity. Qed.

Lemma sorted_positions_spec (idx : list Z) :
  Permutation (sorted_positions idx) (seq 0 (List.length idx)) /\
  is_monotonic (map (fun p => nth p idx 0) (sorted_positions idx)) = true.
Proof.
  unfold sorted_positions.
  set (ps := combine idx (seq 0 (List.length idx))).
  pose proof (fold_insert_pos_spec ps) as (Hperm & Hmono).
  pose proof (map_snd_combine_seq idx 0) as Hsnd. fold ps in Hsnd.
  assert (Hfst : forall p, In p ps -> fst p = nth (snd p) idx 0).
  { intros (t, k) Hin. apply In_combine_seq in Hin. rewrite Nat.sub_0_r in Hin.
    symmetry. apply Hin. }
  split.
  - rewrite <- Hsnd. now apply Permutation_map.
  - rewrite map_map. erewrite map_ext_in; [exact Hmono|].
    intros p Hp. symmetry. apply Hfst. apply (Permutation_in _ Hperm). exact Hp.
Qed.

Lemma map_nth_seq_id {A : Type} (l : list A) (d : A) :
  map (fun p => nth p l d) (seq 0 (List.length l)) = l.
Proof.
  induction l as [|x l IH]; [reflexivity|].
  cbn [List.length seq map nth]. f_equal. rewrite <- seq_shift, map_map. exact IH.
Qed.

Lemma reordered_perm (ps : list nat) (datetime_col : list Z) (qs : list Q)
    (idx : list Z) (vs : list Q) :
  List.length datetime_col = List.length qs ->
  reordered ps datetime_col qs idx vs -> Permutation vs qs.
Proof.
  intros Hlen (Hp & _ & ->).
  eapply Permutation_trans; [apply Permutation_map, Hp|].
  now rewrite Hlen, map_nth_seq_id.
Qed.

(** The frame of [normalized_columns] before the normalization. *)
Lemma sorted_frame (datetime_col : list Z) (qs : list Q) :
  List.length datetime_col = List.length qs ->
  exists ps idx vs,
    reordered ps datetime_col qs idx vs /\ is_monotonic idx = true /\
    (let df := mkDF datetime_col [("value"%string, map Some qs)] in
     if negb (is_monotonic (index df)) then sort_index df else df) =
    mkDF idx [("value"%string, map Some vs)].
Proof.
  intros Hlen. cbn [index]. destruct (is_monotonic datetime_col) eqn:Hm; cbn [negb].
  - exists (seq 0 (List.length datetime_col)), datetime_col, qs.
    split; [|split; [exact Hm | reflexivity]]. split; [reflexivity|]. split.
    + now rewrite map_nth_seq_id.
    + now rewrite Hlen, map_nth_seq_id.
  - destruct (sorted_positions_spec datetime_col) as (Hp & Hs).
    eexists (sorted_positions datetime_col), _, _.
    split; [split; [exact Hp | split; reflexivity]|]. split; [exact Hs|].
    unfold sort_index. cbn [index columns map fst snd]. do 3 f_equal.
    rewrite map_map. apply map_ext_in. intros p Hin.
    apply (Permutation_in _ Hp), in_seq in Hin.
    rewrite (nth_indep _ None (Some 0%Q)) by (rewrite length_map; lia).
    apply (map_nth Some).
Qed.

Lemma py_min_cells_spec (vs : list Q) :
  vs <> [] ->
  exists mn, py_min_cells (map Some vs) = Ok (Some mn) /\ In mn vs /\
             forall x, In x vs -> (mn <= x)%Q.
Proof.
  destruct vs as [|v vs]; [contradiction|]. intros _. cbn [map py_min_cells].
  assert (G : forall l m, exists mn,
             fold_left (fun m y => if cell_lt y m then y else m) (map Some l) (Some m) =
             Some mn /\ (mn = m \/ In mn l) /\ (mn <= m)%Q /\
             forall x, In x l -> (mn <= x)%Q).
  { induction l as [|y l IH]; intros m; cbn [map fold_left].
    - exists m. split; [reflexivity|]. split; [now left|]. split; [apply Qle_refl|].
      intros x [].
    - cbn [cell_lt]. destruct (Qle_bool m y) eqn:E; cbn [negb].
      + destruct (IH m) as (mn & H1 & H2 & H3 & H4). exists mn.
        split; [exact H1|]. split; [destruct H2; [now left | right; now right]|].
        split; [exact H3|]. intros x [<- | Hx]; [|now apply H4].
        apply Qle_bool_iff in E. eapply Qle_trans; eassumption.
      + destruct (IH y) as (mn & H1 & H2 & H3 & H4). exists mn.
        assert (Hym : (y <= m)%Q).
        { apply Qlt_le_weak, Qnot_le_lt. intros H. apply Qle_bool_iff in H. congruence. }
        split; [exact H1|]. split; [right; destruct H2; [left; congruence | now right]|].
        split; [eapply Qle_trans; eassumption|].
        intros x [<- | Hx]; [exact H3 | now apply H4]. }
  destruct (G vs v) as (mn & H1 & H2 & H3 & H4). exists mn.
  split; [now rewrite H1|]. split; [destruct H2; [left; congruence | now right]|].
  intros x [<- | Hx]; [exact H3 | now apply H4].
Qed.

Lemma py_max_cells_spec (vs : list Q) :
  vs <> [] ->
  exists mx, py_max_cells (map Some vs) = Ok (Some mx) /\ In mx vs /\
             forall x, In x vs -> (x <= mx)%Q.
Proof.
  destruct vs as [|v vs]; [contradiction|]. intros _. cbn [map py_max_cells].
  assert (G : forall l m, exists mx,
             fold_left (fun m y => if cell_lt m y then y else m) (map Some l) (Some m) =
             Some mx /\ (mx = m \/ In mx l) /\ (m <= mx)%Q /\
             forall x, In x l -> (x <= mx)%Q).
  { induction l as [|y l IH]; intros m; cbn [map fold_left].
    - exists m. split; [reflexivity|]. split; [now left|]. split; [apply Qle_refl|].
      intros x [].
    - cbn [cell_lt]. destruct (Qle_bool y m) eqn:E; cbn [negb].
      + destruct (IH m) as (mx & H1 & H2 & H3 & H4). exists mx.
        split; [exact H1|]. split; [destruct H2; [now left | right; now right]|].
        split; [exact H3|]. intros x [<- | Hx]; [|now apply H4].
        apply Qle_bool_iff in E. eapply Qle_trans; eassumption.
      + destruct (IH y) as (mx & H1 & H2 & H3 & H4). exists mx.
        assert (Hym : (m <= y)%Q).
        { apply Qlt_le_weak, Qnot_le_lt. intros H. apply Qle_bool_iff in H. congruence. }
        split; [exact H1|]. split; [right; destruct H2; [left; congruence | now right]|].
        split; [eapply Qle_trans; eassumption|].
        intros x [<- | Hx]; [exact H3 | now apply H4]. }
  destruct (G vs v) as (mx & H1 & H2 & H3 & H4). exists mx.
  split; [now rewrite H1|]. split; [destruct H2; [left; congruence | now right]|].
  intros x [<- | Hx]; [exact H3 | now apply H4].
Qed.

Lemma minmax_scaled_range (mn mx x : Q) :
  (mn <= x <= mx)%Q -> (0 <= minmax_scaled mn mx x <= 1)%Q.
Proof.
  intros (H1 & H2). unfold minmax_scaled.
  destruct (Qeq_bool mn mx) eqn:E; [split; discriminate|].
  assert (Hlt : (0 < mx - mn)%Q).
  { unfold Qminus. apply (proj1 (Qlt_minus_iff mn mx)). apply Qnot_le_lt. intros Hle.
    assert (Heq : (mn == mx)%Q) by (apply Qle_antisym; [eapply Qle_trans|]; eassumption).
    apply Qeq_bool_iff in Heq. congruence. }
  split.
  - apply Qle_shift_div_l; [exact Hlt|]. rewrite Qmult_0_l.
    unfold Qminus. apply (proj1 (Qle_minus_iff mn x)). exact H1.
  - apply Qle_shift_div_r; [exact Hlt|]. rewrite Qmult_1_l.
    unfold Qminus. apply Qplus_le_compat; [exact H2 | apply Qle_refl].
Qed.

(** X18: [normalized_columns] in the mode ["minmax"], on a column without
    missing values that is not empty: the rows are put in increasing order
    of time if they are not, and the one column of the result holds
    [(x - min) / (max - min)] for the value [x] of the row, which is
    between 0 and 1, 0 for the least and 1 for the greatest value; it
    holds 0 in every row when all values are equal. *)
Theorem normalized_columns_minmax (np_log : Q -> cell) (datetime_col : list Z)
    (qs : list Q) (output_colname : string) :
  List.length datetime_col = List.length qs -> qs <> [] ->
  exists ps idx vs mn mx,
    reordered ps datetime_col qs idx vs /\ is_monotonic idx = true /\
    In mn qs /\ In mx qs /\ (forall x, In x qs -> (mn <= x <= mx)%Q) /\
    normalized_columns np_log datetime_col (map Some qs) "minmax" output_colname =
    Ok (mkDF idx [(output_colname, map (fun x => Some (minmax_scaled mn mx x)) vs)]) /\
    Forall (fun x => (0 <= minmax_scaled mn mx x <= 1)%Q) vs /\
    (minmax_scaled mn mx mn == 0)%Q /\
    (~ (mn == mx)%Q -> (minmax_scaled mn mx mx == 1)%Q).
Proof.
  intros Hlen Hne.
  destruct (sorted_frame datetime_col qs Hlen) as (ps & idx & vs & Hre & Hmono & Hdf).
  pose proof (reordered_perm _ _ _ _ _ Hlen Hre) as Hperm.
  assert (Hvs : vs <> []).
  { intros ->. apply Permutation_nil in Hperm. contradiction. }
  destruct (py_min_cells_spec vs Hvs) as (mn & Hmin & Hmn & Hle).
  destruct (py_max_cells_spec vs Hvs) as (mx & Hmax & Hmx & Hge).
  exists ps, idx, vs, mn, mx.
  split; [exact Hre|]. split; [exact Hmono|].
  split; [apply (Permutation_in _ Hperm), Hmn|].
  split; [apply (Permutation_in _ Hperm), Hmx|].
  assert (Hb : forall x, In x vs -> (mn <= x <= mx)%Q) by (intros x Hx; split; auto).
  split; [intros x Hx; apply Hb, (Permutation_in _ (Permutation_sym Hperm)), Hx|].
  split; [|split; [|split]].
  - unfold normalized_columns, new_frame. rewrite length_map, Hlen, Nat.eqb_refl.
    cbn [bind]. cbv zeta in Hdf.
    set (fr := if negb (is_monotonic _) then _ else _).
    assert (Efr : fr = mkDF idx [("value"%string, map Some vs)]) by exact Hdf.
    clearbody fr. subst fr.
    change (String.eqb "minmax" "log") with false.
    change (String.eqb "minmax" "minmax") with true. cbv iota.
    change (get_col (mkDF idx [("value"%string, map Some vs)]) "value")
      with (Ok (map Some vs)).
    cbn [bind]. rewrite Hmin, Hmax. cbn [bind cell_ne index].
    assert (Hsel : forall col,
               select (set_col (mkDF idx [("value"%string, map Some vs)])
                               output_colname col) [output_colname] =
               Ok (mkDF idx [(output_colname, col)])).
    { intros col. unfold select. cbn [select_cols]. rewrite get_col_set_col_same.
      reflexivity. }
    unfold minmax_scaled. destruct (Qeq_bool mn mx) eqn:E; cbn [negb bind].
    + rewrite Hsel. do 3 f_equal. destruct Hre as (_ & -> & ->).
      now rewrite !map_map.
    + rewrite Hsel, map_map.
      assert (E0 : Qeq_bool (mx - mn) 0 = false).
      { apply not_true_iff_false. intros E0. apply Qeq_bool_iff in E0.
        assert (Heq : (mn == mx)%Q).
        { setoid_replace mx with (mx - mn + mn)%Q by ring. rewrite E0. ring. }
        apply Qeq_bool_iff in Heq. congruence. }
      cbn [cell_sub cell_div]. rewrite E0. reflexivity.
  - apply Forall_forall. intros x Hx. apply minmax_scaled_range, Hb, Hx.
  - unfold minmax_scaled. destruct (Qeq_bool mn mx) eqn:E; [reflexivity|].
    unfold Qdiv. setoid_replace (mn - mn)%Q with 0%Q by ring. apply Qmult_0_l.
  - intros Hneq. unfold minmax_scaled. destruct (Qeq_bool mn mx) eqn:E.
    + apply Qeq_bool_iff in E. contradiction.
    + field. intros H0. apply Hneq.
      setoid_replace mx with (mx - mn + mn)%Q by ring. rewrite H0. ring.
Qed.

Lemma normalized_columns_minmax_witness :
  exists ps idx vs mn mx,
    reordered ps [3600; 0; 7200] [5; 1; 3]%Q idx vs /\ is_monotonic idx = true /\
    In mn [5; 1; 3]%Q /\ In mx [5; 1; 3]%Q /\
    (forall x, In x [5; 1; 3]%Q -> (mn <= x <= mx)%Q) /\
    normalized_columns (fun _ => None) [3600; 0; 7200] (map Some [5; 1; 3]%Q) "minmax" "n" =
    Ok (mkDF idx [("n"%string, map (fun x => Some (minmax_scaled mn mx x)) vs)]) /\
    Forall (fun x => (0 <= minmax_scaled mn mx x <= 1)%Q) vs /\
    (minmax_scaled mn mx mn == 0)%Q /\
    (~ (mn == mx)%Q -> (minmax_scaled mn mx mx == 1)%Q).
Proof.
  apply (normalized_columns_minmax (fun _ => None) [3600; 0; 7200] [5; 1; 3]%Q "n");
    [reflexivity | discriminate].
Defined.

Example normalized_columns_minmax_rows :
  normalized_columns (fun _ => None) [3600; 0; 7200] (map Some [5; 1; 3]%Q) "minmax" "n" =
  Ok (mkDF [0; 3600; 7200] [("n"%string, [Some (0 # 4); Some (4 # 4); Some (2 # 4)]%Q)]).
Proof. vm_compute. reflexivity. Qed.

Lemma sorted_frame_cells (datetime_col : list Z) (value_col : list cell) :
  List.length datetime_col = List.length value_col ->
  exists idx col,
    Permutation idx datetime_col /\ Permutation col value_col /\
    is_monotonic idx = true /\ List.length col = List.length idx /\
    (let df := mkDF datetime_col [("value"%string, value_col)] in
     if negb (is_monotonic (index df)) then sort_index df else df) =
    mkDF idx [("value"%string, col)].
Proof.
  intros Hlen. cbn [index]. destruct (is_monotonic datetime_col) eqn:Hm; cbn [negb].
  - exists datetime_col, value_col. repeat split; auto.
  - destruct (sorted_positions_spec datetime_col) as (Hp & Hs).
    eexists _, _. split; [|split; [|split; [exact Hs|split; [|reflexivity]]]].
    + eapply Permutation_trans; [apply Permutation_map, Hp|].
      now rewrite map_nth_seq_id.
    + cbn [columns map snd]. eapply Permutation_trans; [apply Permutation_map, Hp|].
      now rewrite Hlen, map_nth_seq_id.
    + cbn [columns map snd]. now rewrite !length_map.
Qed.

Lemma Qsum_perm (l l' : list Q) : Permutation l l' -> (Qsum l == Qsum l')%Q.
Proof.
  induction 1; simpl; try reflexivity.
  - now rewrite IHPermutation.
  - ring.
  - now rewrite IHPermutation1.
Qed.

Lemma present_perm (l l' : list cell) :
  Permutation l l' -> Permutation (present l) (present l').
Proof.
  induction 1; simpl; try reflexivity.
  - now apply Permutation_app_head.
  - rewrite !app_assoc. apply Permutation_app_tail, Permutation_app_comm.
  - eapply Permutation_trans; eassumption.
Qed.

(** X19: [normalized_columns] in the mode ["log"], on a column whose
    values that are not missing have the mean 0: every row of the result
    is 0, also the rows without a value. *)
Theorem normalized_columns_log_zero_mean (np_log : Q -> cell) (datetime_col : list Z)
    (value_col : list cell) (output_colname : string) :
  List.length datetime_col = List.length value_col ->
  present value_col <> [] -> (Qsum (present value_col) == 0)%Q ->
  exists idx,
    Permutation idx datetime_col /\ is_monotonic idx = true /\
    normalized_columns np_log datetime_col value_col "log" output_colname =
    Ok (mkDF idx [(output_colname, map (fun _ => Some 0%Q) idx)]).
Proof.
  intros Hlen Hne Hsum.
  destruct (sorted_frame_cells datetime_col value_col Hlen)
    as (idx & col & Hpi & Hpc & Hmono & Hl & Hdf).
  exists idx. split; [exact Hpi|]. split; [exact Hmono|].
  unfold normalized_columns, new_frame. rewrite Hlen, Nat.eqb_refl.
  cbn [bind]. cbv zeta in Hdf.
  set (fr := if negb (is_monotonic _) then _ else _).
  assert (Efr : fr = mkDF idx [("value"%string, col)]) by exact Hdf.
  clearbody fr. subst fr.
  change (String.eqb "log" "log") with true. cbv iota.
  change (get_col (mkDF idx [("value"%string, col)]) "value") with (Ok col).
  cbn [bind].
  assert (Hmean : cell_ne (nanmean col) (Some 0%Q) = false).
  { pose proof (present_perm _ _ Hpc) as Hpp. unfold nanmean.
    destruct (present col) as [|x l] eqn:E.
    - apply Permutation_nil in Hpp. contradiction.
    - cbn [cell_ne]. apply negb_false_iff, Qeq_bool_iff.
      rewrite (Qsum_perm _ _ Hpp), Hsum. unfold Qdiv. apply Qmult_0_l. }
  rewrite Hmean. cbn [bind index]. unfold select. cbn [select_cols].
  rewrite get_col_set_col_same. reflexivity.
Qed.

Lemma normalized_columns_log_zero_mean_witness :
  exists idx,
    Permutation idx [3600; 0; 7200] /\ is_monotonic idx = true /\
    normalized_columns (fun _ => None) [3600; 0; 7200] [Some 2%Q; None; Some (-2)%Q]
                       "log" "n" =
    Ok (mkDF idx [("n"%string, map (fun _ => Some 0%Q) idx)]).
Proof.
  apply (normalized_columns_log_zero_mean (fun _ => None) [3600; 0; 7200]
           [Some 2%Q; None; Some (-2)%Q] "n");
    [reflexivity | discriminate | reflexivity].
Defined.

(** ** [lagged_features] and [moving_averages] *)

Lemma lagged_features_frames (df : DataFrame) (lags : list Z) (acc : list DataFrame) :
  fold_left
    (fun df_list lag =>
       df_list ++ [rename_columns (fun x => x ++ "_lag" ++ str lag)%string
                                  (shift_frame lag df)])
    lags acc =
  acc ++ map (fun lag => rename_columns (fun x => x ++ "_lag" ++ str lag)%string
                                        (shift_frame lag df)) lags.
Proof.
  revert acc. induction lags as [|lag lags IH]; intros acc; simpl.
  - now rewrite app_nil_r.
  - rewrite IH, <- app_assoc. reflexivity.
Qed.

Lemma length_shift (h : Z) (col : list cell) : List.length (shift h col) = List.length col.
Proof. unfold shift. rewrite length_map, length_range. lia. Qed.

Lemma shift_cells (l : Z) (col : list cell) :
  shift l col = map (cell_before col l) (seq 0 (List.length col)).
Proof.
  apply (nth_ext _ _ None None).
  - now rewrite length_shift, length_map, length_seq.
  - rewrite length_shift. intros k Hk. rewrite nth_shift by exact Hk.
    rewrite (nth_indep (map (cell_before col l) (seq 0 (List.length col))) None
                       (cell_before col l 0%nat))
      by (now rewrite length_map, length_seq).
    rewrite (map_nth (cell_before col l)), seq_nth by exact Hk. reflexivity.
Qed.

Lemma flat_map_map {A B C : Type} (f : A -> B) (g : B -> list C) (l : list A) :
  flat_map g (map f l) = flat_map (fun x => g (f x)) l.
Proof. induction l as [|x l IH]; simpl; [reflexivity | now rewrite IH]. Qed.

Lemma lagged_features_columns (df : DataFrame) (l : Z) (lags : list Z) :
  lagged_features df (l :: lags) =
  Ok (mkDF (index df)
        (flat_map
           (fun l => map (fun c => ((fst c ++ "_lag" ++ str l)%string,
                                    map (cell_before (snd c) l)
                                        (seq 0 (List.length (snd c)))))
                         (columns df))
           (l :: lags))).
Proof.
  unfold lagged_features. cbv zeta. rewrite lagged_features_frames. cbn [app].
  set (F := fun lag => rename_columns _ (shift_frame lag df)).
  change (concat_columns (map F (l :: lags)))
    with (Ok (mkDF (index df) (flat_map columns (map F (l :: lags))))).
  rewrite flat_map_map. do 2 f_equal. apply flat_map_ext. intros a.
  unfold F, rename_columns, shift_frame. cbn [columns]. rewrite map_map.
  apply map_ext. intros c. cbn [fst snd]. now rewrite shift_cells.
Qed.

(** X20: [lagged_features] needs a lag: without one it raises a
    [ValueError]. With lags it returns, on the index of [df], one column
    [x_lag<l>] for every lag [l] and every column [x] of [df], the lags in
    their order; its row [k] holds the cell of [x] in the row [k - l],
    and is missing when there is no such row. *)
Theorem lagged_features_cells (df : DataFrame) (lags : list Z) :
  lags <> [] ->
  lagged_features df [] = Raise ValueError /\
  lagged_features df lags =
  Ok (mkDF (index df)
        (flat_map
           (fun l => map (fun c => ((fst c ++ "_lag" ++ str l)%string,
                                    map (cell_before (snd c) l)
                                        (seq 0 (List.length (snd c)))))
                         (columns df))
           lags)).
Proof.
  intros Hne. split; [reflexivity|].
  destruct lags as [|l lags]; [contradiction|]. apply lagged_features_columns.
Qed.

Lemma lagged_features_cells_witness :
  lagged_features (mkDF two_hours [("load"%string, two_values)]) [] = Raise ValueError /\
  lagged_features (mkDF two_hours [("load"%string, two_values)]) [1; 2] =
  Ok (mkDF (index (mkDF two_hours [("load"%string, two_values)]))
        (flat_map
           (fun l => map (fun c => ((fst c ++ "_lag" ++ str l)%string,
                                    map (cell_before (snd c) l)
                                        (seq 0 (List.length (snd c)))))
                         (columns (mkDF two_hours [("load"%string, two_values)])))
           [1; 2])).
Proof.
  apply (lagged_features_cells (mkDF two_hours [("load"%string, two_values)]) [1; 2]).
  discriminate.
Defined.

Example lagged_features_two_hours :
  lagged_features (mkDF two_hours [("load"%string, two_values)]) [1; 2] =
  Ok (mkDF two_hours [("load_lag1"%string, [None; Some 1%Q]);
                      ("load_lag2"%string, [None; None])]).
Proof. reflexivity. Qed.

Lemma shift_nonneg (s : Z) (col : list cell) :
  0 <= s ->
  shift s col = firstn (List.length col) (repeat None (Z.to_nat s) ++ col).
Proof.
  intros Hs. apply (nth_ext _ _ None None).
  - rewrite length_shift, length_firstn, length_app, repeat_length.
    symmetry. apply Nat.min_l, Nat.le_add_l.
  - rewrite length_shift. intros k Hk. rewrite nth_shift by exact Hk.
    rewrite nth_firstn. destruct (Nat.ltb_spec k (List.length col)); [|lia].
    destruct (Z.leb_spec 0 (Z.of_nat k - s)); cbn [andb].
    + destruct (Z.ltb_spec (Z.of_nat k - s) (Z.of_nat (List.length col))); [|lia].
      rewrite app_nth2 by (rewrite repeat_length; lia). rewrite repeat_length.
      f_equal. lia.
    + rewrite app_nth1 by (rewrite repeat_length; lia).
      symmetry. apply nth_repeat.
Qed.

Lemma present_repeat_None (n : nat) (l : list cell) :
  present (firstn n (repeat None n) ++ l) = present l.
Proof.
  rewrite firstn_all2 by (rewrite repeat_length; lia).
  induction n as [|n IH]; [reflexivity | exact IH].
Qed.

Lemma present_nones (m n : nat) (l : list cell) :
  present (firstn m (repeat None n) ++ l) = present l.
Proof.
  revert m. induction n as [|n IH]; intros m.
  - simpl. now rewrite firstn_nil.
  - destruct m as [|m]; [reflexivity|]. simpl. apply IH.
Qed.

Lemma nanmean_present (a b : list cell) : present a = present b -> nanmean a = nanmean b.
Proof. intros E. unfold nanmean. now rewrite E. Qed.

(** The prefix of a shifted column: missing cells, then a prefix of the column. *)
Lemma firstn_shift (s : Z) (col : list cell) (m : nat) :
  0 <= s -> (m <= List.length col)%nat ->
  firstn m (shift s col) =
  firstn m (repeat None (Z.to_nat s)) ++ firstn (m - Z.to_nat s) col.
Proof.
  intros Hs Hm. rewrite shift_nonneg by exact Hs.
  rewrite firstn_firstn, Nat.min_l by exact Hm.
  now rewrite firstn_app, repeat_length.
Qed.

Lemma range_seq (n : nat) : range 0 (Z.of_nat n) = map Z.of_nat (seq 0 n).
Proof.
  unfold range. rewrite Z.sub_0_r, Nat2Z.id. apply map_ext. intros k. lia.
Qed.

(** X21: [moving_averages] with the default window, the number of rows, and
    a first step that is not negative, on a frame that has rows: the
    column [x_mean] holds in row [k] the mean of the values of [x] that are
    not missing in the rows 0 to [k - start_step], and is missing when
    there is none. On a frame without rows the default window is 0 and the
    function raises a [ValueError]. *)
Theorem moving_averages_expanding (df : DataFrame) (start_step : Z) :
  well_formed df -> 0 <= start_step -> index df <> [] ->
  moving_averages df start_step None =
  Ok (mkDF (index df)
        (map (fun c => ((fst c ++ "_mean")%string,
                        map (fun k => nanmean (firstn (k + 1 - Z.to_nat start_step) (snd c)))
                            (seq 0 (List.length (index df)))))
             (columns df))) /\
  forall cols, moving_averages (mkDF [] cols) start_step None = Raise ValueError.
Proof.
  intros Hwf Hs Hne. split; [|reflexivity]. unfold moving_averages. cbv zeta.
  destruct (Z.ltb_spec (Z.of_nat (List.length (index df))) 1) as [H|H].
  { destruct (index df); [contradiction | cbn [List.length] in H; lia]. }
  unfold rename_columns. cbn [index columns]. rewrite map_map. do 2 f_equal.
  apply map_ext_in. intros c Hc. cbn [fst snd]. f_equal.
  unfold well_formed in Hwf. rewrite Forall_forall in Hwf. specialize (Hwf c Hc).
  unfold rolling_mean. rewrite length_shift, Hwf, range_seq, map_map.
  apply map_ext_in. intros k Hk. apply in_seq in Hk. cbv zeta.
  replace (Z.max 0 (Z.of_nat k - Z.of_nat (List.length (index df)) + 1)) with 0 by lia.
  cbn [Z.to_nat skipn]. replace (Z.to_nat (Z.of_nat k + 1 - 0)) with (k + 1)%nat by lia.
  rewrite firstn_shift by lia. apply nanmean_present, present_nones.
Qed.

Lemma moving_averages_expanding_witness :
  moving_averages (mkDF two_hours [("load"%string, two_values)]) 1 None =
  Ok (mkDF (index (mkDF two_hours [("load"%string, two_values)]))
        (map (fun c => ((fst c ++ "_mean")%string,
                        map (fun k => nanmean (firstn (k + 1 - Z.to_nat 1) (snd c)))
                            (seq 0 (List.length
                                      (index (mkDF two_hours
                                                [("load"%string, two_values)]))))))
             (columns (mkDF two_hours [("load"%string, two_values)])))) /\
  forall cols, moving_averages (mkDF [] cols) 1 None = Raise ValueError.
Proof.
  apply (moving_averages_expanding (mkDF two_hours [("load"%string, two_values)]) 1).
  - repeat constructor.
  - lia.
  - discriminate.
Defined.

Example moving_averages_two_hours :
  moving_averages (mkDF two_hours [("load"%string, two_values)]) 1 None =
  Ok (mkDF two_hours [("load_mean"%string, [None; Some (1 / 1)%Q])]) /\
  moving_averages (mkDF two_hours [("load"%string, two_values)]) 1 (Some 0) =
  Raise ValueError.
Proof. split; vm_compute; reflexivity. Qed.

(** ** Features that do not look ahead *)

Lemma firstn_le_eq {A : Type} (m k : nat) (a b : list A) :
  (m <= k)%nat -> firstn k a = firstn k b -> firstn m a = firstn m b.
Proof.
  intros Hm E. rewrite <- (Nat.min_l m k Hm), <- !firstn_firstn. now rewrite E.
Qed.

Lemma shift_agree_upto (s : Z) (k : nat) (c1 c2 : list cell) :
  1 <= s -> List.length c1 = List.length c2 -> firstn k c1 = firstn k c2 ->
  firstn (k + 1) (shift s c1) = firstn (k + 1) (shift s c2).
Proof.
  intros Hs Hlen E. destruct (Nat.le_gt_cases (k + 1) (List.length c1)) as [Hk|Hk].
  - rewrite !firstn_shift by (try rewrite <- Hlen; auto; lia). f_equal.
    apply (firstn_le_eq _ k); [lia | exact E].
  - assert (E' : c1 = c2).
    { rewrite <- (firstn_all2 c1 (n := k)), <- (firstn_all2 c2 (n := k)); auto.
      all: try rewrite <- Hlen; apply Nat.lt_succ_r; rewrite <- Nat.add_1_r; exact Hk. }
    now rewrite E'.
Qed.

Lemma In_firstn_seq (m s n k : nat) :
  In k (firstn m (seq s n)) -> (s <= k < s + m)%nat.
Proof.
  revert s n. induction m as [|m IH]; intros s n H; [contradiction|].
  destruct n as [|n]; [contradiction|]. cbn [seq firstn] in H.
  destruct H as [<- | H]; [lia|]. apply IH in H. lia.
Qed.

Lemma rolling_mean_agree_upto (w : Z) (m : nat) (c1 c2 : list cell) :
  0 <= w -> List.length c1 = List.length c2 -> firstn m c1 = firstn m c2 ->
  firstn m (rolling_mean w c1) = firstn m (rolling_mean w c2).
Proof.
  intros Hw Hlen E. unfold rolling_mean. rewrite <- Hlen, range_seq, !map_map, !firstn_map.
  apply map_ext_in. intros k Hk. apply In_firstn_seq in Hk.
  cbv zeta. f_equal. rewrite !firstn_skipn_comm. f_equal.
  apply (firstn_le_eq _ m); [|exact E].
  apply Nat.le_trans with (k + 1)%nat; [|lia].
  assert (H : Z.of_nat (Z.to_nat (Z.max 0 (Z.of_nat k - w + 1)) +
                        Z.to_nat (Z.of_nat k + 1 - Z.max 0 (Z.of_nat k - w + 1))) <=
              Z.of_nat (k + 1)) by lia.
  apply Nat2Z.inj_le. exact H.
Qed.

Lemma select_cols_agree (k : nat) (df1 df2 : DataFrame) (names : list string) :
  columns_agree k (columns df1) (columns df2) ->
  result_rel (fun a b => columns_agree k a b /\ List.length a = List.length names)
             (select_cols df1 names) (select_cols df2 names).
Proof.
  intros Hag.
  assert (Hget : forall n, result_rel (fun a b => List.length a = List.length b /\
                                                  firstn k a = firstn k b)
                                      (get_col df1 n) (get_col df2 n)).
  { intros n. unfold get_col. induction Hag as [|c1 c2 l1 l2 (Hn & Hl & Hf) _ IH];
      cbn [find]; [reflexivity|].
    rewrite Hn. destruct (String.eqb (fst c2) n); [now split | exact IH]. }
  induction names as [|n names IH]; cbn [select_cols].
  - split; [constructor | reflexivity].
  - specialize (Hget n). destruct (get_col df1 n) as [a|e1], (get_col df2 n) as [b|e2];
      cbn [result_rel bind] in *; try contradiction; [|exact Hget].
    destruct (select_cols df1 names) as [r1|e1], (select_cols df2 names) as [r2|e2];
      cbn [result_rel bind] in *; try contradiction; [|exact IH].
    destruct IH as (IH & Hl). split; [|cbn [List.length]; now rewrite Hl].
    constructor; [|exact IH]. cbn [fst snd]. tauto.
Qed.

Lemma select_agree (k : nat) (df1 df2 : DataFrame) (names : list string) :
  agree_upto k df1 df2 ->
  result_rel (fun a b => agree_upto k a b /\
                         List.length (columns a) = List.length names /\
                         List.length (columns b) = List.length names)
             (select df1 names) (select df2 names).
Proof.
  intros (Hi & Hc). unfold select.
  pose proof (select_cols_agree k df1 df2 names Hc) as H.
  destruct (select_cols df1 names) as [a|e1], (select_cols df2 names) as [b|e2];
    cbn [result_rel bind] in *; try contradiction; [|exact H].
  destruct H as (H & Hl). split; [now split|]. cbn [columns]. split; [exact Hl|].
  rewrite <- Hl. symmetry. eapply Forall2_length. exact H.
Qed.

Lemma columns_agree_app (k : nat) (a1 a2 b1 b2 : list (string * list cell)) :
  columns_agree k a1 a2 -> columns_agree k b1 b2 -> columns_agree k (a1 ++ b1) (a2 ++ b2).
Proof. apply Forall2_app. Qed.

Lemma lagged_features_agree (k : nat) (df1 df2 : DataFrame) (lags : list Z) :
  agree_upto k df1 df2 -> (forall l, In l lags -> 1 <= l) ->
  result_rel (agree_upto (k + 1)) (lagged_features df1 lags) (lagged_features df2 lags).
Proof.
  intros (Hi & Hc) Hl. destruct lags as [|l lags]; [reflexivity|].
  rewrite !lagged_features_columns.
  cbn [result_rel]. split; [exact Hi|]. cbn [columns].
  generalize (l :: lags), Hl. clear l lags Hl. intros lags Hl.
  induction lags as [|l lags IH]; [constructor|]. cbn [flat_map].
  apply columns_agree_app; [|apply IH; intros; apply Hl; now right].
  assert (H1 : 1 <= l) by (apply Hl; now left). clear IH Hl.
  induction Hc as [|c1 c2 l1 l2 (Hn & Hlen & Hf) _ IH]; [constructor|].
  cbn [map]. constructor; [|exact IH]. cbn [fst snd].
  rewrite <- !shift_cells. split; [now rewrite Hn|]. split.
  - now rewrite !length_shift.
  - now apply shift_agree_upto.
Qed.

Lemma moving_averages_agree (k : nat) (df1 df2 : DataFrame) (start_step : Z)
    (window_size : option Z) :
  agree_upto k df1 df2 -> 1 <= start_step ->
  result_rel (agree_upto (k + 1)) (moving_averages df1 start_step window_size)
             (moving_averages df2 start_step window_size).
Proof.
  intros (Hi & Hc) Hs. unfold moving_averages. cbv zeta. rewrite Hi.
  destruct (Z.ltb_spec (match window_size with
                        | Some w => w
                        | None => Z.of_nat (List.length (index df2))
                        end) 1) as [Hw|Hw]; [reflexivity|]. cbn [result_rel].
  unfold agree_upto, rename_columns. cbn [index columns]. split; [reflexivity|].
  rewrite !map_map. cbn [fst snd].
  induction Hc as [|c1 c2 l1 l2 (Hn & Hlen & Hf) _ IH]; [constructor|].
  cbn [map]. constructor; [|exact IH]. cbn [fst snd].
  split; [now rewrite Hn|]. split.
  - unfold rolling_mean. now rewrite !length_map, !length_range, !length_shift, Hlen.
  - apply rolling_mean_agree_upto; [lia | now rewrite !length_shift|].
    now apply shift_agree_upto.
Qed.

Lemma firstn_app_length {A : Type} (a b : list A) (n : nat) :
  List.length a = n -> firstn n (a ++ b) = a.
Proof.
  intros <-. now rewrite firstn_app, Nat.sub_diag, firstn_all, firstn_O, app_nil_r.
Qed.

Lemma skipn_app_length {A : Type} (a b : list A) (n : nat) :
  List.length a = n -> skipn n (a ++ b) = b.
Proof. intros <-. now rewrite skipn_app, Nat.sub_diag, skipn_all. Qed.

(** X22: the lags and the moving averages of [combine_features] do not
    look ahead when every lag is at least 1. Two frames with the same
    columns that have the same first [k] rows give the same exception, or
    two frames whose lag and average columns (those after the
    [used_columns]) have the same first [k + 1] rows: the features of a
    row use the rows before it only. *)
Theorem combine_features_no_lookahead (k : nat) (df1 df2 : DataFrame)
    (lag_fea : list string) (lags : list Z) (window_size : option Z)
    (used_columns : list string) :
  agree_upto k df1 df2 -> (forall l, In l lags -> 1 <= l) ->
  result_rel
    (fun out1 out2 =>
       index out1 = index out2 /\
       columns_agree k (firstn (List.length used_columns) (columns out1))
                       (firstn (List.length used_columns) (columns out2)) /\
       columns_agree (k + 1) (skipn (List.length used_columns) (columns out1))
                             (skipn (List.length used_columns) (columns out2)))
    (combine_features df1 lag_fea lags window_size used_columns)
    (combine_features df2 lag_fea lags window_size used_columns).
Proof.
  intros Hag Hl. unfold combine_features.
  pose proof (select_agree k df1 df2 lag_fea Hag) as Hsel.
  destruct (select df1 lag_fea) as [s1|e1], (select df2 lag_fea) as [s2|e2];
    cbn [result_rel bind] in *; try contradiction; [|exact Hsel].
  destruct Hsel as (Hs & _).
  pose proof (lagged_features_agree k s1 s2 lags Hs Hl) as Hlag.
  destruct (lagged_features s1 lags) as [g1|e1], (lagged_features s2 lags) as [g2|e2];
    cbn [result_rel bind] in *; try contradiction; [|exact Hlag].
  pose proof (moving_averages_agree k s1 s2 2 window_size Hs ltac:(lia)) as Hmov.
  destruct (moving_averages s1 2 window_size) as [m1|e1],
           (moving_averages s2 2 window_size) as [m2|e2];
    cbn [result_rel bind] in *; try contradiction; [|exact Hmov].
  pose proof (select_agree k df1 df2 used_columns Hag) as Hused.
  destruct (select df1 used_columns) as [u1|e1], (select df2 used_columns) as [u2|e2];
    cbn [result_rel bind] in *; try contradiction; [|exact Hused].
  destruct Hused as ((Hui & Huc) & Hl1 & Hl2). cbn [concat_columns flat_map columns].
  rewrite !app_nil_r. cbn [result_rel index columns].
  rewrite (firstn_app_length _ _ _ Hl1), (firstn_app_length _ _ _ Hl2).
  rewrite (skipn_app_length _ _ _ Hl1), (skipn_app_length _ _ _ Hl2).
  split; [exact Hui|]. split; [exact Huc|].
  apply columns_agree_app; [apply Hlag | apply Hmov].
Qed.

Lemma combine_features_no_lookahead_witness :
  result_rel
    (fun out1 out2 =>
       index out1 = index out2 /\
       columns_agree 5 (firstn (List.length ["load"; "temp"]%string) (columns out1))
                       (firstn (List.length ["load"; "temp"]%string) (columns out2)) /\
       columns_agree (5 + 1) (skipn (List.length ["load"; "temp"]%string) (columns out1))
                             (skipn (List.length ["load"; "temp"]%string) (columns out2)))
    (combine_features (six_rows 6) ["load"%string] [1; 2] (Some 3) ["load"; "temp"]%string)
    (combine_features (six_rows 60) ["load"%string] [1; 2] (Some 3) ["load"; "temp"]%string).
Proof.
  apply (combine_features_no_lookahead 5 (six_rows 6) (six_rows 60)).
  - split; [reflexivity|]. repeat constructor.
  - simpl. lia.
Defined.

Example combine_features_six_rows :
  combine_features (six_rows 6) ["load"%string] [1] (Some 2) ["temp"%string] =
  Ok (mkDF (hourly_grid 0 6)
        [("temp"%string, map Some [7; 7; 8; 8; 9; 9]%Q);
         ("load_lag1"%string, [None; Some 1; Some 2; Some 3; Some 4; Some 5]%Q);
         ("load_mean"%string,
          [None; None; Some (1 / 1); Some ((1 + 2) / 2); Some ((2 + 3) / 2);
           Some ((3 + 4) / 2)]%Q)]).
Proof. vm_compute. reflexivity. Qed.

(** ** [df_from_cartesian_product] *)

Lemma length_product {A : Type} (lists : list (list A)) :
  List.length (product lists) = fold_right Nat.mul 1%nat (map (@List.length A) lists).
Proof.
  induction lists as [|l lists IH]; [reflexivity|]. cbn [product map fold_right].
  rewrite <- IH. clear IH. induction l as [|x l IHl]; [reflexivity|].
  cbn [flat_map List.length]. rewrite length_app, length_map, IHl. reflexivity.
Qed.

Lemma In_product {A : Type} (lists : list (list A)) (row : list A) :
  In row (product lists) <-> Forall2 (fun x l => In x l) row lists.
Proof.
  revert row. induction lists as [|l lists IH]; intros row; cbn [product].
  - split.
    + intros [<- | []]. constructor.
    + intros H. inversion H. now left.
  - rewrite in_flat_map. split.
    + intros (x & Hx & Hin). apply in_map_iff in Hin. destruct Hin as (r & <- & Hr).
      constructor; [exact Hx | now apply IH].
    + intros H. inversion H as [|x l0 r ls Hx Hr]. subst. exists x. split; [exact Hx|].
      apply in_map_iff. exists r. split; [reflexivity | now apply IH].
Qed.

Lemma NoDup_product {A : Type} (lists : list (list A)) :
  Forall (@NoDup A) lists -> NoDup (product lists).
Proof.
  induction 1 as [|l lists Hl _ IH]; cbn [product].
  - constructor; [intros [] | constructor].
  - induction Hl as [|x l Hx _ IHl]; cbn [flat_map]; [constructor|].
    apply NoDup_app.
    + apply Injective_map_NoDup; [|exact IH]. intros a b E. now inversion E.
    + exact IHl.
    + intros r Hr Hr'. apply in_map_iff in Hr. destruct Hr as (r0 & <- & _).
      apply in_flat_map in Hr'. destruct Hr' as (y & Hy & Hin).
      apply in_map_iff in Hin. destruct Hin as (r1 & E & _). inversion E. subst.
      contradiction.
Qed.

Lemma Forall2_map_right {A B C : Type} (P : A -> C -> Prop) (f : B -> C)
    (l : list A) (l' : list B) :
  Forall2 (fun x y => P x (f y)) l l' <-> Forall2 P l (map f l').
Proof.
  revert l. induction l' as [|y l' IH]; intros l; cbn [map].
  - split; intros H; inversion H; constructor.
  - split; intros H; inversion H; subst; constructor; auto; now apply IH.
Qed.

(** X23: the frame of [df_from_cartesian_product] has the keys of the
    dictionary as its columns and as many rows as the product of the
    lengths of the lists, none when a list is empty; its rows are the
    choices of one item of every list, each of them once when no list
    repeats an item. *)
Theorem df_from_cartesian_product_rows {A : Type} (dict_in : list (string * list A)) :
  fst (df_from_cartesian_product dict_in) = map fst dict_in /\
  List.length (snd (df_from_cartesian_product dict_in)) =
  fold_right Nat.mul 1%nat (map (fun item => List.length (snd item)) dict_in) /\
  (forall row, In row (snd (df_from_cartesian_product dict_in)) <->
               Forall2 (fun x item => In x (snd item)) row dict_in) /\
  (Forall (fun item => NoDup (snd item)) dict_in ->
   NoDup (snd (df_from_cartesian_product dict_in))).
Proof.
  unfold df_from_cartesian_product. cbn [fst snd].
  split; [reflexivity|]. split; [|split].
  - now rewrite length_product, map_map.
  - intros row. rewrite In_product. symmetry. apply Forall2_map_right.
  - intros H. apply NoDup_product. apply Forall_map. exact H.
Qed.

Example df_from_cartesian_product_stores :
  df_from_cartesian_product [("store"%string, [1; 2]); ("brand"%string, [7; 8; 9])] =
  (["store"; "brand"]%string, [[1; 7]; [1; 8]; [1; 9]; [2; 7]; [2; 8]; [2; 9]]).
Proof. reflexivity. Qed.

(** ** A combination of grains without rows *)

Lemma mapM_In {A B : Type} (f : A -> result B) (l : list A) (rs : list B) (a : A) :
  mapM f l = Ok rs -> In a l -> exists r, In r rs /\ f a = Ok r.
Proof.
  revert rs. induction l as [|x l IH]; intros rs H Hin; [contradiction|].
  cbn [mapM] in H. destruct (f x) as [b|e] eqn:E; cbn [bind] in H; [|discriminate].
  destruct (mapM f l) as [bs|e]; cbn [bind] in H; [|discriminate].
  inversion H. subst. destruct Hin as [<- | Hin].
  - exists b. split; [now left | exact E].
  - destruct (IH bs eq_refl Hin) as (r & Hr & Er). exists r. split; [now right | exact Er].
Qed.

Lemma forallb_false_In {A : Type} (p : A -> bool) (l : list A) (x : A) :
  In x l -> p x = false -> forallb p l = false.
Proof.
  intros Hin Hp. apply not_true_iff_false. intros H.
  rewrite forallb_forall in H. rewrite (H x Hin) in Hp. discriminate.
Qed.

Lemma np_concatenate_ragged (ls : list (list matrix)) (ws ws' : list matrix) (w : matrix) :
  In ws ls -> In ws' ls -> Forall (fun x => x = []) ws -> In w ws' -> w <> [] ->
  np_concatenate ls = Raise ValueError.
Proof.
  intros Hws Hws' Hnil Hw Hne. unfold np_concatenate.
  destruct ls as [|l0 ls0] eqn:E; [reflexivity|]. rewrite <- E in *. clear E l0 ls0.
  assert (H1 : forallb is_nil ls = false).
  { apply (forallb_false_In _ _ ws' Hws'). destruct ws'; [contradiction | reflexivity]. }
  rewrite H1. destruct ws as [|w0 ws0] eqn:Ews.
  - rewrite (forallb_false_In _ _ [] Hws eq_refl). reflexivity.
  - destruct (forallb (fun l => negb (is_nil l)) ls); [|reflexivity]. cbn [andb].
    match goal with
    | |- context [forallb ?p (concat ls)] => destruct (forallb p (concat ls)) eqn:Hall
    end; [|reflexivity].
    rewrite forallb_forall in Hall.
    assert (Hw0 : In w0 (concat ls)) by (apply in_concat; exists (w0 :: ws0); split;
                                         [exact Hws | now left]).
    assert (Hw' : In w (concat ls)) by (apply in_concat; eauto).
    apply Hall, Nat.eqb_eq in Hw0. apply Hall, Nat.eqb_eq in Hw'.
    inversion Hnil as [|? ? H0 _]. subst w0. cbn [List.length] in Hw0.
    rewrite <- Hw0 in Hw'. destruct w; [contradiction | discriminate].
Qed.

(** X24: [gen_sequence_array] needs rows for every combination of a value
    of the first grain and a value of the second grain. When a combination
    has no row while another one yields a window with a row, the windows
    do not have one shape and the function raises an exception instead of
    returning an array. *)
Theorem gen_sequence_array_missing_combination (df_all : Table) (seq_len : Z)
    (seq_cols : list string) (start_timestep : Z) (end_timestep : option Z)
    (g g' : Z * Z) :
  In g (sequence_entities df_all) -> entity df_all g = [] ->
  In g' (sequence_entities df_all) ->
  1 <= seq_len -> 0 <= start_timestep < Z.of_nat (List.length (entity df_all g')) ->
  start_timestep <=
  match end_timestep with
  | Some e => e
  | None => Z.of_nat (List.length (entity df_all g'))
  end - seq_len + 1 ->
  exists e, gen_sequence_array df_all seq_len seq_cols start_timestep end_timestep = Raise e.
Proof.
  intros Hg Hnil Hg' HL Hs He. unfold gen_sequence_array.
  destruct (mapM _ (sequence_entities df_all)) as [ls|e] eqn:E; cbn [bind]; [|eauto].
  exists ValueError.
  destruct (mapM_In _ _ _ g E Hg) as (ws & Hws & Ews).
  destruct (mapM_In _ _ _ g' E Hg') as (ws' & Hws' & Ews').
  rewrite Hnil in Ews. cbn in Ews. inversion Ews as [Hw]. clear Ews.
  set (n := Z.of_nat (List.length (entity df_all g'))) in *.
  set (e' := match end_timestep with Some e => e | None => n end) in *.
  assert (Hrun : gen_sequence (entity df_all g') seq_len seq_cols start_timestep end_timestep =
                 gen_sequence (entity df_all g') seq_len seq_cols start_timestep (Some e'))
    by (destruct end_timestep; reflexivity).
  rewrite Hrun in Ews'. clear Hrun.
  destruct (values (entity df_all g') seq_cols) as [data|err] eqn:Ev;
    [|unfold gen_sequence in Ews'; rewrite Ev in Ews'; discriminate].
  rewrite (gen_sequence_windows _ _ _ _ _ _ Ev) in Ews'. inversion Ews' as [Hw'].
  pose proof (length_mapM _ _ _ Ev) as Hlen. fold (values (entity df_all g') seq_cols) in Ev.
  apply (np_concatenate_ragged ls ws ws'
           (slice start_timestep (start_timestep + seq_len) data)); auto.
  - rewrite <- Hw. apply Forall_forall. intros x Hx. apply in_map_iff in Hx.
    destruct Hx as (p & <- & _). apply slice_nil.
  - rewrite <- Hw'. apply in_map_iff. exists start_timestep. split; [reflexivity|].
    apply In_range. lia.
  - intros Hw0. apply (f_equal (@List.length (list Q))) in Hw0. revert Hw0.
    unfold slice. rewrite Hlen. fold n.
    destruct (Z.ltb_spec (start_timestep + seq_len) 0); [lia|].
    destruct (Z.ltb_spec start_timestep 0); [lia|].
    rewrite length_firstn, length_skipn, Hlen. cbn [List.length]. lia.
Qed.

Lemma gen_sequence_array_missing_combination_witness :
  exists e, gen_sequence_array three_entities 3 ["x"%string] 0 (Some 8) = Raise e.
Proof.
  apply (gen_sequence_array_missing_combination three_entities 3 ["x"%string] 0 (Some 8)
           (2, 2) (1, 1)); vm_compute; intuition discriminate.
Defined.

Example gen_sequence_array_three_entities :
  gen_sequence_array three_entities 3 ["x"%string] 0 (Some 8) = Raise ValueError /\
  gen_sequence_array three_entities 3 ["x"%string] 0 None = Raise ValueError.
Proof. split; vm_compute; reflexivity. Qed.

(** ** The mean of the same hour of the same day of the week *)

(** X25: [same_week_day_hour_lag] with [agg_func = "mean"], with offsets
    of [n_years] and [week_window] that are all [timedelta]s a [Timestamp]
    can be shifted by, on a series whose shifted timestamps are within the
    range of [Timestamp] and in which the timestamps reached by the
    offsets label one row each: the function returns the one column
    [output_colname]; the row of timestamp [t] receives the rounded mean of
    the values that are not missing among those at [t - w] weeks, for the
    offsets [w] with [t - w] weeks not before the start of the series, and
    no value when there is none. *)
Theorem same_week_day_hour_lag_mean (dt : list Z) (v : list cell) (n_years week_window mn : Z)
    (output_colname : string) :
  offsets_in_range weeks (week_lag_all n_years week_window) = true ->
  shifts_in_range weeks (week_lag_all n_years week_window) dt = true ->
  py_min dt = Ok mn -> List.length dt = List.length v ->
  lookup_total weeks (week_lag_all n_years week_window) dt = true ->
  exists out,
    same_week_day_hour_lag dt v n_years week_window "mean" None output_colname =
    Ok (mkDF dt [(output_colname, out)]) /\
    Forall2 (fun t c =>
               spec_rounded_mean
                 (offset_values weeks (week_lag_all n_years week_window) dt v mn t) c)
            dt out.
Proof. intros Hr _. now apply (lag_function_run_mean SameWeekDayHour). Qed.

Lemma same_week_day_hour_lag_mean_witness :
  exists out,
    same_week_day_hour_lag [0; weeks 52] two_values 1 0 "mean" None "SameWeekHourLag" =
    Ok (mkDF [0; weeks 52] [("SameWeekHourLag"%string, out)]) /\
    Forall2 (fun t c =>
               spec_rounded_mean
                 (offset_values weeks (week_lag_all 1 0) [0; weeks 52] two_values 0 t) c)
            [0; weeks 52] out.
Proof.
  apply (same_week_day_hour_lag_mean [0; weeks 52] two_values 1 0 0 "SameWeekHourLag");
    vm_compute; reflexivity.
Defined.

Example same_week_day_hour_lag_two_rows :
  same_week_day_hour_lag [0; weeks 52] two_values 1 0 "mean" None "SameWeekHourLag" =
  Ok (mkDF [0; weeks 52] [("SameWeekHourLag"%string, [None; Some 1%Q])]).
Proof. vm_compute. reflexivity. Qed.

Lemma lag_function_run_returns_witness :
  (exists mn, py_min three_days = Ok mn) /\
  offsets_in_range (lag_delta SameDayHour) (lag_offsets SameDayHour 3 1) = true /\
  lookup_total (lag_delta SameDayHour) (lag_offsets SameDayHour 3 1) three_days = true.
Proof.
  eapply (lag_function_run_returns SameDayHour three_days three_values 3 1 "mean" None
            "SameDayHourLag").
  - reflexivity.
  - vm_compute. reflexivity.
Defined.

(** ** One-hot encodings *)

Lemma NoDup_sorted_unique (l : list Z) : NoDup (sorted_unique l).
Proof.
  pose proof (sorted_unique_ascending l) as H.
  induction H as [|x s Hs IH Hx]; constructor; [|exact IH].
  intros Hin. rewrite Forall_forall in Hx. specialize (Hx x Hin).
  unfold below in Hx. rewrite Z.compare_refl in Hx. discriminate.
Qed.

Lemma indicator_sum (x : Z) (l : list Z) :
  NoDup l -> In x l -> fold_right Z.add 0 (map (fun v => if x =? v then 1 else 0) l) = 1.
Proof.
  induction 1 as [|v l Hv _ IH]; intros Hin; [contradiction|]. cbn [map fold_right].
  assert (Hzero : forall l', ~ In x l' ->
                  fold_right Z.add 0 (map (fun v => if x =? v then 1 else 0) l') = 0).
  { induction l' as [|y l' IHl]; intros Hn; [reflexivity|]. cbn [map fold_right].
    destruct (Z.eqb_spec x y) as [->|_]; [contradiction Hn; now left|].
    rewrite IHl; [reflexivity|]. intros H. apply Hn. now right. }
  destruct (Z.eqb_spec x v) as [->|Hne].
  - now rewrite Hzero.
  - destruct Hin as [->|Hin]; [contradiction|]. now rewrite IH.
Qed.

Lemma cells_of_row_dummies (col : list Z) (i : nat) (x : Z) :
  nth_error col i = Some x ->
  cells_of_row (get_dummies col) i = map (fun v => if x =? v then 1 else 0) (sorted_unique col).
Proof.
  intros Hi. unfold cells_of_row, get_dummies. rewrite map_map. apply map_ext.
  intros v. cbn [snd].
  assert (Hlt : (i < List.length col)%nat) by (apply nth_error_Some; congruence).
  rewrite (nth_indep _ 0 ((fun x => if x =? v then 1 else 0) 0))
    by (now rewrite length_map).
  rewrite (map_nth (fun x => if x =? v then 1 else 0)).
  now rewrite (nth_error_nth col i 0 Hi).
Qed.

(** X27: the one-hot encodings have one column for every value that
    occurs in the input, in ascending order of the values, and none for a
    value that does not occur: twelve columns of months only when every
    month occurs. The names of the columns differ, every column has one
    cell per row, and every row has a 1 in the column of its value and 0
    in the other columns. *)
Theorem encoded_one_hot (col : list Z) (prefix : string) :
  map fst (get_dummies col) = sorted_unique col /\
  (forall v, In v (map fst (get_dummies col)) <-> In v col) /\
  map fst (get_dummies_prefix col prefix) =
  map (fun v => (prefix ++ "_" ++ str v)%string) (sorted_unique col) /\
  NoDup (map fst (get_dummies_prefix col prefix)) /\
  map snd (get_dummies_prefix col prefix) = map snd (get_dummies col) /\
  Forall (fun c => List.length (snd c) = List.length col) (get_dummies col) /\
  forall i x, nth_error col i = Some x ->
    cells_of_row (get_dummies col) i =
    map (fun v => if x =? v then 1 else 0) (sorted_unique col) /\
    fold_right Z.add 0 (cells_of_row (get_dummies col) i) = 1.
Proof.
  assert (Hfst : map fst (get_dummies col) = sorted_unique col).
  { unfold get_dummies. rewrite map_map. cbn [fst]. apply map_id. }
  split; [exact Hfst|]. split; [|split; [|split; [|split; [|split]]]].
  - intros v. rewrite Hfst. apply In_sorted_unique.
  - unfold get_dummies_prefix. rewrite map_map. cbn [fst]. rewrite <- Hfst.
    now rewrite map_map.
  - unfold get_dummies_prefix. rewrite map_map. cbn [fst].
    rewrite <- (map_map fst (fun v => (prefix ++ "_" ++ str v)%string)), Hfst.
    apply Injective_map_NoDup; [|apply NoDup_sorted_unique].
    intros a b E. apply str_inj. eapply (append_inj_r "_"), (append_inj_r prefix), E.
  - unfold get_dummies_prefix. now rewrite map_map.
  - apply Forall_forall. intros c Hc. unfold get_dummies in Hc.
    apply in_map_iff in Hc. destruct Hc as (v & <- & _). cbn [snd]. apply length_map.
  - intros i x Hi. rewrite (cells_of_row_dummies col i x Hi). split; [reflexivity|].
    apply indicator_sum; [apply NoDup_sorted_unique|].
    apply In_sorted_unique. eapply nth_error_In. exact Hi.
Qed.

Example encoded_month_of_year_two_months :
  encoded_month_of_year [3; 1; 3] =
  [("MonthOfYear_1"%string, [0; 1; 0]); ("MonthOfYear_3"%string, [1; 0; 1])].
Proof. reflexivity. Qed.

(** ** [time_of_year] within a year *)

Lemma dayofyear_month_lt (dt1 dt2 : datetime) :
  valid_datetime dt1 -> valid_datetime dt2 -> year dt1 = year dt2 ->
  month dt1 < month dt2 -> dayofyear dt1 < dayofyear dt2.
Proof.
  intros (Hm1 & Hd1 & _) (Hm2 & Hd2 & _) Hy Hlt. unfold dayofyear. rewrite <- Hy in *.
  assert (H1 : month dt1 = 1 \/ month dt1 = 2 \/ month dt1 = 3 \/ month dt1 = 4 \/
               month dt1 = 5 \/ month dt1 = 6 \/ month dt1 = 7 \/ month dt1 = 8 \/
               month dt1 = 9 \/ month dt1 = 10 \/ month dt1 = 11) by lia.
  assert (H2 : month dt2 = 2 \/ month dt2 = 3 \/ month dt2 = 4 \/
               month dt2 = 5 \/ month dt2 = 6 \/ month dt2 = 7 \/ month dt2 = 8 \/
               month dt2 = 9 \/ month dt2 = 10 \/ month dt2 = 11 \/ month dt2 = 12) by lia.
  remember (days_before_month (year dt1) (month dt1)) as s1 eqn:Hs1.
  remember (days_in_month (year dt1) (month dt1)) as k1 eqn:Hk1.
  remember (days_before_month (year dt1) (month dt2)) as s2 eqn:Hs2.
  unfold days_before_month in Hs1, Hs2. unfold days_in_month in Hs1, Hk1, Hs2.
  destruct (isleap (year dt1)) eqn:E;
    repeat (destruct H1 as [H1 | H1]); rewrite H1 in Hs1, Hk1, Hlt;
    repeat (destruct H2 as [H2 | H2]); rewrite H2 in Hs2, Hlt;
    try lia; vm_compute in Hs1, Hk1, Hs2; lia.
Qed.

Lemma dayofyear_last_day (dt : datetime) :
  month dt = 12 -> day dt = 31 ->
  dayofyear dt = if isleap (year dt) then 366 else 365.
Proof.
  intros Hm Hd. unfold dayofyear. rewrite Hm, Hd.
  remember (days_before_month (year dt) 12) as s eqn:Hs.
  unfold days_before_month in Hs. unfold days_in_month in Hs.
  destruct (isleap (year dt)); vm_compute in Hs; lia.
Qed.

(** X28: within a year [time_of_year] grows strictly with the month, the
    day and the hour of the row; it is 0 in the first hour of the 1st of
    January and 1 in the last hour of the 31st of December, in leap years
    as in the others. *)
Theorem time_of_year_increasing (dt1 dt2 : datetime) :
  valid_datetime dt1 -> valid_datetime dt2 -> year dt1 = year dt2 ->
  earlier_in_year dt1 dt2 ->
  (time_of_year_at dt1 < time_of_year_at dt2)%Q /\
  (month dt1 = 1 -> day dt1 = 1 -> hour dt1 = 0 -> (time_of_year_at dt1 == 0)%Q) /\
  (month dt2 = 12 -> day dt2 = 31 -> hour dt2 = 23 -> (time_of_year_at dt2 == 1)%Q).
Proof.
  intros Hv1 Hv2 Hy Hearlier.
  assert (Hlt : (dayofyear dt1 - 1) * 24 + hour dt1 < (dayofyear dt2 - 1) * 24 + hour dt2).
  { pose proof Hv1 as (_ & _ & Hh1 & _). pose proof Hv2 as (_ & _ & Hh2 & _).
    destruct Hearlier as [Hm | (Hm & Hd)].
    - pose proof (dayofyear_month_lt dt1 dt2 Hv1 Hv2 Hy Hm). lia.
    - unfold dayofyear. rewrite Hy, Hm. lia. }
  unfold time_of_year_at. cbv zeta. rewrite <- Hy.
  set (d := (if isleap (year dt1) then 366 else 365) * 24 - 1).
  assert (Hd : 0 < d) by (unfold d; destruct (isleap (year dt1)); lia).
  assert (HdQ : (0 < inject_Z d)%Q) by (rewrite <- (Zlt_Qlt 0); exact Hd).
  assert (Hne : ~ (inject_Z d == 0)%Q) by (intros E; rewrite E in HdQ; discriminate).
  split; [|split].
  - unfold Qdiv. apply Qmult_lt_compat_r; [now apply Qinv_lt_0_compat|].
    rewrite <- Zlt_Qlt. exact Hlt.
  - intros Hm Hday Hh. unfold dayofyear. rewrite Hm, Hday, Hh.
    unfold days_before_month. cbn [range Z.sub Z.to_nat seq map fold_right].
    unfold Qdiv. apply Qmult_0_l.
  - intros Hm Hday Hh.
    assert (Hn : (dayofyear dt2 - 1) * 24 + hour dt2 = d).
    { rewrite (dayofyear_last_day dt2 Hm Hday), <- Hy, Hh. unfold d.
      destruct (isleap (year dt1)); reflexivity. }
    rewrite Hn. now field.
Qed.

Lemma time_of_year_increasing_witness :
  (time_of_year_at (mkdatetime 2016 1 1 0 30 0) <
   time_of_year_at (mkdatetime 2016 12 31 23 0 0))%Q /\
  (1 = 1 -> 1 = 1 -> 0 = 0 -> (time_of_year_at (mkdatetime 2016 1 1 0 30 0) == 0)%Q) /\
  (12 = 12 -> 31 = 31 -> 23 = 23 ->
   (time_of_year_at (mkdatetime 2016 12 31 23 0 0) == 1)%Q).
Proof.
  apply (time_of_year_increasing (mkdatetime 2016 1 1 0 30 0)
                                 (mkdatetime 2016 12 31 23 0 0)).
  - vm_compute. intuition discriminate.
  - vm_compute. intuition discriminate.
  - reflexivity.
  - left. vm_compute. reflexivity.
Defined.
